(** * NS-Stores back office: the report controllers

    A shallow embedding of [src/controllers/reportController.js], of the
    [protect] middleware and of the report router, with the properties of
    the reporting layer stated over it.

    Conventions of the model.
    - A JavaScript Date is its time value: milliseconds since the epoch, or
      NaN for an Invalid Date.  A time value is [option Z], [None] being NaN.
      The operations on dates follow the ECMAScript definitions ([Day],
      [YearFromTime], [MakeDay], [TimeClip], ...).
    - The local time zone of the server is ECMAScript's [LocalTZA]: the
      offset of local time from UTC, in milliseconds, at a UTC time and at a
      local time.  It may change with the time, as it does where daylight
      saving is kept.
    - [new Date()] reads a clock; a handler is run against one reading
      [now] of it, and [protect] against a reading of its own.
    - Numeric document fields (stock, price, totalAmount, loginCount) are
      integers; an average is the IEEE double that [$avg] gives, the sum
      divided by the count.  [parseInt] yields an integer or NaN; the
      rounding of a long run of digits to a double is left out.
    - A string is the UTF-8 text of the JavaScript string.
    - A query whose filter holds an Invalid Date is rejected, as mongoose
      cannot cast the value to the type of the path; the message of the
      error is mongoose's, and is a parameter of the model.
    - A collection is the list of its documents in storage order.  [$group]
      emits its groups in order of first appearance and a sort is stable. *)

From Stdlib Require Import ZArith List String Ascii Bool Lia QArith Permutation Sorted.
From Stdlib Require PrimFloat SpecFloat FloatOps.
Import ListNotations.
Local Open Scope string_scope.
Local Open Scope Z_scope.

(** ** ECMAScript time values *)

Module JSDate.

Definition msPerDay : Z := 86400000.
Definition msPerHour : Z := 3600000.
Definition msPerMinute : Z := 60000.
Definition msPerSecond : Z := 1000.
Definition maxTime : Z := 8640000000000000.

Definition Day (t : Z) : Z := t / msPerDay.
Definition TimeWithinDay (t : Z) : Z := t mod msPerDay.

Definition isLeap (y : Z) : bool :=
  if negb (y mod 4 =? 0) then false
  else if negb (y mod 100 =? 0) then true
  else if negb (y mod 400 =? 0) then false
  else true.

Definition DaysInYear (y : Z) : Z := if isLeap y then 366 else 365.

Definition DayFromYear (y : Z) : Z :=
  365 * (y - 1970) + (y - 1969) / 4 - (y - 1901) / 100 + (y - 1601) / 400.

Definition TimeFromYear (y : Z) : Z := msPerDay * DayFromYear y.

(** The year of a day number: the largest [y] with [DayFromYear y <= d].
    An estimate from the mean length of a year is off by at most one. *)
Definition YearFromDay (d : Z) : Z :=
  let y0 := 1970 + (d * 400) / 146097 in
  if DayFromYear (y0 + 1) <=? d then y0 + 1
  else if d <? DayFromYear y0 then y0 - 1
  else y0.

Definition YearFromTime (t : Z) : Z := YearFromDay (Day t).

Definition InLeapYear (t : Z) : Z := if isLeap (YearFromTime t) then 1 else 0.

Definition DayWithinYear (t : Z) : Z := Day t - DayFromYear (YearFromTime t).

(** Number of days of the year before month [mn] (0 = January). *)
Definition monthStart (mn : Z) (leap : Z) : Z :=
  if mn =? 0 then 0
  else if mn =? 1 then 31
  else if mn =? 2 then 59 + leap
  else if mn =? 3 then 90 + leap
  else if mn =? 4 then 120 + leap
  else if mn =? 5 then 151 + leap
  else if mn =? 6 then 181 + leap
  else if mn =? 7 then 212 + leap
  else if mn =? 8 then 243 + leap
  else if mn =? 9 then 273 + leap
  else if mn =? 10 then 304 + leap
  else 334 + leap.

Definition MonthFromTime (t : Z) : Z :=
  let d := DayWithinYear t in
  let l := InLeapYear t in
  if d <? 31 then 0
  else if d <? 59 + l then 1
  else if d <? 90 + l then 2
  else if d <? 120 + l then 3
  else if d <? 151 + l then 4
  else if d <? 181 + l then 5
  else if d <? 212 + l then 6
  else if d <? 243 + l then 7
  else if d <? 273 + l then 8
  else if d <? 304 + l then 9
  else if d <? 334 + l then 10
  else 11.

Definition DateFromTime (t : Z) : Z :=
  DayWithinYear t - monthStart (MonthFromTime t) (InLeapYear t) + 1.

Definition HourFromTime (t : Z) : Z := (t / msPerHour) mod 24.
Definition MinFromTime (t : Z) : Z := (t / msPerMinute) mod 60.
Definition SecFromTime (t : Z) : Z := (t / msPerSecond) mod 60.
Definition msFromTime (t : Z) : Z := t mod msPerSecond.

(** [MakeDay (year, month, date)]: the day number of the first of the month,
    months beyond 0..11 carried into the year, plus [date - 1]. *)
Definition MakeDay (year month date : Z) : Z :=
  let ym := year + month / 12 in
  let mn := month mod 12 in
  DayFromYear ym + monthStart mn (if isLeap ym then 1 else 0) + date - 1.

Definition MakeTime (h m s ms : Z) : Z :=
  h * msPerHour + m * msPerMinute + s * msPerSecond + ms.

Definition MakeDate (day time : Z) : Z := day * msPerDay + time.

(** A JavaScript number that holds an integer, or NaN. *)
Definition number := option Z.

(** A Date object: its time value, NaN for an Invalid Date. *)
Definition Date := option Z.

Definition TimeClip (t : Z) : Date :=
  if Z.abs t >? maxTime then None else Some t.

Definition num_sub (a b : number) : number :=
  match a, b with Some x, Some y => Some (x - y) | _, _ => None end.

Definition num_add (a b : number) : number :=
  match a, b with Some x, Some y => Some (x + y) | _, _ => None end.

(** [LocalTZA (t, isUTC)]: the offset of local time from UTC, in
    milliseconds, at the UTC time [t] when [isUTC] is true, and at the
    local time [t] when it is false. *)
Definition Zone : Type := Z -> bool -> Z.

(** A zone that keeps one offset. *)
Definition fixedOffset (tza : Z) : Zone := fun _ _ => tza.

Section LocalZone.

Variable zone : Zone.

Definition LocalTime (t : Z) : Z := t + zone t true.
Definition UTC (t : Z) : Z := t - zone t false.

(** [new Date()] at clock reading [now]. *)
Definition Date_now (now : Z) : Date := TimeClip now.

(** [new Date(value)] for a number. *)
Definition Date_of_number (v : number) : Date :=
  match v with Some t => TimeClip t | None => None end.

Definition getTime (d : Date) : number := d.

Definition getDate (d : Date) : number :=
  match d with Some t => Some (DateFromTime (LocalTime t)) | None => None end.

Definition getMonth (d : Date) : number :=
  match d with Some t => Some (MonthFromTime (LocalTime t)) | None => None end.

Definition getFullYear (d : Date) : number :=
  match d with Some t => Some (YearFromTime (LocalTime t)) | None => None end.

(** [d.setDate(dt)]: the Date after the call. *)
Definition setDate (d : Date) (dt : number) : Date :=
  match d, dt with
  | Some t, Some n =>
      let lt := LocalTime t in
      TimeClip (UTC (MakeDate (MakeDay (YearFromTime lt) (MonthFromTime lt) n)
                              (TimeWithinDay lt)))
  | _, _ => None
  end.

(** [d.setMonth(m)]: the Date after the call. *)
Definition setMonth (d : Date) (m : number) : Date :=
  match d, m with
  | Some t, Some n =>
      let lt := LocalTime t in
      TimeClip (UTC (MakeDate (MakeDay (YearFromTime lt) n (DateFromTime lt))
                              (TimeWithinDay lt)))
  | _, _ => None
  end.

(** [new Date(year, month, date)]: local midnight of that day; a year in
    0..99 stands for 1900 + year. *)
Definition Date_ymd (year month date : number) : Date :=
  match year, month, date with
  | Some y, Some m, Some dt =>
      let yr := if (0 <=? y) && (y <=? 99) then 1900 + y else y in
      TimeClip (UTC (MakeDate (MakeDay yr m dt) (MakeTime 0 0 0 0)))
  | _, _, _ => None
  end.

End LocalZone.

End JSDate.

(** ** Errors: a rejected promise or a thrown exception, caught by the
    handler's [try]/[catch] *)

Inductive result (A : Type) : Type :=
| Ok (a : A)
| Err (message : string).

Arguments Ok {A} a.
Arguments Err {A} message.

Definition bind {A B : Type} (c : result A) (k : A -> result B) : result B :=
  match c with
  | Ok a => k a
  | Err e => Err e
  end.

Notation "x <- c ;; k" := (bind c (fun x => k))
  (at level 61, c at next level, right associativity).

Fixpoint mapM {A B : Type} (f : A -> result B) (l : list A) : result (list B) :=
  match l with
  | [] => Ok []
  | a :: t => b <- f a ;; bs <- mapM f t ;; Ok (b :: bs)
  end.

(** ** The platform of the server

    What the controllers take from the platform they run on: the time zone
    of the host, and the text that mongoose gives to the CastError of an
    Invalid Date in a filter, from the name of the model and the path.
    Mongoose and the models are not among the sources. *)

Record Host : Type := {
  localZone :> JSDate.Zone;
  castErrorMessage : string -> string -> string
}.

(** ** Strings *)

Module JSString.

Definition isDigit (c : ascii) : bool :=
  let n := nat_of_ascii c in (48 <=? n)%nat && (n <=? 57)%nat.

Definition digitValue (c : ascii) : Z := Z.of_nat (nat_of_ascii c) - 48.

(** Value of a character as a digit in radix 16, if it is one. *)
Definition hexValue (c : ascii) : option Z :=
  let n := nat_of_ascii c in
  if (48 <=? n)%nat && (n <=? 57)%nat then Some (Z.of_nat n - 48)
  else if (65 <=? n)%nat && (n <=? 70)%nat then Some (Z.of_nat n - 55)
  else if (97 <=? n)%nat && (n <=? 102)%nat then Some (Z.of_nat n - 87)
  else None.

Definition radixValue (radix : Z) (c : ascii) : option Z :=
  if radix =? 16 then hexValue c
  else if isDigit c then Some (digitValue c) else None.

(** White space and line terminators of one byte: tab, line feed, vertical
    tab, form feed, carriage return, space. *)
Definition isWhiteSpace (c : ascii) : bool :=
  let n := nat_of_ascii c in
  ((9 <=? n)%nat && (n <=? 13)%nat) || (n =? 32)%nat.

(** The two bytes of U+00A0, the no-break space. *)
Definition isWhiteSpace2 (c0 c1 : ascii) : bool :=
  (nat_of_ascii c0 =? 194)%nat && (nat_of_ascii c1 =? 160)%nat.

(** The first of the three bytes of the other white space characters. *)
Definition leadsWhiteSpace3 (c0 : ascii) : bool :=
  let n := nat_of_ascii c0 in
  (n =? 225)%nat || (n =? 226)%nat || (n =? 227)%nat || (n =? 239)%nat.

(** The three bytes of U+1680, of U+2000 to U+200A, of the line and
    paragraph separators U+2028 and U+2029, of U+202F, of U+205F, of U+3000
    and of the byte order mark U+FEFF. *)
Definition isWhiteSpace3 (c0 c1 c2 : ascii) : bool :=
  let n0 := nat_of_ascii c0 in
  let n1 := nat_of_ascii c1 in
  let n2 := nat_of_ascii c2 in
  ((n0 =? 225)%nat && (n1 =? 154)%nat && (n2 =? 128)%nat)
  || ((n0 =? 226)%nat && (n1 =? 128)%nat
      && (((128 <=? n2)%nat && (n2 <=? 138)%nat)
          || (n2 =? 168)%nat || (n2 =? 169)%nat || (n2 =? 175)%nat))
  || ((n0 =? 226)%nat && (n1 =? 129)%nat && (n2 =? 159)%nat)
  || ((n0 =? 227)%nat && (n1 =? 128)%nat && (n2 =? 128)%nat)
  || ((n0 =? 239)%nat && (n1 =? 187)%nat && (n2 =? 191)%nat).

(** The input without its leading white space (StrWhiteSpaceChar: WhiteSpace
    and LineTerminator). *)
Fixpoint trimStart (s : string) : string :=
  match s with
  | EmptyString => EmptyString
  | String c0 r0 =>
      if isWhiteSpace c0 then trimStart r0
      else if (nat_of_ascii c0 =? 194)%nat then
        match r0 with
        | String c1 r1 => if isWhiteSpace2 c0 c1 then trimStart r1 else s
        | EmptyString => s
        end
      else if leadsWhiteSpace3 c0 then
        match r0 with
        | String c1 (String c2 r2) =>
            if isWhiteSpace3 c0 c1 c2 then trimStart r2 else s
        | _ => s
        end
      else s
  end.

(** Reads the longest prefix of radix digits; [acc] is the value read so
    far, [None] while no digit has been read. *)
Fixpoint readDigits (radix : Z) (acc : option Z) (s : string) : option Z :=
  match s with
  | String c r =>
      match radixValue radix c with
      | Some d =>
          readDigits radix
            (Some (match acc with Some a => a * radix + d | None => d end)) r
      | None => acc
      end
  | EmptyString => acc
  end.

Definition isX (c : ascii) : bool :=
  let n := nat_of_ascii c in (n =? 120)%nat || (n =? 88)%nat.

(** The sign of the input and what follows it. *)
Definition signOf (s : string) : Z * string :=
  match s with
  | String c r =>
      if (nat_of_ascii c =? 45)%nat then (-1, r)
      else if (nat_of_ascii c =? 43)%nat then (1, r)
      else (1, s)
  | EmptyString => (1, s)
  end.

(** The radix and what follows the prefix: 16 after [0x] or [0X], else 10. *)
Definition radixOf (s : string) : Z * string :=
  match s with
  | String c0 (String c1 r) =>
      if (nat_of_ascii c0 =? 48)%nat && isX c1 then (16, r) else (10, s)
  | _ => (10, s)
  end.

(** [parseInt(s)] without a radix: [None] is NaN. *)
Definition parseInt (input : string) : option Z :=
  let '(sign, s1) := signOf (trimStart input) in
  let '(radix, s2) := radixOf s1 in
  match readDigits radix None s2 with
  | Some v => Some (sign * v)
  | None => None
  end.

Definition digitChar (d : Z) : ascii := ascii_of_nat (48 + Z.to_nat d).

(** The [width] low decimal digits of [n], most significant first. *)
Fixpoint pad (width : nat) (n : Z) : string :=
  match width with
  | O => EmptyString
  | S w => pad w (n / 10) ++ String (digitChar (n mod 10)) EmptyString
  end.

(** [s.split(sep)] for a one-character separator. *)
Fixpoint splitAux (sep : ascii) (cur : string) (s : string) : list string :=
  match s with
  | EmptyString => [cur]
  | String c r =>
      if Ascii.eqb c sep then cur :: splitAux sep EmptyString r
      else splitAux sep (cur ++ String c EmptyString) r
  end.

Definition split (sep : ascii) (s : string) : list string :=
  splitAux sep EmptyString s.

(** [s.startsWith(p)] *)
Definition startsWith (p s : string) : bool := String.prefix p s.

(** [s.substring(0, n)] *)
Definition substring0 (n : nat) (s : string) : string := String.substring 0 n s.

End JSString.

Module JSDateString.
Import JSDate JSString.

(** The ISO 8601 text of a time value, in UTC. *)
Definition isoString (t : Z) : string :=
  let y := YearFromTime t in
  let year :=
    if (0 <=? y) && (y <=? 9999) then pad 4 y
    else if y <? 0 then "-" ++ pad 6 (- y)
    else "+" ++ pad 6 y in
  year ++ "-" ++ pad 2 (MonthFromTime t + 1) ++ "-" ++ pad 2 (DateFromTime t)
  ++ "T" ++ pad 2 (HourFromTime t) ++ ":" ++ pad 2 (MinFromTime t)
  ++ ":" ++ pad 2 (SecFromTime t) ++ "." ++ pad 3 (msFromTime t) ++ "Z".

(** [Date.prototype.toISOString]: a RangeError on an Invalid Date. *)
Definition toISOString (d : Date) : result string :=
  match d with
  | None => Err "Invalid time value"
  | Some t => Ok (isoString t)
  end.

End JSDateString.

(** ** JSON values, as passed to [res.json] *)

#[local] Set Warnings "-register-all".

Inductive json : Type :=
| JNull
| JBool (b : bool)
| JNum (q : Q)
| JDouble (f : PrimFloat.float)
| JStr (s : string)
| JArr (items : list json)
| JObj (fields : list (string * json)).

Definition JInt (z : Z) : json := JNum (inject_Z z).
Definition JNat (n : nat) : json := JInt (Z.of_nat n).

(** The empty object literal [{}]. *)
Definition emptyObject : json := JObj [].

Fixpoint assoc (k : string) (fields : list (string * json)) : option json :=
  match fields with
  | [] => None
  | (k', v) :: r => if String.eqb k k' then Some v else assoc k r
  end.

(** [o.k]: [None] is undefined. *)
Definition jfield (k : string) (o : json) : option json :=
  match o with
  | JObj fields => assoc k fields
  | _ => None
  end.

Fixpoint jpath (ks : list string) (o : json) : option json :=
  match ks with
  | [] => Some o
  | k :: r => match jfield k o with Some v => jpath r v | None => None end
  end.

(** A stored date in a response: [Date.prototype.toJSON]. *)
Definition JDate (t : Z) : json :=
  match JSDateString.toISOString (JSDate.TimeClip t) with
  | Ok s => JStr s
  | Err _ => JNull
  end.

Definition JOpt {A : Type} (f : A -> json) (o : option A) : json :=
  match o with Some a => f a | None => JNull end.

(** ** Documents

    The five mongoose schemas are not among the sources.  Each record has
    the fields that the controllers read and that the data model of the
    specification lists; a date is its time value and [_id] is the text of
    the ObjectId. *)

Module Product.
(** Modelled from the spec: the schema of [models/Product.js] is missing;
    the fields are those of the Product row of the data model. *)
Record t : Type := {
  _id : string;
  name : string;
  sku : string;
  category : string;
  price : Z;
  stock : Z;
  minStock : Z;
  isActive : bool;
  supplier : option string;
  image : string;
  createdAt : Z;
  updatedAt : Z
}.
End Product.

Module Supplier.
(** Modelled from the spec: the schema of [models/Supplier.js] is missing;
    the fields are those of the Supplier row of the data model. *)
Record t : Type := {
  _id : string;
  name : string;
  location : string;
  isActive : bool;
  agreementStartDate : Z;
  agreementEndDate : Z;
  createdAt : Z
}.
End Supplier.

Module User.
(** Modelled from the spec: the schema of [models/User.js] is missing; the
    fields are those of the User row of the data model, and [isActive],
    which [protect] reads.  [lastLogin] is absent until the first login. *)
Inductive Role : Type := admin | customer.
Record t : Type := {
  _id : string;
  fullName : string;
  email : string;
  role : Role;
  isActive : bool;
  loginCount : Z;
  lastLogin : option Z;
  createdAt : Z
}.
End User.

Module Quotation.
(** Modelled from the spec: the schema of [models/Quotation.js] is missing;
    the fields are those of the Quotation row of the data model. *)
Inductive Status : Type := pending | processing | completed | rejected.
Record t : Type := {
  _id : string;
  status : Status;
  productCategory : string;
  totalAmount : Z;
  createdAt : Z;
  updatedAt : Z
}.
End Quotation.

Module Reservation.
(** Modelled from the spec: the schema of [models/reservation.js] is missing;
    the fields are those of the Reservation row of the data model. *)
Inductive Status : Type := pending | confirmed | completed | cancelled.
Record t : Type := {
  _id : string;
  status : Status;
  email : string;
  createdAt : Z;
  updatedAt : Z
}.
End Reservation.

(** The five collections. *)
Record DB : Type := {
  Products : list Product.t;
  Suppliers : list Supplier.t;
  Users : list User.t;
  Quotations : list Quotation.t;
  Reservations : list Reservation.t
}.

(** ** Queries and aggregation stages *)

Module Mongo.
Import JSDate.

Inductive cmp : Type := gte | gt | lte | lt.

Definition cmp_holds (op : cmp) (x bound : Z) : bool :=
  match op with
  | gte => bound <=? x
  | gt => bound <? x
  | lte => x <=? bound
  | lt => x <? bound
  end.

(** Casting a Date to the schema type of a date path: the time value, and
    nothing for an Invalid Date, which mongoose rejects with a CastError. *)
Definition castDate (d : Date) : option Z := d.

(** Casting the dates of a filter: [message] is the message of the
    CastError for the path of the filter. *)
Definition castCond (message : string) (c : list (cmp * Date))
  : result (list (cmp * Z)) :=
  mapM (fun '(op, d) =>
          match castDate d with
          | Some t => Ok (op, t)
          | None => Err message
          end) c.

(** A document matches a condition on a date path when the path is
    present and every comparison holds. *)
Definition matchesDate (c : list (cmp * Z)) (v : option Z) : bool :=
  match v with
  | Some x => forallb (fun '(op, bound) => cmp_holds op x bound) c
  | None => false
  end.

(** A filter after casting, or the cast error. *)
Definition Filter (A : Type) : Type := result (A -> bool).

Definition all {A : Type} : Filter A := Ok (fun _ => true).

Definition where_ {A : Type} (p : A -> bool) : Filter A := Ok p.

Definition whereDate {A : Type} (message : string) (path : A -> option Z)
  (c : list (cmp * Date)) : Filter A :=
  cs <- castCond message c ;; Ok (fun a => matchesDate cs (path a)).

Definition both {A : Type} (f g : Filter A) : Filter A :=
  p <- f ;; q <- g ;; Ok (fun a => p a && q a).

Definition countDocuments {A : Type} (coll : list A) (f : Filter A) : result nat :=
  p <- f ;; Ok (List.length (filter p coll)).

Definition find {A : Type} (coll : list A) (f : Filter A) : result (list A) :=
  p <- f ;; Ok (filter p coll).

(** [$match] *)
Definition match_ {A : Type} (f : Filter A) (docs : list A) : result (list A) :=
  p <- f ;; Ok (filter p docs).

(** Stable insertion sort; [le a b] says that [a] may come before [b]. *)
Fixpoint insertBy {A : Type} (le : A -> A -> bool) (x : A) (l : list A) : list A :=
  match l with
  | [] => [x]
  | y :: r => if le x y then x :: l else y :: insertBy le x r
  end.

Definition sortBy {A : Type} (le : A -> A -> bool) (l : list A) : list A :=
  fold_right (insertBy le) [] l.

(** [{ $sort: { key: 1 } }] and [{ $sort: { key: -1 } }] on an integer key. *)
Definition ascending {A : Type} (key : A -> Z) (l : list A) : list A :=
  sortBy (fun a b => key a <=? key b) l.

Definition descending {A : Type} (key : A -> Z) (l : list A) : list A :=
  sortBy (fun a b => key b <=? key a) l.

(** [$limit] *)
Definition limit {A : Type} (n : nat) (l : list A) : list A := firstn n l.

(** [$group] by a key: the groups in order of first appearance, each with
    its documents in input order. *)
Fixpoint addToGroup {A K : Type} (eqb : K -> K -> bool) (k : K) (a : A)
  (gs : list (K * list A)) : list (K * list A) :=
  match gs with
  | [] => [(k, [a])]
  | (k', docs) :: r =>
      if eqb k k' then (k', (docs ++ [a])%list) :: r
      else (k', docs) :: addToGroup eqb k a r
  end.

Definition group {A K : Type} (eqb : K -> K -> bool) (key : A -> K)
  (docs : list A) : list (K * list A) :=
  fold_left (fun gs a => addToGroup eqb (key a) a gs) docs [].

(** [$group] with [_id: null]: one group of all documents, and no group
    when there is no document. *)
Definition groupAll {A : Type} (docs : list A) : list (list A) :=
  match docs with
  | [] => []
  | _ => [docs]
  end.

(** Accumulators. *)
Definition sum (l : list Z) : Z := fold_left Z.add l 0.

(** The double nearest to an integer. *)
Definition toDouble (z : Z) : PrimFloat.float :=
  FloatOps.SF2Prim
    (SpecFloat.binary_normalize FloatOps.prec FloatOps.emax z 0 false).

(** [$avg]: the sum divided by the count, as doubles. *)
Definition avg (l : list Z) : option PrimFloat.float :=
  match l with
  | [] => None
  | _ =>
      Some (PrimFloat.div (toDouble (sum l))
              (toDouble (Z.of_nat (List.length l))))
  end.

Definition max (l : list Z) : option Z :=
  match l with
  | [] => None
  | x :: r => Some (fold_left Z.max r x)
  end.

Definition min (l : list Z) : option Z :=
  match l with
  | [] => None
  | x :: r => Some (fold_left Z.min r x)
  end.

(** The values of an optional path that are present. *)
Definition present {A B : Type} (path : A -> option B) (docs : list A) : list B :=
  flat_map (fun a => match path a with Some b => [b] | None => [] end) docs.

(** [$lookup] into [from] on [_id], then [$unwind] of the joined array: one
    output per joined document, none when the reference does not resolve. *)
Definition lookupUnwind {G F : Type} (from : list F) (foreignId : F -> string)
  (localId : G -> string) (gs : list G) : list (G * F) :=
  flat_map (fun g =>
    map (fun f => (g, f))
        (filter (fun f => String.eqb (foreignId f) (localId g)) from)) gs.

(** [$bucket]: the identifier of the bucket of a value is the lower bound
    of the interval of [boundaries] that holds it. *)
Fixpoint bucketOf (boundaries : list Z) (v : Z) : option Z :=
  match boundaries with
  | lo :: ((hi :: _) as r) =>
      if (lo <=? v) && (v <? hi) then Some lo else bucketOf r v
  | _ => None
  end.

End Mongo.

(** ** JavaScript expressions of the controllers *)

Module JS.

(** Truthiness of a value. *)
Definition truthy (v : json) : bool :=
  match v with
  | JNull => false
  | JBool b => b
  | JNum q => negb (Qeq_bool q 0)
  | JDouble f => negb (PrimFloat.eqb f PrimFloat.zero || PrimFloat.is_nan f)
  | JStr s => negb (String.eqb s "")
  | JArr _ => true
  | JObj _ => true
  end.

(** [a[0]]: [None] is undefined. *)
Definition index0 (a : list json) : option json :=
  match a with
  | x :: _ => Some x
  | [] => None
  end.

(** [v?.k] *)
Definition optField (v : option json) (k : string) : option json :=
  match v with
  | Some o => jfield k o
  | None => None
  end.

(** [v || d] *)
Definition or_ (v : option json) (d : json) : json :=
  match v with
  | Some x => if truthy x then x else d
  | None => d
  end.

End JS.

(** ** The report controllers *)

(** [req.query] *)
Record Query : Type := { period : option string }.

Record Response : Type := { status : Z; body : json }.

(** [res.json(body)] and [res.status(code).json(body)] *)
Definition res_json (b : json) : Response := {| status := 200; body := b |}.
Definition res_status_json (code : Z) (b : json) : Response :=
  {| status := code; body := b |}.

Definition success (data : json) : json :=
  JObj [("success", JBool true); ("data", data)].

Definition failure (message : string) : json :=
  JObj [("success", JBool false); ("message", JStr message)].

(** The body of a handler is its [try] block; the [catch] block answers
    500 with the message of the error. *)
Definition handler (tryBlock : result json) : Response :=
  match tryBlock with
  | Ok b => res_json b
  | Err message => res_status_json 500 (failure message)
  end.

Import JSDate JSString JSDateString Mongo JS.

(** Every controller is a function of the [host], which has the time zone of
    the server, and of the reading [now] of the clock, besides the
    collections and the request. *)

(** The first four lines of the five period reports:
    [const { period = '30' } = req.query; const days = parseInt(period);
     const startDate = new Date(); startDate.setDate(startDate.getDate() - days);] *)
Definition days (query : Query) : number :=
  parseInt (match period query with Some p => p | None => "30" end).

Definition startDate (host : Host) (now : Z) (query : Query) : Date :=
  let startDate := Date_now now in
  setDate host startDate (num_sub (getDate host startDate) (days query)).

(** [{ $multiply: ['$price', '$stock'] }] *)
Definition stockValueOf (p : Product.t) : Z := Product.price p * Product.stock p.

(** [$expr: { $lte: ['$stock', '$minStock'] }] *)
Definition lowStock (p : Product.t) : bool := Product.stock p <=? Product.minStock p.

Definition hasSupplier (p : Product.t) : bool :=
  match Product.supplier p with Some _ => true | None => false end.

Definition supplierRef (p : Product.t) : string :=
  match Product.supplier p with Some s => s | None => "" end.

Definition size {A : Type} (l : list A) : Z := Z.of_nat (List.length l).

Definition supplierDoc (s : Supplier.t) : json :=
  JObj [("_id", JStr (Supplier._id s)); ("name", JStr (Supplier.name s));
        ("location", JStr (Supplier.location s));
        ("isActive", JBool (Supplier.isActive s));
        ("agreementStartDate", JDate (Supplier.agreementStartDate s));
        ("agreementEndDate", JDate (Supplier.agreementEndDate s));
        ("createdAt", JDate (Supplier.createdAt s))].

(** *** Product report *)

Module ProductReport.

(** [.select('name sku stock minStock image category price')] *)
Definition selectLowStock (p : Product.t) : json :=
  JObj [("_id", JStr (Product._id p)); ("name", JStr (Product.name p));
        ("sku", JStr (Product.sku p)); ("stock", JInt (Product.stock p));
        ("minStock", JInt (Product.minStock p)); ("image", JStr (Product.image p));
        ("category", JStr (Product.category p)); ("price", JInt (Product.price p))].

(** [.select('name sku stock image category price updatedAt')] *)
Definition selectOutOfStock (p : Product.t) : json :=
  JObj [("_id", JStr (Product._id p)); ("name", JStr (Product.name p));
        ("sku", JStr (Product.sku p)); ("stock", JInt (Product.stock p));
        ("image", JStr (Product.image p)); ("category", JStr (Product.category p));
        ("price", JInt (Product.price p)); ("updatedAt", JDate (Product.updatedAt p))].

Section Handler.
Variable host : Host.
Variable now : Z.

Record locals : Type := {
  totalProducts : nat;
  activeProducts : nat;
  lowStockProducts : nat;
  outOfStockProducts : nat;
  categoryStats : list json;
  stockValueStats : list json;
  recentProducts : nat;
  supplierStats : list json;
  lowStockProductsList : list json;
  outOfStockProductsList : list json
}.

Definition categoryGroup (g : string * list Product.t) : json :=
  JObj [("_id", JStr (fst g)); ("count", JInt (size (snd g)));
        ("totalValue", JInt (sum (map stockValueOf (snd g))))].

Definition stockValueGroup (docs : list Product.t) : json :=
  JObj [("_id", JNull);
        ("totalStockValue", JInt (sum (map stockValueOf docs)));
        ("avgPrice", JOpt JDouble (avg (map Product.price docs)));
        ("maxPrice", JOpt JInt (max (map Product.price docs)));
        ("minPrice", JOpt JInt (min (map Product.price docs)))].

Definition supplierGroup (g : (string * list Product.t) * Supplier.t) : json :=
  JObj [("_id", JStr (fst (fst g)));
        ("productCount", JInt (size (snd (fst g))));
        ("totalStockValue", JInt (sum (map stockValueOf (snd (fst g)))));
        ("supplierInfo", supplierDoc (snd g))].

Definition queries (db : DB) (query : Query) : result locals :=
  let startDate := startDate host now query in
  totalProducts <- countDocuments (Products db) all ;;
  activeProducts <- countDocuments (Products db) (where_ Product.isActive) ;;
  lowStockProducts <-
    countDocuments (Products db)
      (where_ (fun p => lowStock p && Product.isActive p)) ;;
  outOfStockProducts <-
    countDocuments (Products db)
      (where_ (fun p => (Product.stock p =? 0) && Product.isActive p)) ;;
  categoryStats <-
    (docs <- match_ (where_ Product.isActive) (Products db) ;;
     Ok (map categoryGroup
           (descending (fun g => size (snd g))
              (group String.eqb Product.category docs)))) ;;
  stockValueStats <-
    (docs <- match_ (where_ Product.isActive) (Products db) ;;
     Ok (map stockValueGroup (groupAll docs))) ;;
  recentProducts <-
    countDocuments (Products db)
      (whereDate (castErrorMessage host "Product" "createdAt")
         (fun p => Some (Product.createdAt p)) [(gte, startDate)]) ;;
  supplierStats <-
    (docs <- match_ (where_ (fun p => Product.isActive p && hasSupplier p))
               (Products db) ;;
     Ok (map supplierGroup
           (limit 10
              (descending (fun g => size (snd (fst g)))
                 (lookupUnwind (Suppliers db) Supplier._id fst
                    (group String.eqb supplierRef docs)))))) ;;
  lowStockProductsList <-
    (docs <- find (Products db)
               (where_ (fun p => lowStock p && (0 <? Product.stock p)
                                 && Product.isActive p)) ;;
     Ok (map selectLowStock (ascending Product.stock docs))) ;;
  outOfStockProductsList <-
    (docs <- find (Products db)
               (where_ (fun p => (Product.stock p =? 0) && Product.isActive p)) ;;
     Ok (map selectOutOfStock (descending Product.updatedAt docs))) ;;
  Ok {| totalProducts := totalProducts;
        activeProducts := activeProducts;
        lowStockProducts := lowStockProducts;
        outOfStockProducts := outOfStockProducts;
        categoryStats := categoryStats;
        stockValueStats := stockValueStats;
        recentProducts := recentProducts;
        supplierStats := supplierStats;
        lowStockProductsList := lowStockProductsList;
        outOfStockProductsList := outOfStockProductsList |}.

Definition response (l : locals) : json :=
  success (JObj [
    ("overview", JObj [
       ("totalProducts", JNat (totalProducts l));
       ("activeProducts", JNat (activeProducts l));
       ("lowStockProducts", JNat (lowStockProducts l));
       ("outOfStockProducts", JNat (outOfStockProducts l));
       ("recentProducts", JNat (recentProducts l))]);
    ("categoryDistribution", JArr (categoryStats l));
    ("stockValue", or_ (index0 (stockValueStats l)) emptyObject);
    ("topSuppliers", JArr (supplierStats l));
    ("lowStockProducts", JArr (lowStockProductsList l));
    ("outOfStockProducts", JArr (outOfStockProductsList l))]).

End Handler.

End ProductReport.

Definition getProductReports (host : Host) (now : Z) (db : DB) (query : Query) : Response :=
  handler (l <- ProductReport.queries host now db query ;;
           Ok (ProductReport.response l)).

(** *** Supplier report *)

Module SupplierReport.

Record locals : Type := {
  totalSuppliers : nat;
  activeSuppliers : nat;
  inactiveSuppliers : nat;
  expiredAgreements : nat;
  expiringSoon : nat;
  supplierProductStats : list json;
  recentSuppliers : nat;
  locationStats : list json
}.

Definition supplierGroup (g : (string * list Product.t) * Supplier.t) : json :=
  JObj [("_id", JStr (fst (fst g)));
        ("productCount", JInt (size (snd (fst g))));
        ("totalStockValue", JInt (sum (map stockValueOf (snd (fst g)))));
        ("avgPrice", JOpt JDouble (avg (map Product.price (snd (fst g)))));
        ("supplierInfo", supplierDoc (snd g))].

Definition locationGroup (g : string * list Supplier.t) : json :=
  JObj [("_id", JStr (fst g)); ("count", JInt (size (snd g)))].

Section Handler.
Variable host : Host.
Variable now : Z.

Definition queries (db : DB) (query : Query) : result locals :=
  let startDate := startDate host now query in
  totalSuppliers <- countDocuments (Suppliers db) all ;;
  activeSuppliers <- countDocuments (Suppliers db) (where_ Supplier.isActive) ;;
  inactiveSuppliers <-
    countDocuments (Suppliers db) (where_ (fun s => negb (Supplier.isActive s))) ;;
  let currentDate := Date_now now in
  expiredAgreements <-
    countDocuments (Suppliers db)
      (whereDate (castErrorMessage host "Supplier" "agreementEndDate")
         (fun s => Some (Supplier.agreementEndDate s))
         [(lt, currentDate)]) ;;
  expiringSoon <-
    countDocuments (Suppliers db)
      (whereDate (castErrorMessage host "Supplier" "agreementEndDate")
         (fun s => Some (Supplier.agreementEndDate s))
         [(gte, currentDate);
          (lte, Date_of_number
                  (num_add (getTime currentDate)
                           (Some (30 * 24 * 60 * 60 * 1000))))]) ;;
  supplierProductStats <-
    (docs <- match_ (where_ (fun p => Product.isActive p && hasSupplier p))
               (Products db) ;;
     Ok (map supplierGroup
           (descending (fun g => size (snd (fst g)))
              (lookupUnwind (Suppliers db) Supplier._id fst
                 (group String.eqb supplierRef docs))))) ;;
  recentSuppliers <-
    countDocuments (Suppliers db)
      (whereDate (castErrorMessage host "Supplier" "createdAt")
         (fun s => Some (Supplier.createdAt s)) [(gte, startDate)]) ;;
  let locationStats :=
    map locationGroup
      (descending (fun g => size (snd g))
         (group String.eqb Supplier.location (Suppliers db))) in
  Ok {| totalSuppliers := totalSuppliers;
        activeSuppliers := activeSuppliers;
        inactiveSuppliers := inactiveSuppliers;
        expiredAgreements := expiredAgreements;
        expiringSoon := expiringSoon;
        supplierProductStats := supplierProductStats;
        recentSuppliers := recentSuppliers;
        locationStats := locationStats |}.

End Handler.

Definition response (l : locals) : json :=
  success (JObj [
    ("overview", JObj [
       ("totalSuppliers", JNat (totalSuppliers l));
       ("activeSuppliers", JNat (activeSuppliers l));
       ("inactiveSuppliers", JNat (inactiveSuppliers l));
       ("expiredAgreements", JNat (expiredAgreements l));
       ("expiringSoon", JNat (expiringSoon l));
       ("recentSuppliers", JNat (recentSuppliers l))]);
    ("supplierProductStats", JArr (supplierProductStats l));
    ("locationDistribution", JArr (locationStats l))]).

End SupplierReport.

Definition getSupplierReports (host : Host) (now : Z) (db : DB) (query : Query) : Response :=
  handler (l <- SupplierReport.queries host now db query ;;
           Ok (SupplierReport.response l)).

(** *** User report *)

Module UserReport.

Record locals : Type := {
  totalUsers : nat;
  adminUsers : nat;
  customerUsers : nat;
  recentRegistrations : nat;
  registrationTrends : list json;
  activeUsers : nat;
  topActiveUsers : list json;
  activityStats : list json;
  loginDistribution : list json;
  activityTrends : list json
}.

Definition isAdmin (u : User.t) : bool :=
  match User.role u with User.admin => true | User.customer => false end.

Definition isCustomer (u : User.t) : bool :=
  match User.role u with User.customer => true | User.admin => false end.

(** [.select('fullName email loginCount lastLogin')]: a document without
    [lastLogin] has no such key. *)
Definition selectActive (u : User.t) : json :=
  JObj ([("_id", JStr (User._id u)); ("fullName", JStr (User.fullName u));
         ("email", JStr (User.email u)); ("loginCount", JInt (User.loginCount u))]
        ++ match User.lastLogin u with
           | Some t => [("lastLogin", JDate t)]
           | None => []
           end).

(** The [$group] of the activity statistics.  [$avg] skips values that are
    not numbers, so the average of the [lastLogin] dates is null. *)
Definition activityGroup (docs : list User.t) : json :=
  JObj [("_id", JNull);
        ("avgLastLogin", JNull);
        ("maxLastLogin", JOpt JDate (max (present User.lastLogin docs)));
        ("minLastLogin", JOpt JDate (min (present User.lastLogin docs)));
        ("avgLoginCount", JOpt JDouble (avg (map User.loginCount docs)));
        ("maxLoginCount", JOpt JInt (max (map User.loginCount docs)));
        ("totalLogins", JInt (sum (map User.loginCount docs)))].

(** [boundaries: [0, 1, 5, 10, 20, 50, 100], default: '100+'] *)
Definition boundaries : list Z := [0; 1; 5; 10; 20; 50; 100].
Definition defaultBucket : string := "100+".

(** The buckets of the [$bucket] stage: the key is the lower bound of the
    interval, [None] for the default bucket. *)
Definition bucketIdEqb (a b : option Z) : bool :=
  match a, b with
  | Some x, Some y => x =? y
  | None, None => true
  | _, _ => false
  end.

Definition buckets (docs : list User.t) : list (option Z * list User.t) :=
  group bucketIdEqb (fun u => bucketOf boundaries (User.loginCount u)) docs.

(** Order of the identifiers under [{ $sort: { _id: 1 } }]: numbers by
    value, and every number before the string of the default bucket. *)
Definition bucketIdLe (a b : option Z) : bool :=
  match a, b with
  | Some x, Some y => x <=? y
  | Some _, None => true
  | None, Some _ => false
  | None, None => true
  end.

Definition bucketMember (u : User.t) : json :=
  JObj [("name", JStr (User.fullName u)); ("email", JStr (User.email u));
        ("loginCount", JInt (User.loginCount u))].

Definition bucketDoc (b : option Z * list User.t) : json :=
  JObj [("_id", match fst b with Some lo => JInt lo | None => JStr defaultBucket end);
        ("count", JInt (size (snd b)));
        ("users", JArr (map bucketMember (snd b)))].

Definition sortedBuckets (docs : list User.t) : list (option Z * list User.t) :=
  sortBy (fun a b => bucketIdLe (fst a) (fst b)) (buckets docs).

Section Handler.
Variable host : Host.
Variable now : Z.

(** One turn of a seven-day loop, for the day [i] days back; [path] is the
    date path counted, [name] its name, and [key] the name of the count in
    the point. *)
Definition dayPoint (users : list User.t) (name : string)
  (path : User.t -> option Z) (key : string) (i : Z) : result json :=
  let date := Date_now now in
  let date := setDate host date (num_sub (getDate host date) (Some i)) in
  let nextDate := date in
  let nextDate := setDate host nextDate (num_add (getDate host nextDate) (Some 1)) in
  count <-
    countDocuments users
      (whereDate (castErrorMessage host "User" name) path
         [(gte, date); (lt, nextDate)]) ;;
  iso <- toISOString date ;;
  Ok (JObj [("date", JStr (nth 0 (split "T" iso) "")); (key, JNat count)]).

Definition queries (db : DB) (query : Query) : result locals :=
  let startDate := startDate host now query in
  totalUsers <- countDocuments (Users db) all ;;
  adminUsers <- countDocuments (Users db) (where_ isAdmin) ;;
  customerUsers <- countDocuments (Users db) (where_ isCustomer) ;;
  recentRegistrations <-
    countDocuments (Users db)
      (whereDate (castErrorMessage host "User" "createdAt")
         (fun u => Some (User.createdAt u)) [(gte, startDate)]) ;;
  registrationTrends <-
    mapM (dayPoint (Users db) "createdAt" (fun u => Some (User.createdAt u))
            "count")
         [6; 5; 4; 3; 2; 1; 0] ;;
  let thirtyDaysAgo := Date_now now in
  let thirtyDaysAgo :=
    setDate host thirtyDaysAgo (num_sub (getDate host thirtyDaysAgo) (Some 30)) in
  activeUsers <-
    countDocuments (Users db)
      (whereDate (castErrorMessage host "User" "lastLogin") User.lastLogin
         [(gte, thirtyDaysAgo)]) ;;
  topActiveUsers <-
    (docs <- find (Users db) (where_ isCustomer) ;;
     Ok (map selectActive (limit 5 (descending User.loginCount docs)))) ;;
  let activityStats := map activityGroup (groupAll (Users db)) in
  let loginDistribution := map bucketDoc (sortedBuckets (Users db)) in
  activityTrends <-
    mapM (dayPoint (Users db) "lastLogin" User.lastLogin "activeUsers")
         [6; 5; 4; 3; 2; 1; 0] ;;
  Ok {| totalUsers := totalUsers;
        adminUsers := adminUsers;
        customerUsers := customerUsers;
        recentRegistrations := recentRegistrations;
        registrationTrends := registrationTrends;
        activeUsers := activeUsers;
        topActiveUsers := topActiveUsers;
        activityStats := activityStats;
        loginDistribution := loginDistribution;
        activityTrends := activityTrends |}.

End Handler.

Definition response (l : locals) : json :=
  success (JObj [
    ("overview", JObj [
       ("totalUsers", JNat (totalUsers l));
       ("adminUsers", JNat (adminUsers l));
       ("customerUsers", JNat (customerUsers l));
       ("recentRegistrations", JNat (recentRegistrations l));
       ("activeUsers", JNat (activeUsers l))]);
    ("registrationTrends", JArr (registrationTrends l));
    ("activityStats", or_ (index0 (activityStats l)) emptyObject);
    ("topActiveUsers", JArr (topActiveUsers l));
    ("loginDistribution", JArr (loginDistribution l));
    ("activityTrends", JArr (activityTrends l))]).

End UserReport.

Definition getUserReports (host : Host) (now : Z) (db : DB) (query : Query) : Response :=
  handler (l <- UserReport.queries host now db query ;;
           Ok (UserReport.response l)).

(** *** Quotation report *)

Module QuotationReport.

Record locals : Type := {
  totalQuotations : nat;
  pendingQuotations : nat;
  processingQuotations : nat;
  completedQuotations : nat;
  rejectedQuotations : nat;
  recentQuotations : nat;
  revenueStats : list json;
  categoryStats : list json;
  monthlyTrends : list json;
  responseTimeStats : list json
}.

Definition statusEqb (a b : Quotation.Status) : bool :=
  match a, b with
  | Quotation.pending, Quotation.pending => true
  | Quotation.processing, Quotation.processing => true
  | Quotation.completed, Quotation.completed => true
  | Quotation.rejected, Quotation.rejected => true
  | _, _ => false
  end.

Definition hasStatus (s : Quotation.Status) (q : Quotation.t) : bool :=
  statusEqb (Quotation.status q) s.

Definition revenueGroup (docs : list Quotation.t) : json :=
  JObj [("_id", JNull);
        ("totalRevenue", JInt (sum (map Quotation.totalAmount docs)));
        ("avgQuotationValue", JOpt JDouble (avg (map Quotation.totalAmount docs)));
        ("maxQuotationValue", JOpt JInt (max (map Quotation.totalAmount docs)));
        ("minQuotationValue", JOpt JInt (min (map Quotation.totalAmount docs)))].

Definition categoryGroup (g : string * list Quotation.t) : json :=
  JObj [("_id", JStr (fst g)); ("count", JInt (size (snd g)));
        ("totalValue", JInt (sum (map Quotation.totalAmount (snd g))))].

Definition totalGroup (docs : list Quotation.t) : json :=
  JObj [("_id", JNull); ("total", JInt (sum (map Quotation.totalAmount docs)))].

(** [responseTime: { $subtract: ['$updatedAt', '$createdAt'] }] *)
Definition responseTime (q : Quotation.t) : Z :=
  Quotation.updatedAt q - Quotation.createdAt q.

Definition responseTimeGroup (times : list Z) : json :=
  JObj [("_id", JNull);
        ("avgResponseTime", JOpt JDouble (avg times));
        ("maxResponseTime", JOpt JInt (max times));
        ("minResponseTime", JOpt JInt (min times))].

Section Handler.
Variable host : Host.
Variable now : Z.

(** One turn of the six-month loop, for the month [i] months back. *)
Definition monthPoint (quotations : list Quotation.t) (i : Z) : result json :=
  let date := Date_now now in
  let date := setMonth host date (num_sub (getMonth host date) (Some i)) in
  let startOfMonth :=
    Date_ymd host (getFullYear host date) (getMonth host date) (Some 1) in
  let endOfMonth :=
    Date_ymd host (getFullYear host date) (num_add (getMonth host date) (Some 1))
             (Some 0) in
  count <-
    countDocuments quotations
      (whereDate (castErrorMessage host "Quotation" "createdAt")
         (fun q => Some (Quotation.createdAt q))
         [(gte, startOfMonth); (lte, endOfMonth)]) ;;
  revenue <-
    (docs <- match_
               (both (whereDate (castErrorMessage host "Quotation" "createdAt")
                        (fun q => Some (Quotation.createdAt q))
                        [(gte, startOfMonth); (lte, endOfMonth)])
                     (where_ (hasStatus Quotation.completed)))
               quotations ;;
     Ok (map totalGroup (groupAll docs))) ;;
  iso <- toISOString startOfMonth ;;
  Ok (JObj [("month", JStr (substring0 7 iso));
            ("count", JNat count);
            ("revenue", or_ (optField (index0 revenue) "total") (JInt 0))]).

Definition queries (db : DB) (query : Query) : result locals :=
  let startDate := startDate host now query in
  totalQuotations <- countDocuments (Quotations db) all ;;
  pendingQuotations <-
    countDocuments (Quotations db) (where_ (hasStatus Quotation.pending)) ;;
  processingQuotations <-
    countDocuments (Quotations db) (where_ (hasStatus Quotation.processing)) ;;
  completedQuotations <-
    countDocuments (Quotations db) (where_ (hasStatus Quotation.completed)) ;;
  rejectedQuotations <-
    countDocuments (Quotations db) (where_ (hasStatus Quotation.rejected)) ;;
  recentQuotations <-
    countDocuments (Quotations db)
      (whereDate (castErrorMessage host "Quotation" "createdAt")
         (fun q => Some (Quotation.createdAt q)) [(gte, startDate)]) ;;
  revenueStats <-
    (docs <- match_ (where_ (hasStatus Quotation.completed)) (Quotations db) ;;
     Ok (map revenueGroup (groupAll docs))) ;;
  let categoryStats :=
    map categoryGroup
      (descending (fun g => size (snd g))
         (group String.eqb Quotation.productCategory (Quotations db))) in
  monthlyTrends <- mapM (monthPoint (Quotations db)) [5; 4; 3; 2; 1; 0] ;;
  responseTimeStats <-
    (docs <- match_
               (where_ (fun q => hasStatus Quotation.completed q
                                 || hasStatus Quotation.rejected q))
               (Quotations db) ;;
     Ok (map responseTimeGroup (groupAll (map responseTime docs)))) ;;
  Ok {| totalQuotations := totalQuotations;
        pendingQuotations := pendingQuotations;
        processingQuotations := processingQuotations;
        completedQuotations := completedQuotations;
        rejectedQuotations := rejectedQuotations;
        recentQuotations := recentQuotations;
        revenueStats := revenueStats;
        categoryStats := categoryStats;
        monthlyTrends := monthlyTrends;
        responseTimeStats := responseTimeStats |}.

End Handler.

Definition response (l : locals) : json :=
  success (JObj [
    ("overview", JObj [
       ("totalQuotations", JNat (totalQuotations l));
       ("pendingQuotations", JNat (pendingQuotations l));
       ("processingQuotations", JNat (processingQuotations l));
       ("completedQuotations", JNat (completedQuotations l));
       ("rejectedQuotations", JNat (rejectedQuotations l));
       ("recentQuotations", JNat (recentQuotations l))]);
    ("revenueStats", or_ (index0 (revenueStats l)) emptyObject);
    ("categoryStats", JArr (categoryStats l));
    ("monthlyTrends", JArr (monthlyTrends l));
    ("responseTimeStats", or_ (index0 (responseTimeStats l)) emptyObject)]).

End QuotationReport.

Definition getQuotationReports (host : Host) (now : Z) (db : DB) (query : Query) : Response :=
  handler (l <- QuotationReport.queries host now db query ;;
           Ok (QuotationReport.response l)).

(** *** Reservation report *)

Module ReservationReport.

Record locals : Type := {
  totalReservations : nat;
  pendingReservations : nat;
  confirmedReservations : nat;
  completedReservations : nat;
  cancelledReservations : nat;
  recentReservations : nat;
  monthlyTrends : list json;
  customerStats : list json;
  statusDistribution : list json;
  responseTimeStats : list json
}.

Definition statusEqb (a b : Reservation.Status) : bool :=
  match a, b with
  | Reservation.pending, Reservation.pending => true
  | Reservation.confirmed, Reservation.confirmed => true
  | Reservation.completed, Reservation.completed => true
  | Reservation.cancelled, Reservation.cancelled => true
  | _, _ => false
  end.

Definition hasStatus (s : Reservation.Status) (r : Reservation.t) : bool :=
  statusEqb (Reservation.status r) s.

Definition statusName (s : Reservation.Status) : string :=
  match s with
  | Reservation.pending => "pending"
  | Reservation.confirmed => "confirmed"
  | Reservation.completed => "completed"
  | Reservation.cancelled => "cancelled"
  end.

Definition customerGroup (g : string * list Reservation.t) : json :=
  JObj [("_id", JStr (fst g)); ("reservationCount", JInt (size (snd g)))].

Definition statusGroup (g : Reservation.Status * list Reservation.t) : json :=
  JObj [("_id", JStr (statusName (fst g))); ("count", JInt (size (snd g)))].

(** [responseTime: { $subtract: ['$updatedAt', '$createdAt'] }] *)
Definition responseTime (r : Reservation.t) : Z :=
  Reservation.updatedAt r - Reservation.createdAt r.

Definition responseTimeGroup (times : list Z) : json :=
  JObj [("_id", JNull);
        ("avgResponseTime", JOpt JDouble (avg times));
        ("maxResponseTime", JOpt JInt (max times));
        ("minResponseTime", JOpt JInt (min times))].

Section Handler.
Variable host : Host.
Variable now : Z.

(** One turn of the six-month loop, for the month [i] months back. *)
Definition monthPoint (reservations : list Reservation.t) (i : Z) : result json :=
  let date := Date_now now in
  let date := setMonth host date (num_sub (getMonth host date) (Some i)) in
  let startOfMonth :=
    Date_ymd host (getFullYear host date) (getMonth host date) (Some 1) in
  let endOfMonth :=
    Date_ymd host (getFullYear host date) (num_add (getMonth host date) (Some 1))
             (Some 0) in
  count <-
    countDocuments reservations
      (whereDate (castErrorMessage host "Reservation" "createdAt")
         (fun r => Some (Reservation.createdAt r))
         [(gte, startOfMonth); (lte, endOfMonth)]) ;;
  iso <- toISOString startOfMonth ;;
  Ok (JObj [("month", JStr (substring0 7 iso)); ("count", JNat count)]).

Definition queries (db : DB) (query : Query) : result locals :=
  let startDate := startDate host now query in
  totalReservations <- countDocuments (Reservations db) all ;;
  pendingReservations <-
    countDocuments (Reservations db) (where_ (hasStatus Reservation.pending)) ;;
  confirmedReservations <-
    countDocuments (Reservations db) (where_ (hasStatus Reservation.confirmed)) ;;
  completedReservations <-
    countDocuments (Reservations db) (where_ (hasStatus Reservation.completed)) ;;
  cancelledReservations <-
    countDocuments (Reservations db) (where_ (hasStatus Reservation.cancelled)) ;;
  recentReservations <-
    countDocuments (Reservations db)
      (whereDate (castErrorMessage host "Reservation" "createdAt")
         (fun r => Some (Reservation.createdAt r)) [(gte, startDate)]) ;;
  monthlyTrends <- mapM (monthPoint (Reservations db)) [5; 4; 3; 2; 1; 0] ;;
  let customerStats :=
    map customerGroup
      (limit 10
         (descending (fun g => size (snd g))
            (group String.eqb Reservation.email (Reservations db)))) in
  let statusDistribution :=
    map statusGroup
      (descending (fun g => size (snd g))
         (group statusEqb Reservation.status (Reservations db))) in
  responseTimeStats <-
    (docs <- match_
               (where_ (fun r => hasStatus Reservation.confirmed r
                                 || hasStatus Reservation.completed r
                                 || hasStatus Reservation.cancelled r))
               (Reservations db) ;;
     Ok (map responseTimeGroup (groupAll (map responseTime docs)))) ;;
  Ok {| totalReservations := totalReservations;
        pendingReservations := pendingReservations;
        confirmedReservations := confirmedReservations;
        completedReservations := completedReservations;
        cancelledReservations := cancelledReservations;
        recentReservations := recentReservations;
        monthlyTrends := monthlyTrends;
        customerStats := customerStats;
        statusDistribution := statusDistribution;
        responseTimeStats := responseTimeStats |}.

End Handler.

Definition response (l : locals) : json :=
  success (JObj [
    ("overview", JObj [
       ("totalReservations", JNat (totalReservations l));
       ("pendingReservations", JNat (pendingReservations l));
       ("confirmedReservations", JNat (confirmedReservations l));
       ("completedReservations", JNat (completedReservations l));
       ("cancelledReservations", JNat (cancelledReservations l));
       ("recentReservations", JNat (recentReservations l))]);
    ("monthlyTrends", JArr (monthlyTrends l));
    ("topCustomers", JArr (customerStats l));
    ("statusDistribution", JArr (statusDistribution l));
    ("responseTimeStats", or_ (index0 (responseTimeStats l)) emptyObject)]).

End ReservationReport.

Definition getReservationReports (host : Host) (now : Z) (db : DB) (query : Query)
  : Response :=
  handler (l <- ReservationReport.queries host now db query ;;
           Ok (ReservationReport.response l)).

(** *** Dashboard overview *)

Module Dashboard.

Record locals : Type := {
  totalProducts : nat;
  totalSuppliers : nat;
  totalUsers : nat;
  totalQuotations : nat;
  totalReservations : nat;
  lowStockProducts : nat;
  pendingQuotations : nat;
  pendingReservations : nat;
  recentQuotations : nat;
  recentReservations : nat;
  revenueData : list json
}.

Definition revenueGroup (docs : list Quotation.t) : json :=
  JObj [("_id", JNull);
        ("totalRevenue", JInt (sum (map Quotation.totalAmount docs)))].

Section Handler.
Variable host : Host.
Variable now : Z.

(** The ten counts of [Promise.all] are independent reads; the promise
    rejects when one of them does. *)
Definition queries (db : DB) : result locals :=
  let thirtyDaysAgo := Date_now now in
  let thirtyDaysAgo :=
    setDate host thirtyDaysAgo (num_sub (getDate host thirtyDaysAgo) (Some 30)) in
  totalProducts <- countDocuments (Products db) (where_ Product.isActive) ;;
  totalSuppliers <- countDocuments (Suppliers db) (where_ Supplier.isActive) ;;
  totalUsers <- countDocuments (Users db) all ;;
  totalQuotations <- countDocuments (Quotations db) all ;;
  totalReservations <- countDocuments (Reservations db) all ;;
  lowStockProducts <-
    countDocuments (Products db)
      (where_ (fun p => lowStock p && Product.isActive p)) ;;
  pendingQuotations <-
    countDocuments (Quotations db)
      (where_ (QuotationReport.hasStatus Quotation.pending)) ;;
  pendingReservations <-
    countDocuments (Reservations db)
      (where_ (ReservationReport.hasStatus Reservation.pending)) ;;
  recentQuotations <-
    countDocuments (Quotations db)
      (whereDate (castErrorMessage host "Quotation" "createdAt")
         (fun q => Some (Quotation.createdAt q)) [(gte, thirtyDaysAgo)]) ;;
  recentReservations <-
    countDocuments (Reservations db)
      (whereDate (castErrorMessage host "Reservation" "createdAt")
         (fun r => Some (Reservation.createdAt r))
         [(gte, thirtyDaysAgo)]) ;;
  revenueData <-
    (docs <- match_ (where_ (QuotationReport.hasStatus Quotation.completed))
               (Quotations db) ;;
     Ok (map revenueGroup (groupAll docs))) ;;
  Ok {| totalProducts := totalProducts;
        totalSuppliers := totalSuppliers;
        totalUsers := totalUsers;
        totalQuotations := totalQuotations;
        totalReservations := totalReservations;
        lowStockProducts := lowStockProducts;
        pendingQuotations := pendingQuotations;
        pendingReservations := pendingReservations;
        recentQuotations := recentQuotations;
        recentReservations := recentReservations;
        revenueData := revenueData |}.

End Handler.

Definition totalRevenue (l : locals) : json :=
  or_ (optField (index0 (revenueData l)) "totalRevenue") (JInt 0).

Definition response (l : locals) : json :=
  success (JObj [
    ("overview", JObj [
       ("totalProducts", JNat (totalProducts l));
       ("totalSuppliers", JNat (totalSuppliers l));
       ("totalUsers", JNat (totalUsers l));
       ("totalQuotations", JNat (totalQuotations l));
       ("totalReservations", JNat (totalReservations l));
       ("totalRevenue", totalRevenue l)]);
    ("alerts", JObj [
       ("lowStockProducts", JNat (lowStockProducts l));
       ("pendingQuotations", JNat (pendingQuotations l));
       ("pendingReservations", JNat (pendingReservations l))]);
    ("recentActivity", JObj [
       ("recentQuotations", JNat (recentQuotations l));
       ("recentReservations", JNat (recentReservations l))])]).

End Dashboard.

Definition getDashboardOverview (host : Host) (now : Z) (db : DB) (query : Query)
  : Response :=
  handler (l <- Dashboard.queries host now db ;; Ok (Dashboard.response l)).

(** ** The [protect] middleware and the report router *)

Inductive Route : Type :=
| dashboard | products | suppliers | users | quotations | reservations.

Record Request : Type := {
  route : Route;
  authorization : option string;
  query : Query
}.

Module Auth.

Section Protect.

(** [jwt.verify(token, secret)]: the [id] of the decoded payload, [None]
    when the call throws. *)
Variable jwt_verify : string -> option string.
Variable now : Z.

Definition unauthorized (code : Z) (message : string) : Response :=
  res_status_json code (failure message).

(** The bearer token of the request: [None] is undefined. *)
Definition token (req : Request) : option string :=
  match authorization req with
  | Some a =>
      if negb (String.eqb a "") && startsWith "Bearer" a
      then nth_error (split " " a) 1
      else None
  | None => None
  end.

(** [User.findById(id)] *)
Definition findById (id : string) (coll : list User.t) : option User.t :=
  List.find (fun u => String.eqb (User._id u) id) coll.

(** [{ $inc: { loginCount: 1 }, lastLogin: t }] *)
Definition touch (t : Z) (u : User.t) : User.t :=
  {| User._id := User._id u;
     User.fullName := User.fullName u;
     User.email := User.email u;
     User.role := User.role u;
     User.isActive := User.isActive u;
     User.loginCount := User.loginCount u + 1;
     User.lastLogin := Some t;
     User.createdAt := User.createdAt u |}.

(** [User.findByIdAndUpdate(id, update)]: the collection afterwards. *)
Fixpoint findByIdAndUpdate (id : string) (update : User.t -> User.t)
  (coll : list User.t) : list User.t :=
  match coll with
  | [] => []
  | u :: r =>
      if String.eqb (User._id u) id then update u :: r
      else u :: findByIdAndUpdate id update r
  end.

Definition withUsers (db : DB) (coll : list User.t) : DB :=
  {| Products := Products db;
     Suppliers := Suppliers db;
     Users := coll;
     Quotations := Quotations db;
     Reservations := Reservations db |}.

(** The collections after the middleware, and its answer: [None] when it
    calls [next()]. *)
Definition protect (db : DB) (req : Request) : DB * option Response :=
  match token req with
  | None => (db, Some (unauthorized 401 "Not authorized to access this route"))
  | Some tok =>
      if String.eqb tok "" then
        (db, Some (unauthorized 401 "Not authorized to access this route"))
      else
        match jwt_verify tok with
        | None => (db, Some (unauthorized 401 "Invalid or expired token"))
        | Some id =>
            match findById id (Users db) with
            | None => (db, Some (unauthorized 401 "No user found for this token"))
            | Some user =>
                if negb (User.isActive user) then
                  (db, Some (unauthorized 403 "User account is deactivated"))
                else
                  match castDate (Date_now now) with
                  | None =>
                      (db, Some (unauthorized 401 "Invalid or expired token"))
                  | Some t =>
                      (withUsers db
                         (findByIdAndUpdate (User._id user) (touch t) (Users db)),
                       None)
                  end
            end
        end
  end.

End Protect.

End Auth.

(** The six routes of the router. *)
Definition controller (r : Route) : Host -> Z -> DB -> Query -> Response :=
  match r with
  | dashboard => getDashboardOverview
  | products => getProductReports
  | suppliers => getSupplierReports
  | users => getUserReports
  | quotations => getQuotationReports
  | reservations => getReservationReports
  end.

(** [router.use(protect)] before every route: the collections after the
    request and the response.  [protect] reads the clock at [now], and the
    controller, which runs after it, at [later]. *)
Definition reportRouter (jwt_verify : string -> option string) (host : Host)
  (now later : Z) (db : DB) (req : Request) : DB * Response :=
  match Auth.protect jwt_verify now db req with
  | (db', Some answer) => (db', answer)
  | (db', None) => (db', controller (route req) host later db' (query req))
  end.

(** ** Vocabulary of the statements *)

Module Spec.
Import JSDate JSString.

(** The clock and the zone are such that every date a handler derives
    from the clock is a valid Date: the clock is some years away from the
    ends of the range of time values, and the zone is always within a day
    of UTC. *)
Definition clockOk (zone : Zone) (now : Z) : Prop :=
  Z.abs now <= maxTime - 5000 * msPerDay
  /\ forall t isUTC, Z.abs (zone t isUTC) <= msPerDay.

(** The zone keeps the offset [tza] at all times. *)
Definition fixed (zone : Zone) (tza : Z) : Prop :=
  forall t isUTC, zone t isUTC = tza.

(** The instant [n] calendar days from [t] at the same local time of day:
    what [d.setDate(d.getDate() + n)] makes of the time value [t]. *)
Definition daysFrom (zone : Zone) (t n : Z) : Z :=
  UTC zone (LocalTime zone t + n * msPerDay).

(** An entry of a response has the fields listed, with the values
    listed. *)
Definition fieldsOf (entry : json) (fields : list (string * json)) : Prop :=
  Forall (fun kv => jfield (fst kv) entry = Some (snd kv)) fields.

(** Number of documents dated on or after [lo]. *)
Definition countFrom {A : Type} (path : A -> Z) (lo : Z) (coll : list A) : nat :=
  List.length (filter (fun a => lo <=? path a) coll).

(** Number of documents dated in the closed interval from [lo] to [hi]. *)
Definition countIn {A : Type} (path : A -> Z) (lo hi : Z) (coll : list A) : nat :=
  List.length (filter (fun a => (lo <=? path a) && (path a <=? hi)) coll).

(** Number of documents dated strictly before [hi]. *)
Definition countBefore {A : Type} (path : A -> Z) (hi : Z) (coll : list A) : nat :=
  List.length (filter (fun a => path a <? hi) coll).





(** The failure payload of a query of a model on an Invalid Date for a
    path. *)
Definition castFailure (host : Host) (model path : string) : Response :=
  res_status_json 500 (failure (castErrorMessage host model path)).

(** A response of the [catch] block: the status 500, [success] false and
    no [data]. *)
Definition failed (response : Response) : Prop :=
  status response = 500
  /\ jpath ["success"] (body response) = Some (JBool false)
  /\ jpath ["data"] (body response) = None.


(** The intervals of the login histogram. *)
Definition intervals : list (Z * Z) :=
  [(0, 1); (1, 5); (5, 10); (10, 20); (20, 50); (50, 100)].

(** What holds of the groups of a [$group] stage: their keys are distinct,
    none is empty, and the key of a group is the key of its documents. *)
Definition wellGrouped {A K : Type} (key : A -> K) (gs : list (K * list A)) : Prop :=
  NoDup (map fst gs)
  /\ forall g, In g gs -> snd g <> [] /\ forall a, In a (snd g) -> key a = fst g.

Definition bucketIdLt (a b : option Z) : Prop :=
  match a, b with
  | Some x, Some y => x < y
  | Some _, None => True
  | None, _ => False
  end.

End Spec.

(** ** Sample data *)

Module Sample.

(** The text of mongoose 8 for an Invalid Date. *)
Definition castMessage (model path : string) : string :=
  let quote := String (ascii_of_nat 34) EmptyString in
  "Cast to date failed for value " ++ quote ++ "Invalid Date" ++ quote
  ++ " (type Date) at path " ++ quote ++ path ++ quote
  ++ " for model " ++ quote ++ model ++ quote.

(** A server in UTC. *)
Definition utc : Host :=
  {| localZone := JSDate.fixedOffset 0; castErrorMessage := castMessage |}.

(** New York in 2024: five hours behind UTC, and four from 10 March at
    07:00 UTC to 3 November at 06:00 UTC.  A local time that the clocks
    skip or show twice is read with the offset before the change. *)
Definition newYorkZone : JSDate.Zone :=
  fun t isUTC =>
    let spring := 1710054000000 in
    let autumn := 1730613600000 in
    if isUTC then
      if (spring <=? t) && (t <? autumn) then -4 * 3600000 else -5 * 3600000
    else
      if (spring - 4 * 3600000 <=? t) && (t <? autumn - 4 * 3600000)
      then -4 * 3600000 else -5 * 3600000.

Definition newYork : Host :=
  {| localZone := newYorkZone; castErrorMessage := castMessage |}.

(** 2024-03-10T12:00:00.000Z and 2024-03-31T12:00:00.000Z *)
Definition noon_10_march : Z := 1710072000000.
Definition noon_31_march : Z := 1711886400000.

Definition product (id : string) (stock minStock : Z) (createdAt : Z) : Product.t :=
  {| Product._id := id; Product.name := id; Product.sku := id;
     Product.category := "tools"; Product.price := 100;
     Product.stock := stock; Product.minStock := minStock;
     Product.isActive := true; Product.supplier := None; Product.image := "";
     Product.createdAt := createdAt; Product.updatedAt := createdAt |}.

Definition user (id : string) (loginCount : Z) (createdAt : Z) : User.t :=
  {| User._id := id; User.fullName := id; User.email := id;
     User.role := User.customer; User.isActive := true;
     User.loginCount := loginCount; User.lastLogin := Some createdAt;
     User.createdAt := createdAt |}.

Definition quotation (id : string) (status : Quotation.Status) (amount : Z)
  (createdAt : Z) : Quotation.t :=
  {| Quotation._id := id; Quotation.status := status;
     Quotation.productCategory := "tools"; Quotation.totalAmount := amount;
     Quotation.createdAt := createdAt; Quotation.updatedAt := createdAt |}.

Definition supplier (id : string) (agreementEndDate : Z) : Supplier.t :=
  {| Supplier._id := id; Supplier.name := id; Supplier.location := "Colombo";
     Supplier.isActive := true; Supplier.agreementStartDate := 0;
     Supplier.agreementEndDate := agreementEndDate; Supplier.createdAt := 0 |}.

Definition empty : DB :=
  {| Products := []; Suppliers := []; Users := []; Quotations := [];
     Reservations := [] |}.

(** Three active products with stock and minimum stock (5, 10), (0, 2) and
    (8, 3). *)
Definition stockroom : DB :=
  {| Products := [product "p1" 5 10 0; product "p2" 0 2 0; product "p3" 8 3 0];
     Suppliers := []; Users := []; Quotations := []; Reservations := [] |}.

Definition noQuery : Query := {| period := None |}.

(** Agreements that ended a day ago, end now, end in exactly 30 days and
    end a millisecond later than that. *)
Definition agreements : DB :=
  {| Products := [];
     Suppliers := [supplier "s1" (noon_10_march - 86400000);
                   supplier "s2" noon_10_march;
                   supplier "s3" (noon_10_march + 2592000000);
                   supplier "s4" (noon_10_march + 2592000001)];
     Users := []; Quotations := []; Reservations := [] |}.

(** Quotations of 100 and 200, completed, and of 50, pending. *)
Definition ledger : DB :=
  {| Products := []; Suppliers := []; Users := [];
     Quotations := [quotation "q1" Quotation.completed 100 0;
                    quotation "q2" Quotation.completed 200 0;
                    quotation "q3" Quotation.pending 50 0];
     Reservations := [] |}.




(** One product, dated three days before the reading of the clock. *)
Definition recent : DB :=
  {| Products := [product "p1" 5 10 (noon_10_march - 3 * 86400000)];
     Suppliers := []; Users := []; Quotations := []; Reservations := [] |}.

(** One user, created on 2024-03-10 at 08:00 UTC. *)
Definition earlyBird : DB :=
  {| Products := []; Suppliers := [];
     Users := [user "u1" 3 (noon_10_march - 4 * 3600000)];
     Quotations := []; Reservations := [] |}.

(** One completed quotation, created on 2024-03-31 at 12:00 UTC. *)
Definition monthEnd : DB :=
  {| Products := []; Suppliers := []; Users := [];
     Quotations := [quotation "q1" Quotation.completed 100 noon_31_march];
     Reservations := [] |}.

(** A shop at rest: a product of the supplier [s1] that is not active, the
    supplier, a user, a pending quotation and a pending reservation. *)
Definition dormant : DB :=
  {| Products := [{| Product._id := "p1"; Product.name := "p1"; Product.sku := "p1";
                     Product.category := "tools"; Product.price := 100;
                     Product.stock := 0; Product.minStock := 10;
                     Product.isActive := false; Product.supplier := Some "s1";
                     Product.image := ""; Product.createdAt := 0;
                     Product.updatedAt := 0 |}];
     Suppliers := [supplier "s1" noon_10_march];
     Users := [user "u1" 3 0];
     Quotations := [quotation "q1" Quotation.pending 50 0];
     Reservations := [{| Reservation._id := "r1";
                         Reservation.status := Reservation.pending;
                         Reservation.email := "u1"; Reservation.createdAt := 0;
                         Reservation.updatedAt := 0 |}] |}.

(** A token that verifies, for the user [u1]. *)
Definition verify (token : string) : option string := Some "u1".

Definition get (r : Route) : Request :=
  {| route := r; authorization := Some "Bearer token"; query := noQuery |}.

(** Users with 0, 3, 7, 3 and 150 logins. *)
Definition members : DB :=
  {| Products := []; Suppliers := [];
     Users := [user "u1" 0 0; user "u2" 3 0; user "u3" 7 0; user "u4" 3 0;
               user "u5" 150 0];
     Quotations := []; Reservations := [] |}.

End Sample.

(** * The controllers and middleware around the reports *)

(** ** Role checks of the middleware *)

Module Access.

Definition roleName (r : User.Role) : string :=
  match r with
  | User.admin => "admin"
  | User.customer => "customer"
  end.

Definition denied (code : Z) (message : string) : Response :=
  res_status_json code (failure message).

(** The user that [protect] attaches to the request ([req.user = user]),
    for a request that it lets through: the document as it was found,
    before the login is counted. *)
Definition reqUser (jwt_verify : string -> option string) (now : Z) (db : DB)
  (req : Request) : option User.t :=
  match Auth.token req with
  | None => None
  | Some tok =>
      if String.eqb tok "" then None
      else
        match jwt_verify tok with
        | None => None
        | Some id =>
            match Auth.findById id (Users db) with
            | None => None
            | Some user =>
                if negb (User.isActive user) then None
                else
                  match castDate (Date_now now) with
                  | None => None
                  | Some _ => Some user
                  end
            end
        end
  end.

(** [authorize(...roles)]: the answer, [None] when it calls [next()]. *)
Definition authorize (roles : list string) (user : option User.t)
  : option Response :=
  match user with
  | None => Some (denied 401 "Not authenticated")
  | Some u =>
      if negb (existsb (String.eqb (roleName (User.role u))) roles) then
        Some (denied 403
                ("User role " ++ roleName (User.role u)
                 ++ " is not authorized to access this route"))
      else None
  end.

(** [adminOrSelf()]: the answer, [None] when it calls [next()];
    [paramId] is [req.params.id]. *)
Definition adminOrSelf (user : option User.t) (paramId : option string)
  : option Response :=
  match user with
  | None => Some (denied 401 "Not authenticated")
  | Some u =>
      match User.role u with
      | User.admin => None
      | User.customer =>
          match paramId with
          | Some id =>
              if negb (String.eqb id "") && String.eqb (User._id u) id then None
              else Some (denied 403 "User is not authorized to perform this action")
          | None => Some (denied 403 "User is not authorized to perform this action")
          end
      end
  end.

End Access.

(** ** Deleting the own account *)

Module UserController.

(** [User.findByIdAndDelete(id)]: the collection afterwards. *)
Fixpoint findByIdAndDelete (id : string) (coll : list User.t) : list User.t :=
  match coll with
  | [] => []
  | u :: r =>
      if String.eqb (User._id u) id then r
      else u :: findByIdAndDelete id r
  end.

(** [deleteMe], for the user that [protect] attached to the request. *)
Definition deleteMe (db : DB) (user : User.t) : DB * Response :=
  let userId := User._id user in
  match Auth.findById userId (Users db) with
  | None => (db, res_status_json 404 (failure "User not found"))
  | Some _ =>
      (Auth.withUsers db (findByIdAndDelete userId (Users db)),
       res_status_json 200
         (JObj [("success", JBool true);
                ("message", JStr "Your account has been permanently deleted")]))
  end.

End UserController.

(** ** The product controller: stock checks and stock updates *)

Module ProductController.

(** What a handler sends: a product with its supplier populated, the low
    stock listing, the categories, or a message. *)
Inductive Payload : Type :=
| product (p : Product.t) (supplier : option Supplier.t)
| listing (count : nat) (products : list (Product.t * option Supplier.t))
| categories (names : list string)
| message (text : string).

Record Answer : Type := { code : Z; payload : Payload }.

Definition answer (c : Z) (p : Payload) : Answer := {| code := c; payload := p |}.

(** [Product.findById(id)] *)
Definition findById (id : string) (coll : list Product.t) : option Product.t :=
  List.find (fun p => String.eqb (Product._id p) id) coll.

(** [.populate('supplier')]: the supplier the product refers to, [None]
    (null) when the reference does not resolve. *)
Definition populate (db : DB) (p : Product.t) : option Supplier.t :=
  match Product.supplier p with
  | Some id => List.find (fun s => String.eqb (Supplier._id s) id) (Suppliers db)
  | None => None
  end.

Definition withProducts (db : DB) (coll : list Product.t) : DB :=
  {| Products := coll;
     Suppliers := Suppliers db;
     Users := Users db;
     Quotations := Quotations db;
     Reservations := Reservations db |}.

(** The document with another stock. *)
Definition setStock (p : Product.t) (stock : Z) : Product.t :=
  {| Product._id := Product._id p;
     Product.name := Product.name p;
     Product.sku := Product.sku p;
     Product.category := Product.category p;
     Product.price := Product.price p;
     Product.stock := stock;
     Product.minStock := Product.minStock p;
     Product.isActive := Product.isActive p;
     Product.supplier := Product.supplier p;
     Product.image := Product.image p;
     Product.createdAt := Product.createdAt p;
     Product.updatedAt := Product.updatedAt p |}.

(** The document with another time of last update. *)
Definition stamp (p : Product.t) (t : Z) : Product.t :=
  {| Product._id := Product._id p;
     Product.name := Product.name p;
     Product.sku := Product.sku p;
     Product.category := Product.category p;
     Product.price := Product.price p;
     Product.stock := Product.stock p;
     Product.minStock := Product.minStock p;
     Product.isActive := Product.isActive p;
     Product.supplier := Product.supplier p;
     Product.image := Product.image p;
     Product.createdAt := Product.createdAt p;
     Product.updatedAt := t |}.

(** Writes a document over the first document of the collection that has
    its [_id]. *)
Fixpoint store (p : Product.t) (coll : list Product.t) : list Product.t :=
  match coll with
  | [] => []
  | q :: r =>
      if String.eqb (Product._id q) (Product._id p) then p :: r
      else q :: store p r
  end.

(** [Product.findByIdAndDelete(id)]: the collection afterwards. *)
Fixpoint findByIdAndDelete (id : string) (coll : list Product.t)
  : list Product.t :=
  match coll with
  | [] => []
  | q :: r =>
      if String.eqb (Product._id q) id then r
      else q :: findByIdAndDelete id r
  end.

(** [Product.distinct(path, filter)]: the values of the path in the
    matching documents, each once, in order of first appearance. *)
Fixpoint distinctFrom (seen : list string) (values : list string) : list string :=
  match values with
  | [] => []
  | v :: r =>
      if existsb (String.eqb v) seen then distinctFrom seen r
      else v :: distinctFrom (v :: seen) r
  end.

Definition distinct (values : list string) : list string := distinctFrom [] values.

(** The double quote of the message of [updateStock]. *)
Definition quote : string := String (ascii_of_nat 34) EmptyString.

Section Handlers.

(** [mongoose.Types.ObjectId.isValid]. *)
Variable isValid : string -> bool.

(** Modelled from the spec: the schema of [models/Product.js] is missing.
    [validate] stands for its validators, run by [save()]: the message of
    the ValidationError, [None] for a document they accept.  The schema
    keeps the last-update time of the data model in [updatedAt], which
    [save()] sets to the time of the save. *)
Variable validate : Product.t -> option string.
Variable now : Z.

(** [product.save()]: the stored document, or the ValidationError. *)
Definition save (p : Product.t) : result Product.t :=
  match validate p with
  | Some e => Err e
  | None => Ok (stamp p now)
  end.

(** [checkLowStock] *)
Definition checkLowStock (db : DB) : Answer :=
  let lowStockProducts :=
    filter (fun p => lowStock p && Product.isActive p && (0 <? Product.stock p))
           (Products db) in
  answer 200
    (listing (List.length lowStockProducts)
             (map (fun p => (p, populate db p)) lowStockProducts)).

(** After [await product.save()]: the collection with the stored document,
    and the document read back and populated. *)
Definition saved (db : DB) (p : Product.t) : DB * Answer :=
  match save p with
  | Err _ => (db, answer 500 (message "Server error while updating stock"))
  | Ok updatedProduct =>
      let db' := withProducts db (store updatedProduct (Products db)) in
      match findById (Product._id updatedProduct) (Products db') with
      | Some populated => (db', answer 200 (product populated (populate db' populated)))
      | None => (db', answer 500 (message "Server error while updating stock"))
      end
  end.

(** [updateStock]: [id] is [req.params.id]; [operation] and [quantity] are
    the fields of the body, [None] when absent.  The model covers the
    requests whose quantity is an integer and the stocks that are integers,
    within the safe integers of JavaScript, where [+=] and [-=] are exact. *)
Definition updateStock (db : DB) (id : string) (operation : option string)
  (quantity : option Z) : DB * Answer :=
  match operation, quantity with
  | Some op, Some q =>
      if String.eqb op "" || (q =? 0) || (q <=? 0) then
        (db, answer 400 (message "Valid operation and quantity are required"))
      else if negb (isValid id) then
        (db, answer 400 (message "Invalid product ID"))
      else
        match findById id (Products db) with
        | None => (db, answer 404 (message "Product not found"))
        | Some p =>
            if String.eqb op "add" then
              saved db (setStock p (Product.stock p + q))
            else if String.eqb op "subtract" then
              if Product.stock p <? q then
                (db, answer 400 (message "Insufficient stock"))
              else saved db (setStock p (Product.stock p - q))
            else
              (db, answer 400
                     (message ("Invalid operation. Use " ++ quote ++ "add" ++ quote
                               ++ " or " ++ quote ++ "subtract" ++ quote)))
        end
  | _, _ => (db, answer 400 (message "Valid operation and quantity are required"))
  end.


(** [getCategories] *)
Definition getCategories (db : DB) : Answer :=
  answer 200
    (categories
       (distinct (map Product.category (filter Product.isActive (Products db))))).

End Handlers.

End ProductController.

(** ** Further vocabulary of the statements *)

Module Terms.
Import JSDate JSString JSDateString Spec.

(** Number of documents whose date at [path] is present and lies in the
    half-open interval from [lo] to [hi]. *)
Definition countWindow {A : Type} (path : A -> option Z) (lo hi : Z)
  (coll : list A) : nat :=
  List.length
    (filter (fun a => match path a with
                      | Some t => (lo <=? t) && (t <? hi)
                      | None => false
                      end) coll).

(** Number of documents whose date at [path] is present and not before
    [lo]. *)
Definition countSince {A : Type} (path : A -> option Z) (lo : Z) (coll : list A)
  : nat :=
  List.length
    (filter (fun a => match path a with
                      | Some t => lo <=? t
                      | None => false
                      end) coll).

(** [date.toISOString().split('T')[0]] *)
Definition dayLabel (t : Z) : string := nth 0 (split "T" (isoString t)) "".

(** The window of a daily trend for the day [i] days back: from the local
    time of the clock reading on that calendar day to the same local time on
    the next. *)
Definition dayStart (zone : Zone) (now i : Z) : Z := daysFrom zone now (- i).
Definition dayEnd (zone : Zone) (now i : Z) : Z :=
  daysFrom zone (dayStart zone now i) 1.

(** The point of a daily trend for the day [i] days back. *)
Definition dayPointOf (zone : Zone) (now : Z) (coll : list User.t)
  (path : User.t -> option Z) (key : string) (i : Z) : json :=
  JObj [("date", JStr (dayLabel (dayStart zone now i)));
        (key, JNat (countWindow path (dayStart zone now i) (dayEnd zone now i)
                      coll))].

(** Two responses give the same count, one at the path [p] and the other
    at the path [q]. *)
Definition sameCount (p : list string) (a : json) (q : list string) (b : json)
  : Prop :=
  exists n : nat, jpath p a = Some (JNat n) /\ jpath q b = Some (JNat n).

(** The seven turns of a daily loop, [i] from 6 down to 0. *)
Definition week : list Z := [6; 5; 4; 3; 2; 1; 0].

(** Sum of the login counts of a collection. *)
Definition totalLogins (coll : list User.t) : Z :=
  Mongo.sum (map User.loginCount coll).

End Terms.

(** ** A shop with documents in every collection *)

Module Shop.

Definition day : Z := 86400000.

(** The reading of the clock: 2024-03-10T12:00:00.000Z. *)
Definition clock : Z := Sample.noon_10_march.

Definition product (id category : string) (price stock minStock : Z)
  (isActive : bool) (supplier : option string) (updatedAt : Z) : Product.t :=
  {| Product._id := id; Product.name := id; Product.sku := id;
     Product.category := category; Product.price := price;
     Product.stock := stock; Product.minStock := minStock;
     Product.isActive := isActive; Product.supplier := supplier;
     Product.image := ""; Product.createdAt := clock - 40 * day;
     Product.updatedAt := updatedAt |}.

Definition supplier (id location : string) (isActive : bool)
  (agreementEndDate : Z) : Supplier.t :=
  {| Supplier._id := id; Supplier.name := id; Supplier.location := location;
     Supplier.isActive := isActive; Supplier.agreementStartDate := 0;
     Supplier.agreementEndDate := agreementEndDate;
     Supplier.createdAt := clock - 50 * day |}.

Definition user (id : string) (role : User.Role) (isActive : bool)
  (loginCount : Z) (lastLogin : option Z) (createdAt : Z) : User.t :=
  {| User._id := id; User.fullName := id; User.email := id;
     User.role := role; User.isActive := isActive;
     User.loginCount := loginCount; User.lastLogin := lastLogin;
     User.createdAt := createdAt |}.

Definition quotation (id : string) (status : Quotation.Status) (amount : Z)
  (createdAt updatedAt : Z) : Quotation.t :=
  {| Quotation._id := id; Quotation.status := status;
     Quotation.productCategory := "tools"; Quotation.totalAmount := amount;
     Quotation.createdAt := createdAt; Quotation.updatedAt := updatedAt |}.

Definition reservation (id : string) (status : Reservation.Status)
  (email : string) (createdAt updatedAt : Z) : Reservation.t :=
  {| Reservation._id := id; Reservation.status := status;
     Reservation.email := email; Reservation.createdAt := createdAt;
     Reservation.updatedAt := updatedAt |}.

Definition db : DB :=
  {| Products :=
       [product "p1" "tools" 100 5 10 true (Some "s1") (clock - 3 * day);
        product "p2" "tools" 40 0 2 true (Some "s1") (clock - 2 * day);
        product "p3" "paint" 250 8 3 true (Some "s2") (clock - 9 * day);
        product "p4" "paint" 10 0 1 true None (clock - 1 * day);
        product "p5" "garden" 75 2 4 false (Some "s3") (clock - 5 * day)];
     Suppliers :=
       [supplier "s1" "Colombo" true (clock + 10 * day);
        supplier "s2" "Kandy" false (clock - 5 * day);
        supplier "s4" "Colombo" true (clock + 90 * day)];
     Users :=
       [user "a1" User.admin true 12 (Some (clock - 1 * day)) (clock - 90 * day);
        user "c1" User.customer true 3 (Some (clock - 2 * day)) (clock - 3 * day);
        user "c2" User.customer true 0 None (clock - 1 * day);
        user "c3" User.customer false 7 (Some (clock - 45 * day)) (clock - 60 * day)];
     Quotations :=
       [quotation "q1" Quotation.completed 100 (clock - 10 * day) (clock - 8 * day);
        quotation "q2" Quotation.completed 300 (clock - 40 * day) (clock - 39 * day);
        quotation "q3" Quotation.pending 50 (clock - 1 * day) (clock - 1 * day);
        quotation "q4" Quotation.rejected 80 (clock - 4 * day) (clock - 1 * day);
        quotation "q5" Quotation.processing 20 (clock - 2 * day) (clock - 2 * day)];
     Reservations :=
       [reservation "r1" Reservation.pending "x@shop" (clock - 1 * day) (clock - 1 * day);
        reservation "r2" Reservation.confirmed "x@shop" (clock - 6 * day) (clock - 5 * day);
        reservation "r3" Reservation.cancelled "y@shop" (clock - 35 * day) (clock - 34 * day);
        reservation "r4" Reservation.completed "x@shop" (clock - 20 * day) (clock - 18 * day)] |}.

(** A token that verifies for the user the token names: the token is the
    [_id]. *)
Definition verify (token : string) : option string :=
  if String.eqb token "forged" then None else Some token.

Definition bearer (r : Route) (token : string) : Request :=
  {| route := r; authorization := Some ("Bearer " ++ token);
     query := Sample.noQuery |}.

(** Every identifier is a valid ObjectId, and the validators accept a
    product whose stock is not negative. *)
Definition isValid (id : string) : bool := negb (String.eqb id "").

Definition validate (p : Product.t) : option string :=
  if Product.stock p <? 0 then Some "Stock cannot be negative" else None.

End Shop.

(** * Properties *)

(** ** The calendar *)

Module JSDateFacts.
Import JSDate.

Lemma DayFromYear_next y :
  DayFromYear (y + 1) = DayFromYear y + DaysInYear y.
Proof.
  unfold DayFromYear, DaysInYear, isLeap.
  destruct (Z.eqb_spec (y mod 4) 0); cbn [negb];
    [destruct (Z.eqb_spec (y mod 100) 0); cbn [negb];
       [destruct (Z.eqb_spec (y mod 400) 0); cbn [negb]|]|];
    Z.div_mod_to_equations; lia.
Qed.

(** [YearFromDay] is the year of the ECMAScript definition: the largest
    year that starts on or before the day. *)
Lemma YearFromDay_spec d :
  DayFromYear (YearFromDay d) <= d < DayFromYear (YearFromDay d + 1).
Proof.
  unfold YearFromDay.
  destruct (Z.leb_spec (DayFromYear (1970 + d * 400 / 146097 + 1)) d);
    [|destruct (Z.ltb_spec d (DayFromYear (1970 + d * 400 / 146097)))];
    unfold DayFromYear in *; Z.div_mod_to_equations; lia.
Qed.

Lemma DaysInYear_range y : 365 <= DaysInYear y <= 366.
Proof. unfold DaysInYear. destruct (isLeap y); lia. Qed.

Lemma DayWithinYear_range t :
  0 <= DayWithinYear t < 365 + InLeapYear t.
Proof.
  unfold DayWithinYear, InLeapYear, YearFromTime.
  pose proof (YearFromDay_spec (Day t)) as H.
  rewrite DayFromYear_next in H. unfold DaysInYear in H.
  destruct (isLeap (YearFromDay (Day t))); lia.
Qed.

Lemma InLeapYear_range t : 0 <= InLeapYear t <= 1.
Proof. unfold InLeapYear. destruct (isLeap _); lia. Qed.

Lemma MonthFromTime_range t : 0 <= MonthFromTime t <= 11.
Proof.
  unfold MonthFromTime.
  repeat match goal with |- context [if ?b then _ else _] => destruct b end; lia.
Qed.

Lemma DateFromTime_range t : 1 <= DateFromTime t <= 31.
Proof.
  unfold DateFromTime, MonthFromTime.
  pose proof (DayWithinYear_range t). pose proof (InLeapYear_range t).
  repeat match goal with
         | |- context [if ?a <? ?b then _ else _] => destruct (Z.ltb_spec a b)
         end; cbv beta iota delta [monthStart Z.eqb Pos.eqb]; lia.
Qed.

Lemma monthStart_range mn l : 0 <= l <= 1 -> 0 <= monthStart mn l <= 335.
Proof.
  intros. unfold monthStart.
  repeat match goal with |- context [if ?b then _ else _] => destruct b end; lia.
Qed.

(** The day number rebuilt from the year, month and date of a time value. *)
Lemma MakeDay_of_fields t n :
  MakeDay (YearFromTime t) (MonthFromTime t) (DateFromTime t + n) = Day t + n.
Proof.
  pose proof (MonthFromTime_range t) as Hm.
  unfold MakeDay.
  replace (MonthFromTime t / 12) with 0 by (Z.div_mod_to_equations; lia).
  replace (MonthFromTime t mod 12) with (MonthFromTime t)
    by (Z.div_mod_to_equations; lia).
  rewrite Z.add_0_r. unfold DateFromTime, DayWithinYear, InLeapYear. lia.
Qed.

Lemma Day_TimeWithinDay t : Day t * msPerDay + TimeWithinDay t = t.
Proof.
  unfold Day, TimeWithinDay, msPerDay. Z.div_mod_to_equations; lia.
Qed.

Lemma TimeClip_ok t : Z.abs t <= maxTime -> TimeClip t = Some t.
Proof.
  intros H. unfold TimeClip. destruct (Z.gtb_spec (Z.abs t) maxTime); [lia|easy].
Qed.

(** [d.setDate(d.getDate() - n)] moves the local time back by [n] days of
    24 hours. *)
Lemma setDate_minus zone t n :
  setDate zone (Some t) (num_sub (getDate zone (Some t)) (Some n))
  = TimeClip (UTC zone (LocalTime zone t - n * msPerDay)).
Proof.
  unfold setDate, getDate, num_sub. cbv zeta.
  replace (DateFromTime (LocalTime zone t) - n)
    with (DateFromTime (LocalTime zone t) + - n) by lia.
  rewrite MakeDay_of_fields. unfold MakeDate. do 2 f_equal.
  pose proof (Day_TimeWithinDay (LocalTime zone t)). lia.
Qed.

Lemma setDate_plus zone t n :
  setDate zone (Some t) (num_add (getDate zone (Some t)) (Some n))
  = TimeClip (UTC zone (LocalTime zone t + n * msPerDay)).
Proof.
  unfold setDate, getDate, num_add. cbv zeta.
  rewrite MakeDay_of_fields. unfold MakeDate. do 2 f_equal.
  pose proof (Day_TimeWithinDay (LocalTime zone t)). lia.
Qed.

(** The first day of a month lies within the year that holds it. *)
Lemma MakeDay_near y m dt :
  -12 <= m <= 23 ->
  DayFromYear y - 366 + dt - 1 <= MakeDay y m dt
  /\ MakeDay y m dt <= DayFromYear y + 366 + 335 + dt - 1.
Proof.
  intros Hm. unfold MakeDay.
  assert (Hs : forall ym, 0 <= monthStart (m mod 12) (if isLeap ym then 1 else 0) <= 335)
    by (intros ym; apply monthStart_range; destruct (isLeap ym); lia).
  assert (Hq : m / 12 = -1 \/ m / 12 = 0 \/ m / 12 = 1)
    by (Z.div_mod_to_equations; lia).
  pose proof (DayFromYear_next y) as H1. pose proof (DaysInYear_range y).
  pose proof (DayFromYear_next (y - 1)) as H0. pose proof (DaysInYear_range (y - 1)).
  replace (y - 1 + 1) with y in H0 by lia.
  destruct Hq as [-> | [-> | ->]].
  - replace (y + -1) with (y - 1) by lia. specialize (Hs (y - 1)). lia.
  - rewrite Z.add_0_r. specialize (Hs y). lia.
  - specialize (Hs (y + 1)). lia.
Qed.

Lemma TimeWithinDay_range t : 0 <= TimeWithinDay t < msPerDay.
Proof. unfold TimeWithinDay, msPerDay. Z.div_mod_to_equations. lia. Qed.

Lemma YearFromTime_near t :
  DayFromYear (YearFromTime t) <= Day t < DayFromYear (YearFromTime t) + 366.
Proof.
  unfold YearFromTime. pose proof (YearFromDay_spec (Day t)) as H.
  rewrite DayFromYear_next in H. pose proof (DaysInYear_range (YearFromDay (Day t))).
  lia.
Qed.

Lemma DayFromYear_1900s y :
  0 <= y <= 99 -> -25567 <= DayFromYear (1900 + y) <= 10957.
Proof. intros. unfold DayFromYear. Z.div_mod_to_equations. lia. Qed.

End JSDateFacts.

(** ** Dates derived from the clock *)

Module ClockFacts.
Import JSDate JSDateFacts JSString JSDateString Mongo Spec.

(** A zone that keeps one offset within a day of UTC, and a clock in
    range. *)
Lemma clockOk_fixed tza now :
  Z.abs now <= maxTime - 5000 * msPerDay -> Z.abs tza <= msPerDay ->
  clockOk (fixedOffset tza) now.
Proof. intros Hn Hz. split; [exact Hn | intros; exact Hz]. Qed.

Lemma clockOk_utc now :
  Z.abs now <= maxTime - 5000 * msPerDay -> clockOk Sample.utc now.
Proof.
  intros H. apply clockOk_fixed; [exact H | unfold msPerDay; lia].
Qed.

Lemma clockOk_newYork now :
  Z.abs now <= maxTime - 5000 * msPerDay -> clockOk Sample.newYork now.
Proof.
  intros H. split; [exact H|]. intros t isUTC. cbn. unfold Sample.newYorkZone.
  cbv zeta. unfold msPerDay.
  destruct isUTC;
    match goal with |- context [if ?b then _ else _] => destruct b end; lia.
Qed.

(** The sample clocks are in range. *)
Ltac sample_clock :=
  first [ apply clockOk_utc | apply clockOk_newYork ];
  unfold maxTime, msPerDay, Sample.noon_10_march, Sample.noon_31_march; lia.

Lemma fixed_fixedOffset tza : fixed (fixedOffset tza) tza.
Proof. intros t isUTC. reflexivity. Qed.

Lemma Date_now_ok zone now : clockOk zone now -> Date_now now = Some now.
Proof.
  intros [H _]. apply TimeClip_ok. unfold maxTime, msPerDay in *. lia.
Qed.

(** Where the offset does not change, calendar days are days of 24
    hours. *)
Lemma daysFrom_fixed zone tza t n :
  fixed zone tza -> daysFrom zone t n = t + n * msPerDay.
Proof.
  intros H. unfold daysFrom, UTC, LocalTime. rewrite !H. lia.
Qed.

(** Elsewhere they are so to within two days. *)
Lemma daysFrom_near zone now t n :
  clockOk zone now ->
  t + n * msPerDay - 2 * msPerDay <= daysFrom zone t n
  <= t + n * msPerDay + 2 * msPerDay.
Proof.
  intros [_ Hz]. unfold daysFrom, UTC, LocalTime.
  pose proof (Hz t true) as H1.
  pose proof (Hz (t + zone t true + n * msPerDay) false) as H2.
  lia.
Qed.

(** A date a few calendar days from the clock. *)
Lemma daysFrom_ok zone now n :
  clockOk zone now -> Z.abs n <= 4990 ->
  TimeClip (daysFrom zone now n) = Some (daysFrom zone now n).
Proof.
  intros Hc Hn. apply TimeClip_ok.
  pose proof (daysFrom_near zone now now n Hc) as H. destruct Hc as [Hc _].
  unfold maxTime, msPerDay in *. lia.
Qed.

(** A date a few calendar days from one that is itself so. *)
Lemma daysFrom_twice_ok zone now n m :
  clockOk zone now -> Z.abs n <= 2000 -> Z.abs m <= 2000 ->
  TimeClip (daysFrom zone (daysFrom zone now n) m)
  = Some (daysFrom zone (daysFrom zone now n) m).
Proof.
  intros Hc Hn Hm. apply TimeClip_ok.
  pose proof (daysFrom_near zone now now n Hc) as H1.
  pose proof (daysFrom_near zone now (daysFrom zone now n) m Hc) as H2.
  destruct Hc as [Hc _]. unfold maxTime, msPerDay in *. lia.
Qed.

(** [d.setDate(d.getDate() - n)] and [d.setDate(d.getDate() + n)]. *)
Lemma setDate_back zone t n :
  setDate zone (Some t) (num_sub (getDate zone (Some t)) (Some n))
  = TimeClip (daysFrom zone t (- n)).
Proof. rewrite setDate_minus. unfold daysFrom. do 2 f_equal. lia. Qed.

Lemma setDate_forth zone t n :
  setDate zone (Some t) (num_add (getDate zone (Some t)) (Some n))
  = TimeClip (daysFrom zone t n).
Proof. rewrite setDate_plus. reflexivity. Qed.

Lemma startDate_eq (host : Host) now query n :
  clockOk host now -> days query = Some n ->
  startDate host now query = TimeClip (daysFrom host now (- n)).
Proof.
  intros Hc Hn. unfold startDate. rewrite (Date_now_ok host now Hc), Hn.
  apply setDate_back.
Qed.

(** [thirtyDaysAgo] *)
Lemma thirtyDaysAgo_ok zone now :
  clockOk zone now ->
  setDate zone (Date_now now) (num_sub (getDate zone (Date_now now)) (Some 30))
  = Some (daysFrom zone now (-30)).
Proof.
  intros Hc. rewrite (Date_now_ok zone now Hc), setDate_back.
  apply (daysFrom_ok zone now (-30) Hc). lia.
Qed.


(** A date a few days of 24 hours from the clock. *)
Lemma shifted_ok zone now n :
  clockOk zone now -> Z.abs n <= 5000 ->
  TimeClip (now + n * msPerDay) = Some (now + n * msPerDay).
Proof.
  intros [H _] Hn. apply TimeClip_ok. unfold maxTime, msPerDay in *. lia.
Qed.

Lemma Day_bounds t : Day t * msPerDay <= t < Day t * msPerDay + msPerDay.
Proof. unfold Day, msPerDay. Z.div_mod_to_equations. lia. Qed.

(** [date.setMonth(date.getMonth() - i)] on the clock. *)
Lemma setMonth_valid zone now i :
  clockOk zone now -> 0 <= i <= 5 ->
  exists t,
    setMonth zone (Some now) (num_sub (getMonth zone (Some now)) (Some i)) = Some t
    /\ Z.abs t <= maxTime - 3000 * msPerDay.
Proof.
  intros [Hn Hz] Hi. unfold setMonth, getMonth, num_sub. cbv zeta.
  set (lt := LocalTime zone now).
  pose proof (MonthFromTime_range lt) as Hm.
  pose proof (DateFromTime_range lt) as Hd.
  pose proof (YearFromTime_near lt) as Hy.
  pose proof (TimeWithinDay_range lt) as Hw.
  pose proof (Day_bounds lt) as Hb.
  pose proof (MakeDay_near (YearFromTime lt) (MonthFromTime lt - i) (DateFromTime lt))
    as Hk.
  pose proof (Hz now true) as Hz1.
  assert (Hlt : lt = now + zone now true) by reflexivity.
  set (d := MakeDay _ _ _) in *. clearbody d.
  pose proof (Hz (MakeDate d (TimeWithinDay lt)) false) as Hz2.
  unfold UTC. set (o := zone (MakeDate d (TimeWithinDay lt)) false) in *.
  clearbody o.
  eexists. split.
  - apply TimeClip_ok. unfold MakeDate, maxTime, msPerDay in *. lia.
  - unfold MakeDate, maxTime, msPerDay in *. lia.
Qed.

(** [new Date(date.getFullYear(), m, dt)] for a month and a day next to
    those of [date]. *)
Lemma Date_ymd_valid zone t m dt :
  Z.abs t <= maxTime - 3000 * msPerDay ->
  (forall u isUTC, Z.abs (zone u isUTC) <= msPerDay) ->
  -12 <= m <= 23 -> -1 <= dt <= 32 ->
  exists u, Date_ymd zone (getFullYear zone (Some t)) (Some m) (Some dt) = Some u.
Proof.
  intros Ht Hz Hm Hd. unfold Date_ymd, getFullYear.
  set (lt := LocalTime zone t).
  pose proof (YearFromTime_near lt) as Hy.
  pose proof (Day_bounds lt) as Hb.
  pose proof (Hz t true) as Hz1.
  assert (Hlt : lt = t + zone t true) by reflexivity.
  eexists. apply TimeClip_ok. unfold UTC.
  match goal with |- context [zone ?x false] =>
    pose proof (Hz x false) as Hz2; set (o := zone x false) in *; clearbody o
  end.
  unfold MakeDate, MakeTime.
  destruct ((0 <=? YearFromTime lt) && (YearFromTime lt <=? 99)) eqn:E.
  - apply andb_prop in E as [E1 E2].
    apply Z.leb_le in E1. apply Z.leb_le in E2.
    pose proof (DayFromYear_1900s (YearFromTime lt) (conj E1 E2)).
    pose proof (MakeDay_near (1900 + YearFromTime lt) m dt Hm) as Hk.
    set (d := MakeDay _ _ _) in *. clearbody d.
    unfold maxTime, msPerDay in *. lia.
  - pose proof (MakeDay_near (YearFromTime lt) m dt Hm) as Hk.
    set (d := MakeDay _ _ _) in *. clearbody d.
    unfold maxTime, msPerDay in *. lia.
Qed.

(** The three dates of a turn of the six-month loop are valid. *)
Lemma month_dates zone now i :
  clockOk zone now -> 0 <= i <= 5 ->
  exists date startOfMonth endOfMonth,
    setMonth zone (Date_now now) (num_sub (getMonth zone (Date_now now)) (Some i))
    = Some date
    /\ Date_ymd zone (getFullYear zone (Some date)) (getMonth zone (Some date)) (Some 1)
       = Some startOfMonth
    /\ Date_ymd zone (getFullYear zone (Some date))
         (num_add (getMonth zone (Some date)) (Some 1)) (Some 0)
       = Some endOfMonth.
Proof.
  intros Hc Hi. rewrite (Date_now_ok zone now Hc).
  destruct (setMonth_valid zone now i Hc Hi) as (date & Hdate & Hb).
  destruct Hc as [_ Hz].
  pose proof (MonthFromTime_range (LocalTime zone date)) as Hm.
  destruct (Date_ymd_valid zone date (MonthFromTime (LocalTime zone date)) 1)
    as (s & Hs); try lia; try exact Hz.
  destruct (Date_ymd_valid zone date (MonthFromTime (LocalTime zone date) + 1) 0)
    as (e & He); try lia; try exact Hz.
  exists date, s, e. repeat split; assumption.
Qed.

End ClockFacts.

(** ** Sorting, grouping and the error monad *)

Module MongoFacts.
Import Mongo.

Section Sorting.
Context {A : Type} (le : A -> A -> bool).

Lemma insertBy_perm x l : Permutation (insertBy le x l) (x :: l).
Proof.
  induction l as [|y r IH]; cbn.
  - reflexivity.
  - destruct (le x y).
    + reflexivity.
    + rewrite IH. apply perm_swap.
Qed.

Lemma sortBy_perm l : Permutation (sortBy le l) l.
Proof.
  induction l as [|x r IH]; cbn.
  - reflexivity.
  - rewrite insertBy_perm. now constructor.
Qed.

Hypothesis le_total : forall a b, le a b = true \/ le b a = true.

Lemma insertBy_sorted x l :
  Sorted (fun a b => le a b = true) l ->
  Sorted (fun a b => le a b = true) (insertBy le x l).
Proof.
  induction 1 as [|y r Hs IH Hh]; cbn.
  - repeat constructor.
  - destruct (le x y) eqn:E.
    + constructor; [constructor; assumption | constructor; assumption].
    + constructor; [assumption|].
      destruct r as [|z r']; cbn in *.
      * constructor. destruct (le_total x y); congruence.
      * destruct (le x z); constructor.
        -- destruct (le_total x y); congruence.
        -- now inversion Hh.
Qed.

Lemma sortBy_sorted l : Sorted (fun a b => le a b = true) (sortBy le l).
Proof.
  induction l as [|x r IH]; cbn.
  - constructor.
  - now apply insertBy_sorted.
Qed.

End Sorting.

Section Grouping.
Context {A K : Type} (eqb : K -> K -> bool) (key : A -> K).
Hypothesis eqb_spec : forall a b, eqb a b = true <-> a = b.

Lemma addToGroup_keys a gs :
  forall k, In k (map fst (addToGroup eqb (key a) a gs)) ->
            k = key a \/ In k (map fst gs).
Proof.
  induction gs as [|[k' docs] r IH]; cbn; intros k.
  - intros [<- | []]. now left.
  - destruct (eqb (key a) k'); cbn.
    + intros [<- | H]; right; [now left | now right].
    + intros [<- | H]; [right; now left|].
      destruct (IH k H); [now left | right; now right].
Qed.

Lemma addToGroup_wellGrouped a gs :
  Spec.wellGrouped key gs -> Spec.wellGrouped key (addToGroup eqb (key a) a gs).
Proof.
  induction gs as [|[k' docs] r IH]; cbn; intros [Hn Hg].
  - split.
    + repeat constructor. easy.
    + intros g [<- | []]. cbn. split; [easy|]. now intros ? [<- | []].
  - destruct (eqb (key a) k') eqn:E.
    + apply eqb_spec in E. split; [exact Hn|].
      intros g [<- | Hin]; cbn.
      * split; [now destruct docs|].
        intros b Hb. apply in_app_or in Hb as [Hb | [<- | []]]; [|easy].
        apply (Hg (k', docs)); [now left | exact Hb].
      * apply Hg. now right.
    + cbn in Hn. inversion Hn as [|? ? Hk Hr]; subst.
      destruct IH as [Hn' Hg'].
      { split; [exact Hr|]. intros g Hin. apply Hg. now right. }
      split.
      * cbn. constructor; [|exact Hn'].
        intros Hin. apply addToGroup_keys in Hin as [-> | Hin]; [|easy].
        assert (eqb (key a) (key a) = true) by now apply eqb_spec.
        congruence.
      * intros g [<- | Hin]; [apply (Hg (k', docs)); now left | now apply Hg'].
Qed.

Lemma addToGroup_perm a gs :
  Permutation (List.concat (map snd (addToGroup eqb (key a) a gs)))
              (a :: List.concat (map snd gs)).
Proof.
  induction gs as [|[k' docs] r IH]; cbn.
  - reflexivity.
  - destruct (eqb (key a) k'); cbn.
    + rewrite <- app_assoc. cbn.
      rewrite <- Permutation_middle. reflexivity.
    + rewrite IH. rewrite <- Permutation_middle. reflexivity.
Qed.

Lemma fold_group docs :
  forall gs, Spec.wellGrouped key gs ->
    let out := fold_left (fun gs a => addToGroup eqb (key a) a gs) docs gs in
    Spec.wellGrouped key out
    /\ Permutation (List.concat (map snd out)) (List.concat (map snd gs) ++ docs)%list.
Proof.
  induction docs as [|a r IH]; cbn; intros gs Hw.
  - split; [exact Hw|]. now rewrite app_nil_r.
  - destruct (IH _ (addToGroup_wellGrouped a gs Hw)) as [H1 H2].
    split; [exact H1|]. rewrite H2, addToGroup_perm.
    cbn. apply Permutation_middle.
Qed.

(** [$group] partitions its input: every document is in one group, the
    keys of the groups are distinct, no group is empty, and the key of a
    group is the key of each of its documents. *)
Lemma group_partition docs :
  Spec.wellGrouped key (group eqb key docs)
  /\ Permutation (List.concat (map snd (group eqb key docs))) docs.
Proof.
  unfold group.
  destruct (fold_group docs []) as [H1 H2].
  - split; [constructor | intros ? []].
  - split; assumption.
Qed.

End Grouping.

Lemma mapM_ok {A B : Type} (f : A -> result B) (l : list A) :
  (forall a, In a l -> exists b, f a = Ok b) ->
  exists bs, mapM f l = Ok bs /\ List.length bs = List.length l.
Proof.
  induction l as [|a r IH]; cbn; intros H.
  - now exists [].
  - destruct (H a (or_introl eq_refl)) as [b ->].
    destruct IH as (bs & -> & Hl); [intros; apply H; now right|].
    exists (b :: bs). cbn. now rewrite Hl.
Qed.

Lemma length_concat_sum {A : Type} (ls : list (list A)) :
  List.length (List.concat ls) = fold_right Nat.add O (map (@List.length A) ls).
Proof.
  induction ls as [|l r IH]; cbn; [reflexivity|].
  now rewrite length_app, IH.
Qed.

Lemma perm_concat {A : Type} (l l' : list (list A)) :
  Permutation l l' -> Permutation (List.concat l) (List.concat l').
Proof.
  induction 1; cbn.
  - reflexivity.
  - now apply Permutation_app_head.
  - rewrite !app_assoc. apply Permutation_app_tail, Permutation_app_comm.
  - etransitivity; eassumption.
Qed.

Lemma filter_none {A : Type} (p q : A -> bool) (l : list A) :
  (forall a, q a = true -> p a = true) -> filter p l = [] -> filter q l = [].
Proof.
  intros Himp. induction l as [|a r IH]; cbn; [reflexivity|].
  destruct (p a) eqn:Ep; [discriminate|]. intros Hr.
  destruct (q a) eqn:Eq; [|now apply IH].
  apply Himp in Eq. congruence.
Qed.

Lemma count_gte {A : Type} (path : A -> Z) (s : Z) (coll : list A) :
  List.length (filter (fun a => matchesDate [(gte, s)] (Some (path a))) coll)
  = Spec.countFrom path s coll.
Proof.
  unfold Spec.countFrom. f_equal. apply filter_ext. intros a. cbn.
  apply andb_true_r.
Qed.

Lemma count_lt {A : Type} (path : A -> Z) (hi : Z) (coll : list A) :
  List.length (filter (fun a => matchesDate [(lt, hi)] (Some (path a))) coll)
  = Spec.countBefore path hi coll.
Proof.
  unfold Spec.countBefore. f_equal. apply filter_ext. intros a. cbn.
  apply andb_true_r.
Qed.

Lemma count_between {A : Type} (path : A -> Z) (lo hi : Z) (coll : list A) :
  List.length
    (filter (fun a => matchesDate [(gte, lo); (lte, hi)] (Some (path a))) coll)
  = Spec.countIn path lo hi coll.
Proof.
  unfold Spec.countIn. f_equal. apply filter_ext. intros a. cbn.
  now rewrite andb_true_r.
Qed.



End MongoFacts.

Module ParseFacts.
Import JSString Spec.
















(** White space before the digits is skipped, the no-break space and the
    byte order mark as well as a blank. *)
Lemma parseInt_after_white_space :
  parseInt (String (ascii_of_nat 194) (String (ascii_of_nat 160) "7")) = Some 7
  /\ parseInt (String (ascii_of_nat 239) (String (ascii_of_nat 187)
                 (String (ascii_of_nat 191) " 15abc"))) = Some 15
  /\ parseInt (String (ascii_of_nat 226) (String (ascii_of_nat 128)
                 (String (ascii_of_nat 168) "-3"))) = Some (-3)
  /\ parseInt (String (ascii_of_nat 194) (String (ascii_of_nat 161) "7")) = None.
Proof. repeat split; vm_compute; reflexivity. Qed.

End ParseFacts.

(** ** The queries of the reports succeed *)

Module ProductFacts.
Import JSDate Mongo JS MongoFacts ProductReport.

(** With a valid start date every query of the product report succeeds. *)
Lemma product_queries_ok (host : Host) now db query s :
  startDate host now query = Some s ->
  exists l,
    queries host now db query = Ok l
    /\ lowStockProducts l
       = List.length (filter (fun p => lowStock p && Product.isActive p) (Products db))
    /\ outOfStockProducts l
       = List.length (filter (fun p => (Product.stock p =? 0) && Product.isActive p)
                        (Products db))
    /\ recentProducts l
       = Spec.countFrom Product.createdAt s (Products db)
    /\ categoryStats l
       = map categoryGroup
           (descending (fun g => size (snd g))
              (group String.eqb Product.category (filter Product.isActive (Products db))))
    /\ stockValueStats l
       = map stockValueGroup (groupAll (filter Product.isActive (Products db)))
    /\ supplierStats l
       = map supplierGroup
           (limit 10
              (descending (fun g => size (snd (fst g)))
                 (lookupUnwind (Suppliers db) Supplier._id fst
                    (group String.eqb supplierRef
                       (filter (fun p => Product.isActive p && hasSupplier p)
                          (Products db))))))
    /\ lowStockProductsList l
       = map selectLowStock
           (ascending Product.stock
              (filter (fun p => lowStock p && (0 <? Product.stock p)
                                && Product.isActive p) (Products db)))
    /\ outOfStockProductsList l
       = map selectOutOfStock
           (descending Product.updatedAt
              (filter (fun p => (Product.stock p =? 0) && Product.isActive p)
                 (Products db))).
Proof.
  intros Hs. eexists. split.
  - unfold queries. rewrite Hs. reflexivity.
  - cbn. repeat split. apply count_gte.
Qed.

End ProductFacts.

Module SupplierFacts.
Import JSDate JSDateFacts Mongo JS MongoFacts ClockFacts Spec SupplierReport.

(** With a valid start date every query of the supplier report succeeds. *)
Lemma supplier_queries_ok (host : Host) now db query s :
  clockOk host now -> startDate host now query = Some s ->
  exists l,
    queries host now db query = Ok l
    /\ expiredAgreements l = countBefore Supplier.agreementEndDate now (Suppliers db)
    /\ expiringSoon l
       = countIn Supplier.agreementEndDate now (now + 30 * msPerDay) (Suppliers db)
    /\ recentSuppliers l = countFrom Supplier.createdAt s (Suppliers db).
Proof.
  intros Hc Hs.
  assert (H30 : Date_of_number
                  (num_add (getTime (Date_now now)) (Some (30 * 24 * 60 * 60 * 1000)))
                = Some (now + 30 * msPerDay)).
  { rewrite (Date_now_ok host now Hc). cbn [getTime num_add Date_of_number].
    change (30 * 24 * 60 * 60 * 1000) with (30 * msPerDay).
    apply shifted_ok with (zone := localZone host); [exact Hc | lia]. }
  eexists. split.
  - unfold queries. rewrite Hs, H30, (Date_now_ok host now Hc). reflexivity.
  - cbn. repeat split.
    + apply count_lt.
    + apply count_between.
    + apply count_gte.
Qed.

(** The two lists of the supplier report. *)
Lemma supplier_lists_ok (host : Host) now db query s :
  clockOk host now -> startDate host now query = Some s ->
  exists l,
    queries host now db query = Ok l
    /\ supplierProductStats l
       = map supplierGroup
           (descending (fun g => size (snd (fst g)))
              (lookupUnwind (Suppliers db) Supplier._id fst
                 (group String.eqb supplierRef
                    (filter (fun p => Product.isActive p && hasSupplier p)
                       (Products db)))))
    /\ locationStats l
       = map locationGroup
           (descending (fun g => size (snd g))
              (group String.eqb Supplier.location (Suppliers db))).
Proof.
  intros Hc Hs.
  assert (H30 : Date_of_number
                  (num_add (getTime (Date_now now)) (Some (30 * 24 * 60 * 60 * 1000)))
                = Some (now + 30 * msPerDay)).
  { rewrite (Date_now_ok host now Hc). cbn [getTime num_add Date_of_number].
    change (30 * 24 * 60 * 60 * 1000) with (30 * msPerDay).
    apply shifted_ok with (zone := localZone host); [exact Hc | lia]. }
  eexists. split.
  - unfold queries. rewrite Hs, H30, (Date_now_ok host now Hc). reflexivity.
  - cbn. split; reflexivity.
Qed.

(** A [$lookup] into an empty collection joins nothing, and [$unwind]
    drops every group. *)
Lemma lookupUnwind_nil {G F : Type} (foreignId : F -> string)
  (localId : G -> string) (gs : list G) :
  lookupUnwind [] foreignId localId gs = [].
Proof.
  unfold lookupUnwind. induction gs as [|g gs IH]; [reflexivity|].
  cbn. exact IH.
Qed.

End SupplierFacts.

Module UserFacts.
Import JSDate JSDateFacts JSString JSDateString Mongo JS MongoFacts ClockFacts Spec.
Import UserReport.

(** A turn of a seven-day loop: the window starts [i] calendar days before
    the clock reading, at the same local time of day, and ends one calendar
    day later; the point is labelled with the UTC date of its start. *)
Lemma dayPoint_ok (host : Host) now coll name path key i :
  clockOk host now -> 0 <= i <= 6 ->
  dayPoint host now coll name path key i
  = Ok (JObj [("date",
               JStr (nth 0 (split "T" (isoString (daysFrom host now (- i)))) ""));
              (key, JNat (List.length
                            (filter (fun u => matchesDate
                                                [(gte, daysFrom host now (- i));
                                                 (lt, daysFrom host
                                                        (daysFrom host now (- i)) 1)]
                                                (path u)) coll)))]).
Proof.
  intros Hc Hi. unfold dayPoint. rewrite (Date_now_ok host now Hc). cbv zeta.
  rewrite setDate_back.
  rewrite (daysFrom_ok host now (- i) Hc) by lia.
  rewrite setDate_forth.
  rewrite (daysFrom_twice_ok host now (- i) 1 Hc) by lia.
  reflexivity.
Qed.

Lemma day_trend_ok (host : Host) now coll name path key :
  clockOk host now ->
  exists points,
    mapM (dayPoint host now coll name path key) [6; 5; 4; 3; 2; 1; 0] = Ok points
    /\ List.length points = 7%nat.
Proof.
  intros Hc. apply mapM_ok. intros i Hi. eexists. apply dayPoint_ok; [exact Hc|].
  cbn in Hi. lia.
Qed.

(** With a valid start date every query of the user report succeeds. *)
Lemma user_queries_ok (host : Host) now db query s :
  clockOk host now -> startDate host now query = Some s ->
  exists l,
    queries host now db query = Ok l
    /\ totalUsers l = List.length (Users db)
    /\ recentRegistrations l = countFrom User.createdAt s (Users db)
    /\ List.length (registrationTrends l) = 7%nat
    /\ topActiveUsers l
       = map selectActive
           (limit 5 (descending User.loginCount (filter isCustomer (Users db))))
    /\ activityStats l = map activityGroup (groupAll (Users db))
    /\ loginDistribution l = map bucketDoc (sortedBuckets (Users db))
    /\ List.length (activityTrends l) = 7%nat.
Proof.
  intros Hc Hs.
  destruct (day_trend_ok host now (Users db) "createdAt"
              (fun u => Some (User.createdAt u)) "count" Hc)
    as (reg & Hreg & Lreg).
  destruct (day_trend_ok host now (Users db) "lastLogin" User.lastLogin
              "activeUsers" Hc)
    as (act & Hact & Lact).
  eexists. split.
  - unfold queries. rewrite Hs, (thirtyDaysAgo_ok host now Hc).
    set (r := mapM (dayPoint _ _ _ _ _ "count") _).
    assert (Er : r = Ok reg) by exact Hreg. clearbody r. subst r.
    set (a := mapM (dayPoint _ _ _ _ _ "activeUsers") _).
    assert (Ea : a = Ok act) by exact Hact. clearbody a. subst a.
    reflexivity.
  - cbn. repeat split; try assumption.
    + now rewrite filter_true.
    + apply count_gte.
Qed.

End UserFacts.

Module QuotationFacts.
Import JSDate JSDateFacts JSString JSDateString Mongo JS MongoFacts ClockFacts Spec.
Import QuotationReport.

Lemma quotation_monthPoint_ok (host : Host) now coll i :
  clockOk host now -> 0 <= i <= 5 ->
  exists point, monthPoint host now coll i = Ok point.
Proof.
  intros Hc Hi.
  destruct (month_dates host now i Hc Hi) as (date & s & e & H1 & H2 & H3).
  unfold monthPoint. cbv zeta. rewrite H1, H2, H3. eexists. reflexivity.
Qed.

Lemma quotation_trend_ok (host : Host) now coll :
  clockOk host now ->
  exists points,
    mapM (monthPoint host now coll) [5; 4; 3; 2; 1; 0] = Ok points
    /\ List.length points = 6%nat.
Proof.
  intros Hc. apply mapM_ok. intros i Hi. apply quotation_monthPoint_ok; [exact Hc|].
  cbn in Hi. lia.
Qed.

(** With a valid start date every query of the quotation report succeeds. *)
Lemma quotation_queries_ok (host : Host) now db query s :
  clockOk host now -> startDate host now query = Some s ->
  exists l,
    queries host now db query = Ok l
    /\ recentQuotations l = countFrom Quotation.createdAt s (Quotations db)
    /\ revenueStats l
       = map revenueGroup
           (groupAll (filter (hasStatus Quotation.completed) (Quotations db)))
    /\ categoryStats l
       = map categoryGroup
           (descending (fun g => size (snd g))
              (group String.eqb Quotation.productCategory (Quotations db)))
    /\ List.length (monthlyTrends l) = 6%nat
    /\ responseTimeStats l
       = map responseTimeGroup
           (groupAll
              (map responseTime
                 (filter (fun q => hasStatus Quotation.completed q
                                   || hasStatus Quotation.rejected q)
                    (Quotations db)))).
Proof.
  intros Hc Hs.
  destruct (quotation_trend_ok host now (Quotations db) Hc) as (pts & Hpts & Lpts).
  eexists. split.
  - unfold queries. rewrite Hs.
    set (m := mapM (monthPoint _ _ _) _).
    assert (Em : m = Ok pts) by exact Hpts. clearbody m. subst m.
    reflexivity.
  - cbn. repeat split; try assumption. apply count_gte.
Qed.

End QuotationFacts.

Module ReservationFacts.
Import JSDate JSDateFacts JSString JSDateString Mongo JS MongoFacts ClockFacts Spec.
Import ReservationReport.

Lemma reservation_monthPoint_ok (host : Host) now coll i :
  clockOk host now -> 0 <= i <= 5 ->
  exists point, monthPoint host now coll i = Ok point.
Proof.
  intros Hc Hi.
  destruct (month_dates host now i Hc Hi) as (date & s & e & H1 & H2 & H3).
  unfold monthPoint. cbv zeta. rewrite H1, H2, H3. eexists. reflexivity.
Qed.

Lemma reservation_trend_ok (host : Host) now coll :
  clockOk host now ->
  exists points,
    mapM (monthPoint host now coll) [5; 4; 3; 2; 1; 0] = Ok points
    /\ List.length points = 6%nat.
Proof.
  intros Hc. apply mapM_ok. intros i Hi. apply reservation_monthPoint_ok; [exact Hc|].
  cbn in Hi. lia.
Qed.

(** With a valid start date every query of the reservation report succeeds. *)
Lemma reservation_queries_ok (host : Host) now db query s :
  clockOk host now -> startDate host now query = Some s ->
  exists l,
    queries host now db query = Ok l
    /\ recentReservations l = countFrom Reservation.createdAt s (Reservations db)
    /\ List.length (monthlyTrends l) = 6%nat
    /\ customerStats l
       = map customerGroup
           (limit 10
              (descending (fun g => size (snd g))
                 (group String.eqb Reservation.email (Reservations db))))
    /\ statusDistribution l
       = map statusGroup
           (descending (fun g => size (snd g))
              (group statusEqb Reservation.status (Reservations db)))
    /\ responseTimeStats l
       = map responseTimeGroup
           (groupAll
              (map responseTime
                 (filter (fun r => hasStatus Reservation.confirmed r
                                   || hasStatus Reservation.completed r
                                   || hasStatus Reservation.cancelled r)
                    (Reservations db)))).
Proof.
  intros Hc Hs.
  destruct (reservation_trend_ok host now (Reservations db) Hc) as (pts & Hpts & Lpts).
  eexists. split.
  - unfold queries. rewrite Hs.
    set (m := mapM (monthPoint _ _ _) _).
    assert (Em : m = Ok pts) by exact Hpts. clearbody m. subst m.
    reflexivity.
  - cbn. repeat split; try assumption. apply count_gte.
Qed.

End ReservationFacts.

Module DashboardFacts.
Import JSDate JSDateFacts Mongo JS MongoFacts ClockFacts Spec Dashboard.

(** [total || 0] is [total] for a number. *)
Lemma or_number z : or_ (Some (JInt z)) (JInt 0) = JInt z.
Proof. destruct z; reflexivity. Qed.

(** Every query of the dashboard succeeds. *)
Lemma dashboard_queries_ok (host : Host) now db :
  clockOk host now ->
  exists l,
    queries host now db = Ok l
    /\ totalUsers l = List.length (Users db)
    /\ recentQuotations l
       = countFrom Quotation.createdAt (daysFrom host now (-30)) (Quotations db)
    /\ recentReservations l
       = countFrom Reservation.createdAt (daysFrom host now (-30))
           (Reservations db)
    /\ revenueData l
       = map revenueGroup
           (groupAll (filter (QuotationReport.hasStatus Quotation.completed)
                        (Quotations db))).
Proof.
  intros Hc.
  eexists. split.
  - unfold queries. rewrite (thirtyDaysAgo_ok host now Hc). reflexivity.
  - cbn. repeat split.
    + now rewrite filter_true.
    + apply count_gte.
    + apply count_gte.
Qed.

End DashboardFacts.

Module RecentFacts.
Import JSDate JSDateFacts JSString Mongo JS MongoFacts ClockFacts Spec.


Lemma castFailure_failed (host : Host) model path :
  failed (castFailure host model path).
Proof. repeat split. Qed.

(** With a start date that is not valid the recent count of each of the
    five period reports is rejected and the handler answers 500. *)
Lemma invalid_start_fails (host : Host) now db query :
  clockOk host now -> startDate host now query = None ->
  getProductReports host now db query = castFailure host "Product" "createdAt"
  /\ getSupplierReports host now db query
     = castFailure host "Supplier" "createdAt"
  /\ getUserReports host now db query = castFailure host "User" "createdAt"
  /\ getQuotationReports host now db query
     = castFailure host "Quotation" "createdAt"
  /\ getReservationReports host now db query
     = castFailure host "Reservation" "createdAt".
Proof.
  intros Hc Hs.
  assert (H30 : Date_of_number
                  (num_add (getTime (Date_now now)) (Some (30 * 24 * 60 * 60 * 1000)))
                = Some (now + 30 * msPerDay)).
  { rewrite (Date_now_ok host now Hc). cbn [getTime num_add Date_of_number].
    change (30 * 24 * 60 * 60 * 1000) with (30 * msPerDay).
    apply shifted_ok with (zone := localZone host); [exact Hc | lia]. }
  repeat split.
  - unfold getProductReports, ProductReport.queries. rewrite Hs. reflexivity.
  - unfold getSupplierReports, SupplierReport.queries.
    rewrite Hs, H30, (Date_now_ok host now Hc). reflexivity.
  - unfold getUserReports, UserReport.queries. rewrite Hs. reflexivity.
  - unfold getQuotationReports, QuotationReport.queries. rewrite Hs. reflexivity.
  - unfold getReservationReports, ReservationReport.queries. rewrite Hs. reflexivity.
Qed.

End RecentFacts.

(** ** The login histogram *)

Module HistogramFacts.
Import JSDate Mongo JS MongoFacts Spec UserReport.

Lemma bucketIdEqb_spec a b : bucketIdEqb a b = true <-> a = b.
Proof.
  destruct a as [x|], b as [y|]; cbn; try easy.
  rewrite Z.eqb_eq. split; [now intros -> | now intros [= ->]].
Qed.

Lemma bucketIdLe_total a b : bucketIdLe a b = true \/ bucketIdLe b a = true.
Proof.
  destruct a as [x|], b as [y|]; cbn; auto.
  destruct (Z.leb_spec x y); [now left | right; apply Z.leb_le; lia].
Qed.

Lemma bucketIdLe_trans a b c :
  bucketIdLe a b = true -> bucketIdLe b c = true -> bucketIdLe a c = true.
Proof.
  destruct a as [x|], b as [y|], c as [z|]; cbn; try easy.
  rewrite !Z.leb_le. lia.
Qed.

Lemma bucketIdLe_strict a b :
  bucketIdLe a b = true -> a <> b -> bucketIdLt a b.
Proof.
  destruct a as [x|], b as [y|]; cbn; try easy.
  rewrite Z.leb_le. intros H N. assert (x <> y) by congruence. lia.
Qed.

(** The bucket of a login count, read off the boundaries. *)
Lemma bucketOf_boundaries v :
  match bucketOf boundaries v with
  | Some lo => exists hi, In (lo, hi) intervals /\ lo <= v < hi
  | None => v < 0 \/ 100 <= v
  end.
Proof.
  unfold boundaries, intervals. cbn [bucketOf].
  repeat match goal with
         | |- context [(?a <=? v) && (v <? ?b)] =>
             destruct (Z.leb_spec a v); destruct (Z.ltb_spec v b); cbn [andb]
         end;
    try lia;
    try (eexists; split; [cbn; eauto 10 | lia]).
Qed.

Lemma sorted_strict (l : list (option Z * list User.t)) :
  Sorted (fun a b => bucketIdLe (fst a) (fst b) = true) l ->
  NoDup (map fst l) ->
  StronglySorted (fun a b => bucketIdLt (fst a) (fst b)) l.
Proof.
  intros Hs Hn.
  apply Sorted_StronglySorted in Hs;
    [|intros a b c; apply bucketIdLe_trans].
  induction Hs as [|a r Hr IH Ha]; [constructor|].
  cbn in Hn. inversion Hn as [|? ? Hnot Hn']; subst.
  constructor; [now apply IH|].
  rewrite Forall_forall in *. intros b Hb.
  apply bucketIdLe_strict; [now apply Ha|].
  intros E. apply Hnot. rewrite E. now apply in_map.
Qed.

End HistogramFacts.

(** ** The authenticated route *)

Module RouterFacts.
Import JSDate Mongo JS MongoFacts Spec Auth.

Lemma findByIdAndUpdate_length id f coll :
  List.length (findByIdAndUpdate id f coll) = List.length coll.
Proof.
  induction coll as [|u r IH]; cbn; [reflexivity|].
  destruct (String.eqb (User._id u) id); cbn; [reflexivity | now rewrite IH].
Qed.

(** After the update the user of the token is found again, with one more
    login. *)
Lemma findById_updated id t coll u :
  findById id coll = Some u ->
  findById id (findByIdAndUpdate id (touch t) coll) = Some (touch t u).
Proof.
  unfold findById. induction coll as [|v r IH]; cbn; [discriminate|].
  destruct (String.eqb (User._id v) id) eqn:E.
  - intros [= ->]. cbn. now rewrite E.
  - intros H. cbn. rewrite E. now apply IH.
Qed.

Lemma findById_id id coll u : findById id coll = Some u -> User._id u = id.
Proof.
  unfold findById. intros H. apply find_some in H as [_ H].
  now apply String.eqb_eq.
Qed.

Lemma count_all {A : Type} (coll : list A) :
  countDocuments coll all = Ok (List.length coll).
Proof. cbn. now rewrite filter_true. Qed.

(** The controllers other than the user report read the users collection
    only to count it. *)
Lemma controller_reads r (host : Host) now db coll q :
  r <> users -> List.length coll = List.length (Users db) ->
  controller r host now (withUsers db coll) q = controller r host now db q.
Proof.
  intros Hr Hl. destruct r; try easy; try reflexivity.
  unfold controller, getDashboardOverview, Dashboard.queries.
  change (Users (withUsers db coll)) with coll.
  set (c := countDocuments coll all).
  assert (Ec : c = Ok (List.length coll)) by apply count_all.
  clearbody c. subst c.
  set (c := countDocuments (Users db) all).
  assert (Ec : c = Ok (List.length (Users db))) by apply count_all.
  clearbody c. subst c.
  rewrite Hl. reflexivity.
Qed.

(** What [protect] does to the collections: nothing, or one more login of
    the user of the token. *)
Lemma protect_cases verify now db req :
  (exists answer, protect verify now db req = (db, Some answer))
  \/ (exists tok id user t,
        token req = Some tok /\ String.eqb tok "" = false
        /\ verify tok = Some id /\ findById id (Users db) = Some user
        /\ User.isActive user = true /\ castDate (Date_now now) = Some t
        /\ protect verify now db req
           = (withUsers db (findByIdAndUpdate id (touch t) (Users db)), None)).
Proof.
  unfold protect.
  destruct (token req) as [tok|]; [|left; eauto].
  destruct (String.eqb tok "") eqn:Et; [left; eauto|].
  destruct (verify tok) as [id|] eqn:Ev; [|left; eauto].
  destruct (findById id (Users db)) as [user|] eqn:Ef; [|left; eauto].
  destruct (User.isActive user) eqn:Ea; cbn [negb]; [|left; eauto].
  destruct (castDate (Date_now now)) as [t|] eqn:Ec; [|left; eauto].
  right. exists tok, id, user, t.
  rewrite (findById_id id _ _ Ef). repeat split; try assumption; reflexivity.
Qed.

End RouterFacts.

(** ** Reading the entries of a response *)

Module EntryFacts.
Import Mongo JS Spec.

Lemma Forall2_map {A B : Type} (R : A -> B -> Prop) (f : A -> B) (l : list A) :
  (forall a, In a l -> R a (f a)) -> Forall2 R l (map f l).
Proof.
  induction l as [|a r IH]; intros H; [constructor|].
  cbn [map]. constructor; [apply H; now left|].
  apply IH. intros; apply H; now right.
Qed.

Lemma Forall2_firstn {A B : Type} (R : A -> B -> Prop) (n : nat) (l : list A)
  (l' : list B) :
  Forall2 R l l' -> Forall2 R (firstn n l) (firstn n l').
Proof.
  intros H. revert n. induction H as [|a b l l' Hab _ IH]; intros [|n]; cbn;
    constructor; [exact Hab | apply IH].
Qed.

Lemma Forall2_In_r {A B : Type} (R : A -> B -> Prop) (l : list A) (l' : list B) b :
  Forall2 R l l' -> In b l' -> exists a, In a l /\ R a b.
Proof.
  induction 1 as [|a b' l l' Hab _ IH]; intros Hin; [destruct Hin|].
  destruct Hin as [<- | Hin].
  - exists a. split; [now left | exact Hab].
  - destruct (IH Hin) as (a' & Ha' & HR). exists a'. split; [now right | exact HR].
Qed.

Lemma Forall2_In_l {A B : Type} (R : A -> B -> Prop) (l : list A) (l' : list B) a :
  Forall2 R l l' -> In a l -> exists b, In b l' /\ R a b.
Proof.
  induction 1 as [|a' b l l' Hab _ IH]; intros Hin; [destruct Hin|].
  destruct Hin as [<- | Hin].
  - exists b. split; [now left | exact Hab].
  - destruct (IH Hin) as (b' & Hb' & HR). exists b'. split; [now right | exact HR].
Qed.

Lemma JInt_inj a b : JInt a = JInt b -> a = b.
Proof. unfold JInt, inject_Z. now intros [= ->]. Qed.

Lemma JNat_inj a b : JNat a = JNat b -> a = b.
Proof. unfold JNat. intros H. apply JInt_inj in H. lia. Qed.

Lemma Some_JInt_inj a b : Some (JInt a) = Some (JInt b) -> a = b.
Proof. intros H. apply JInt_inj. congruence. Qed.

(** The fields of a document of the detailed low-stock list and of the
    detailed out-of-stock list. *)
Lemma selectLowStock_fields p :
  fieldsOf (ProductReport.selectLowStock p)
    [("_id", JStr (Product._id p)); ("name", JStr (Product.name p));
     ("sku", JStr (Product.sku p)); ("stock", JInt (Product.stock p));
     ("minStock", JInt (Product.minStock p));
     ("category", JStr (Product.category p));
     ("price", JInt (Product.price p))].
Proof. repeat constructor. Qed.

Lemma selectOutOfStock_fields p :
  fieldsOf (ProductReport.selectOutOfStock p)
    [("_id", JStr (Product._id p)); ("name", JStr (Product.name p));
     ("sku", JStr (Product.sku p)); ("stock", JInt (Product.stock p));
     ("category", JStr (Product.category p));
     ("price", JInt (Product.price p));
     ("updatedAt", JDate (Product.updatedAt p))].
Proof. repeat constructor. Qed.

End EntryFacts.

(** * The claims *)

Import JSDate JSDateFacts JSString JSDateString Mongo JS MongoFacts ClockFacts.
Import Spec ParseFacts Auth RouterFacts EntryFacts.

(** C1. In the product report, for every state of the collection, the
    low-stock count of the overview is the number of active products with
    [stock <= minStock]; the out-of-stock count is the number of active
    products with [stock = 0], which are among the former when no minimum
    stock is negative; the entries of the detailed low-stock list are the
    active products with [0 < stock <= minStock], one entry for each with
    its [_id], name, SKU, stock, minimum stock, category and price; the
    entries of the detailed out-of-stock list are the active products with
    [stock = 0], one entry for each; the stock that an entry of the first
    list shows is positive and the stock that an entry of the second shows
    is 0, so that no entry and no product is in both lists. *)
Theorem product_stock_counts_and_lists (host : Host) now db query s :
  startDate host now query = Some s ->
  let report := body (getProductReports host now db query) in
  let low p := Product.isActive p && (Product.stock p <=? Product.minStock p) in
  let out p := Product.isActive p && (Product.stock p =? 0) in
  let lowInStock p :=
    Product.isActive p && (0 <? Product.stock p)
    && (Product.stock p <=? Product.minStock p) in
  jpath ["data"; "overview"; "lowStockProducts"] report
  = Some (JNat (List.length (filter low (Products db))))
  /\ jpath ["data"; "overview"; "outOfStockProducts"] report
     = Some (JNat (List.length (filter out (Products db))))
  /\ ((forall p, In p (Products db) -> 0 <= Product.minStock p) ->
      incl (filter out (Products db)) (filter low (Products db)))
  /\ exists lowList outList lowEntries outEntries,
       jpath ["data"; "lowStockProducts"] report = Some (JArr lowEntries)
       /\ jpath ["data"; "outOfStockProducts"] report = Some (JArr outEntries)
       /\ Permutation lowList (filter lowInStock (Products db))
       /\ Permutation outList (filter out (Products db))
       /\ Forall2
            (fun p entry =>
               fieldsOf entry
                 [("_id", JStr (Product._id p)); ("name", JStr (Product.name p));
                  ("sku", JStr (Product.sku p)); ("stock", JInt (Product.stock p));
                  ("minStock", JInt (Product.minStock p));
                  ("category", JStr (Product.category p));
                  ("price", JInt (Product.price p))])
            lowList lowEntries
       /\ Forall2
            (fun p entry =>
               fieldsOf entry
                 [("_id", JStr (Product._id p)); ("name", JStr (Product.name p));
                  ("sku", JStr (Product.sku p)); ("stock", JInt (Product.stock p));
                  ("category", JStr (Product.category p));
                  ("price", JInt (Product.price p));
                  ("updatedAt", JDate (Product.updatedAt p))])
            outList outEntries
       /\ (forall entry, In entry lowEntries ->
             exists stock, jfield "stock" entry = Some (JInt stock) /\ 0 < stock)
       /\ (forall entry, In entry outEntries ->
             jfield "stock" entry = Some (JInt 0))
       /\ (forall entry, In entry lowEntries -> ~ In entry outEntries)
       /\ (forall p, In p lowList -> ~ In p outList).
Proof.
  intros Hs report low out lowInStock.
  destruct (ProductFacts.product_queries_ok host now db query s Hs)
    as (l & Hq & Hlow & Hout & _ & _ & _ & _ & Hll & Hol).
  assert (Hr : report = ProductReport.response l).
  { unfold report, getProductReports. now rewrite Hq. }
  assert (Elow : forall p, lowStock p && Product.isActive p = low p)
    by (intros; apply andb_comm).
  assert (Eout : forall p, (Product.stock p =? 0) && Product.isActive p = out p)
    by (intros; apply andb_comm).
  assert (Elis : forall p, lowStock p && (0 <? Product.stock p) && Product.isActive p
                           = lowInStock p).
  { intros p. unfold lowInStock, lowStock.
    destruct (Product.isActive p), (0 <? Product.stock p),
      (Product.stock p <=? Product.minStock p); reflexivity. }
  rewrite (filter_ext _ _ Elow) in Hlow.
  rewrite (filter_ext _ _ Eout) in Hout, Hol.
  rewrite (filter_ext _ _ Elis) in Hll.
  set (lowList := ascending Product.stock (filter lowInStock (Products db))) in *.
  set (outList := descending Product.updatedAt (filter out (Products db))) in *.
  assert (Plow : Permutation lowList (filter lowInStock (Products db)))
    by apply sortBy_perm.
  assert (Pout : Permutation outList (filter out (Products db)))
    by apply sortBy_perm.
  assert (Slow : forall p, In p lowList -> 0 < Product.stock p).
  { intros p Hp. apply (Permutation_in _ Plow) in Hp.
    apply filter_In in Hp as [_ Hp]. unfold lowInStock in Hp.
    apply andb_prop in Hp as [Hp _]. apply andb_prop in Hp as [_ Hp].
    now apply Z.ltb_lt. }
  assert (Sout : forall p, In p outList -> Product.stock p = 0).
  { intros p Hp. apply (Permutation_in _ Pout) in Hp.
    apply filter_In in Hp as [_ Hp]. unfold out in Hp.
    apply andb_prop in Hp as [_ Hp]. now apply Z.eqb_eq. }
  assert (Flow : forall entry, In entry (map ProductReport.selectLowStock lowList) ->
                 exists stock, jfield "stock" entry = Some (JInt stock) /\ 0 < stock).
  { intros entry He. apply in_map_iff in He as (p & <- & Hp).
    exists (Product.stock p). split; [reflexivity | now apply Slow]. }
  assert (Fout : forall entry, In entry (map ProductReport.selectOutOfStock outList) ->
                 jfield "stock" entry = Some (JInt 0)).
  { intros entry He. apply in_map_iff in He as (p & <- & Hp).
    cbn. now rewrite (Sout p Hp). }
  rewrite Hr. split; [|split; [|split]].
  - cbn. now rewrite Hlow.
  - cbn. now rewrite Hout.
  - intros Hmin p Hp. apply filter_In in Hp as [Hin Hp]. apply filter_In.
    split; [exact Hin|]. unfold out in Hp. unfold low.
    apply andb_prop in Hp as [-> H0]. apply Z.eqb_eq in H0.
    specialize (Hmin p Hin). cbn. apply Z.leb_le. lia.
  - exists lowList, outList, (map ProductReport.selectLowStock lowList),
      (map ProductReport.selectOutOfStock outList).
    split; [cbn; now rewrite Hll|]. split; [cbn; now rewrite Hol|].
    split; [exact Plow|]. split; [exact Pout|].
    split; [apply Forall2_map; intros; apply selectLowStock_fields|].
    split; [apply Forall2_map; intros; apply selectOutOfStock_fields|].
    split; [exact Flow|]. split; [exact Fout|]. split.
    + intros entry H1 H2. destruct (Flow entry H1) as (stock & E1 & Hpos).
      rewrite (Fout entry H2) in E1. injection E1 as E1. lia.
    + intros p H1 H2. pose proof (Slow p H1). pose proof (Sout p H2). lia.
Qed.

(** The theorem at the three sample products: the one with 5 in stock for a
    minimum of 10 is the entry of the low-stock list, the one with none in
    stock the entry of the out-of-stock list. *)
Lemma product_stock_counts_and_lists_witness :
  let report :=
    body (getProductReports Sample.utc Sample.noon_10_march Sample.stockroom
            Sample.noQuery) in
  startDate Sample.utc Sample.noon_10_march Sample.noQuery = Some 1707480000000
  /\ (forall p, In p (Products Sample.stockroom) -> 0 <= Product.minStock p)
  /\ jpath ["data"; "overview"; "lowStockProducts"] report = Some (JNat 2)
  /\ jpath ["data"; "overview"; "outOfStockProducts"] report = Some (JNat 1)
  /\ incl [Sample.product "p2" 0 2 0]
          [Sample.product "p1" 5 10 0; Sample.product "p2" 0 2 0]
  /\ exists lowEntries outEntries,
       jpath ["data"; "lowStockProducts"] report = Some (JArr lowEntries)
       /\ jpath ["data"; "outOfStockProducts"] report = Some (JArr outEntries)
       /\ map (fun entry => (jfield "_id" entry, jfield "stock" entry)) lowEntries
          = [(Some (JStr "p1"), Some (JInt 5))]
       /\ map (fun entry => (jfield "_id" entry, jfield "stock" entry)) outEntries
          = [(Some (JStr "p2"), Some (JInt 0))]
       /\ (forall entry, In entry lowEntries -> ~ In entry outEntries).
Proof.
  cbv zeta.
  assert (H : startDate Sample.utc Sample.noon_10_march Sample.noQuery
              = Some 1707480000000) by (vm_compute; reflexivity).
  assert (Hmin : forall p, In p (Products Sample.stockroom) ->
                           0 <= Product.minStock p).
  { intros p [<- | [<- | [<- | []]]]; cbn; lia. }
  split; [exact H|]. split; [exact Hmin|].
  destruct (product_stock_counts_and_lists Sample.utc Sample.noon_10_march
              Sample.stockroom Sample.noQuery _ H)
    as (H1 & H2 & H3 & lowList & outList & lowEntries & outEntries
        & H4 & H5 & _ & _ & _ & _ & _ & _ & H6 & _).
  split; [exact H1|]. split; [exact H2|]. split; [exact (H3 Hmin)|].
  exists lowEntries, outEntries.
  split; [exact H4|]. split; [exact H5|].
  assert (E4 : jpath ["data"; "lowStockProducts"]
                 (body (getProductReports Sample.utc Sample.noon_10_march
                          Sample.stockroom Sample.noQuery))
               = Some (JArr [ProductReport.selectLowStock
                               (Sample.product "p1" 5 10 0)]))
    by (vm_compute; reflexivity).
  assert (E5 : jpath ["data"; "outOfStockProducts"]
                 (body (getProductReports Sample.utc Sample.noon_10_march
                          Sample.stockroom Sample.noQuery))
               = Some (JArr [ProductReport.selectOutOfStock
                               (Sample.product "p2" 0 2 0)]))
    by (vm_compute; reflexivity).
  rewrite H4 in E4. rewrite H5 in E5.
  injection E4 as E4. injection E5 as E5. subst lowEntries outEntries.
  split; [reflexivity|]. split; [reflexivity | exact H6].
Defined.

(** C2, at a failing input.  At noon on 31 March 2024, in UTC, with one
    completed quotation of 100 created at that very time, the monthly trend
    of the quotation report has six points, but their months are 2023-10,
    2023-12, 2023-12, 2024-01, 2024-03 and 2024-03: November and February are
    missing and two months come twice, because [setMonth] on the 31st rolls
    over into the next month.  And the quotation is counted in no point,
    because the end of the month is taken at 00:00 of its last day.  The
    reservation report has the same months. *)
Theorem monthly_trend_at_month_end :
  let now := Sample.noon_31_march in
  let quotations := body (getQuotationReports Sample.utc now Sample.monthEnd Sample.noQuery) in
  let reservations := body (getReservationReports Sample.utc now Sample.monthEnd Sample.noQuery) in
  map (fun q => isoString (Quotation.createdAt q)) (Quotations Sample.monthEnd)
  = ["2024-03-31T12:00:00.000Z"]
  /\ isoString now = "2024-03-31T12:00:00.000Z"
  /\ jpath ["data"; "monthlyTrends"] quotations
     = Some (JArr
         [JObj [("month", JStr "2023-10"); ("count", JNat 0); ("revenue", JInt 0)];
          JObj [("month", JStr "2023-12"); ("count", JNat 0); ("revenue", JInt 0)];
          JObj [("month", JStr "2023-12"); ("count", JNat 0); ("revenue", JInt 0)];
          JObj [("month", JStr "2024-01"); ("count", JNat 0); ("revenue", JInt 0)];
          JObj [("month", JStr "2024-03"); ("count", JNat 0); ("revenue", JInt 0)];
          JObj [("month", JStr "2024-03"); ("count", JNat 0); ("revenue", JInt 0)]])
  /\ jpath ["data"; "monthlyTrends"] reservations
     = Some (JArr
         [JObj [("month", JStr "2023-10"); ("count", JNat 0)];
          JObj [("month", JStr "2023-12"); ("count", JNat 0)];
          JObj [("month", JStr "2023-12"); ("count", JNat 0)];
          JObj [("month", JStr "2024-01"); ("count", JNat 0)];
          JObj [("month", JStr "2024-03"); ("count", JNat 0)];
          JObj [("month", JStr "2024-03"); ("count", JNat 0)]]).
Proof.
  cbv zeta. repeat split; vm_compute; reflexivity.
Qed.




(** C4, at a failing input.  At noon on 10 March 2024, in UTC, with one
    user created and last logged in at 08:00 of that day, both trends of the
    user report have seven points labelled 2024-03-04 to 2024-03-10, but the
    user is counted in the point of 9 March and the point of 10 March is 0:
    a point counts the 24 hours that start at the time of the clock reading
    on its day, so the last point counts from now on. *)
Theorem daily_trends_at_noon :
  let now := Sample.noon_10_march in
  let report := body (getUserReports Sample.utc now Sample.earlyBird Sample.noQuery) in
  map (fun u => (isoString (User.createdAt u), JOpt JDate (User.lastLogin u)))
      (Users Sample.earlyBird)
  = [("2024-03-10T08:00:00.000Z", JStr "2024-03-10T08:00:00.000Z")]
  /\ isoString now = "2024-03-10T12:00:00.000Z"
  /\ jpath ["data"; "registrationTrends"] report
     = Some (JArr
         [JObj [("date", JStr "2024-03-04"); ("count", JNat 0)];
          JObj [("date", JStr "2024-03-05"); ("count", JNat 0)];
          JObj [("date", JStr "2024-03-06"); ("count", JNat 0)];
          JObj [("date", JStr "2024-03-07"); ("count", JNat 0)];
          JObj [("date", JStr "2024-03-08"); ("count", JNat 0)];
          JObj [("date", JStr "2024-03-09"); ("count", JNat 1)];
          JObj [("date", JStr "2024-03-10"); ("count", JNat 0)]])
  /\ jpath ["data"; "activityTrends"] report
     = Some (JArr
         [JObj [("date", JStr "2024-03-04"); ("activeUsers", JNat 0)];
          JObj [("date", JStr "2024-03-05"); ("activeUsers", JNat 0)];
          JObj [("date", JStr "2024-03-06"); ("activeUsers", JNat 0)];
          JObj [("date", JStr "2024-03-07"); ("activeUsers", JNat 0)];
          JObj [("date", JStr "2024-03-08"); ("activeUsers", JNat 0)];
          JObj [("date", JStr "2024-03-09"); ("activeUsers", JNat 1)];
          JObj [("date", JStr "2024-03-10"); ("activeUsers", JNat 0)]]).
Proof.
  cbv zeta. repeat split; vm_compute; reflexivity.
Qed.

(** C5. In the user report every user is counted in exactly one entry of
    [loginDistribution]: the entry of the interval [0,1), [1,5), [5,10),
    [10,20), [20,50) or [50,100) that holds the login count, whose [_id] is
    the lower bound of the interval, and the entry with the [_id] "100+" for
    a count in none of them.  The [count] of an entry is the number of its
    users, and is not 0; so the counts of the entries add up to
    [totalUsers]; and the entries come in ascending order of their [_id],
    the entry "100+" last. *)
Theorem login_histogram_partitions_users (host : Host) now db query s :
  clockOk host now -> startDate host now query = Some s ->
  let report := body (getUserReports host now db query) in
  exists histogram entries,
    jpath ["data"; "loginDistribution"] report = Some (JArr entries)
    /\ Forall2
         (fun bucket entry =>
            fieldsOf entry
              [("_id", match fst bucket with
                       | Some lo => JInt lo
                       | None => JStr "100+"
                       end);
               ("count", JNat (List.length (snd bucket)))])
         histogram entries
    /\ jpath ["data"; "overview"; "totalUsers"] report
       = Some (JNat (fold_right Nat.add 0%nat
                       (map (fun bucket => List.length (snd bucket)) histogram)))
    /\ fold_right Nat.add 0%nat
         (map (fun bucket => List.length (snd bucket)) histogram)
       = List.length (Users db)
    /\ Permutation (List.concat (map snd histogram)) (Users db)
    /\ NoDup (map fst histogram)
    /\ (forall bucket u, In bucket histogram -> In u (snd bucket) ->
        match fst bucket with
        | Some lo => exists hi, In (lo, hi) intervals /\ lo <= User.loginCount u < hi
        | None => User.loginCount u < 0 \/ 100 <= User.loginCount u
        end)
    /\ (forall bucket, In bucket histogram -> snd bucket <> [])
    /\ StronglySorted (fun a b => bucketIdLt (fst a) (fst b)) histogram.
Proof.
  intros Hc Hs report.
  set (histogram := UserReport.sortedBuckets (Users db)).
  destruct (UserFacts.user_queries_ok host now db query s Hc Hs)
    as (l & Hq & Htot & _ & _ & _ & _ & Hlog & _).
  assert (Hr : report = UserReport.response l).
  { unfold report, getUserReports. now rewrite Hq. }
  destruct (group_partition UserReport.bucketIdEqb
              (fun u => bucketOf UserReport.boundaries (User.loginCount u))
              HistogramFacts.bucketIdEqb_spec (Users db)) as [[Hnd Hg] Hperm].
  change (group UserReport.bucketIdEqb _ (Users db)) with (UserReport.buckets (Users db)) in *.
  assert (Hsort : Permutation histogram (UserReport.buckets (Users db)))
    by apply sortBy_perm.
  assert (Hcat : Permutation (List.concat (map snd histogram)) (Users db)).
  { rewrite <- Hperm. apply perm_concat, Permutation_map, Hsort. }
  assert (Hnd' : NoDup (map fst histogram)).
  { eapply Permutation_NoDup; [|exact Hnd].
    apply Permutation_map. now symmetry. }
  assert (Hsum : fold_right Nat.add 0%nat
                   (map (fun bucket => List.length (snd bucket)) histogram)
                 = List.length (Users db)).
  { rewrite <- (Permutation_length Hcat), length_concat_sum, map_map. reflexivity. }
  exists histogram, (map UserReport.bucketDoc histogram).
  rewrite Hr. split; [cbn; now rewrite Hlog|].
  split.
  { apply Forall2_map. intros bucket _. unfold UserReport.bucketDoc.
    repeat constructor. }
  split; [cbn; now rewrite Htot, Hsum|]. split; [exact Hsum|].
  split; [exact Hcat|]. split; [exact Hnd'|]. split; [|split].
  - intros b u Hb Hu.
    apply (Permutation_in _ Hsort) in Hb. destruct (Hg b Hb) as [_ Hk].
    rewrite <- (Hk u Hu). apply HistogramFacts.bucketOf_boundaries.
  - intros b Hb. apply (Permutation_in _ Hsort) in Hb. now destruct (Hg b Hb).
  - apply HistogramFacts.sorted_strict; [|exact Hnd'].
    apply sortBy_sorted. intros a b. apply HistogramFacts.bucketIdLe_total.
Qed.

(** The theorem at five users with 0, 3, 7, 3 and 150 logins: four entries,
    with the counts 1, 2, 1 and 1. *)
Lemma login_histogram_partitions_users_witness :
  clockOk Sample.utc Sample.noon_10_march
  /\ startDate Sample.utc Sample.noon_10_march Sample.noQuery = Some 1707480000000
  /\ exists (histogram : list (option Z * list User.t)) entries,
       jpath ["data"; "loginDistribution"]
         (body (getUserReports Sample.utc Sample.noon_10_march Sample.members
                  Sample.noQuery))
       = Some (JArr entries)
       /\ map (fun entry => (jfield "_id" entry, jfield "count" entry)) entries
          = [(Some (JInt 0), Some (JNat 1)); (Some (JInt 1), Some (JNat 2));
             (Some (JInt 5), Some (JNat 1)); (Some (JStr "100+"), Some (JNat 1))]
       /\ fold_right Nat.add 0%nat
            (map (fun bucket => List.length (snd bucket)) histogram)
          = List.length (Users Sample.members)
       /\ jpath ["data"; "overview"; "totalUsers"]
            (body (getUserReports Sample.utc Sample.noon_10_march Sample.members
                     Sample.noQuery))
          = Some (JNat 5).
Proof.
  assert (Hc : clockOk Sample.utc Sample.noon_10_march) by sample_clock.
  assert (Hs : startDate Sample.utc Sample.noon_10_march Sample.noQuery
               = Some 1707480000000) by (vm_compute; reflexivity).
  split; [exact Hc|]. split; [exact Hs|].
  destruct (login_histogram_partitions_users Sample.utc Sample.noon_10_march
              Sample.members Sample.noQuery _ Hc Hs)
    as (histogram & entries & H1 & _ & _ & H4 & _).
  exists histogram, entries. split; [exact H1|].
  assert (E : jpath ["data"; "loginDistribution"]
                (body (getUserReports Sample.utc Sample.noon_10_march
                         Sample.members Sample.noQuery))
              = Some (JArr (map UserReport.bucketDoc
                              (UserReport.sortedBuckets (Users Sample.members)))))
    by (vm_compute; reflexivity).
  rewrite H1 in E. injection E as ->.
  split; [vm_compute; reflexivity|]. split; [exact H4|].
  vm_compute. reflexivity.
Defined.

(** C6. In each of the five reports, when an aggregation matches no
    document the field of the response it feeds is the empty object, or the
    empty array for a list, and the request succeeds with the status 200:
    [stockValue] and the lists of the product report when no product is
    active; [supplierProductStats] of the supplier report when no active
    product has a supplier, and when there is no supplier;
    [locationDistribution] when there is no supplier; [revenueStats] when no
    quotation is completed; [responseTimeStats] when no quotation is
    completed or rejected, and when no reservation is confirmed, completed
    or cancelled; the lists of the quotation and the reservation report when
    the collection is empty; [activityStats] and the user lists when there
    is no user. *)
Theorem empty_aggregation_is_empty_object (host : Host) now db query s :
  clockOk host now -> startDate host now query = Some s ->
  let product := getProductReports host now db query in
  let supplier := getSupplierReports host now db query in
  let quotation := getQuotationReports host now db query in
  let reservation := getReservationReports host now db query in
  let user := getUserReports host now db query in
  (status product = 200 /\ status supplier = 200 /\ status quotation = 200
   /\ status reservation = 200 /\ status user = 200)
  /\ (jpath ["success"] (body product) = Some (JBool true)
      /\ jpath ["success"] (body supplier) = Some (JBool true)
      /\ jpath ["success"] (body quotation) = Some (JBool true)
      /\ jpath ["success"] (body reservation) = Some (JBool true)
      /\ jpath ["success"] (body user) = Some (JBool true))
  /\ (filter Product.isActive (Products db) = [] ->
      jpath ["data"; "stockValue"] (body product) = Some emptyObject
      /\ jpath ["data"; "categoryDistribution"] (body product) = Some (JArr [])
      /\ jpath ["data"; "topSuppliers"] (body product) = Some (JArr [])
      /\ jpath ["data"; "lowStockProducts"] (body product) = Some (JArr [])
      /\ jpath ["data"; "outOfStockProducts"] (body product) = Some (JArr []))
  /\ (filter (fun p => Product.isActive p && hasSupplier p) (Products db) = []
      \/ Suppliers db = [] ->
      jpath ["data"; "supplierProductStats"] (body supplier) = Some (JArr []))
  /\ (Suppliers db = [] ->
      jpath ["data"; "locationDistribution"] (body supplier) = Some (JArr []))
  /\ (filter (QuotationReport.hasStatus Quotation.completed) (Quotations db) = [] ->
      jpath ["data"; "revenueStats"] (body quotation) = Some emptyObject)
  /\ (filter (fun q => QuotationReport.hasStatus Quotation.completed q
                       || QuotationReport.hasStatus Quotation.rejected q)
        (Quotations db) = [] ->
      jpath ["data"; "responseTimeStats"] (body quotation) = Some emptyObject)
  /\ (Quotations db = [] ->
      jpath ["data"; "categoryStats"] (body quotation) = Some (JArr []))
  /\ (filter (fun r => ReservationReport.hasStatus Reservation.confirmed r
                       || ReservationReport.hasStatus Reservation.completed r
                       || ReservationReport.hasStatus Reservation.cancelled r)
        (Reservations db) = [] ->
      jpath ["data"; "responseTimeStats"] (body reservation) = Some emptyObject)
  /\ (Reservations db = [] ->
      jpath ["data"; "topCustomers"] (body reservation) = Some (JArr [])
      /\ jpath ["data"; "statusDistribution"] (body reservation) = Some (JArr []))
  /\ (Users db = [] ->
      jpath ["data"; "activityStats"] (body user) = Some emptyObject
      /\ jpath ["data"; "loginDistribution"] (body user) = Some (JArr [])
      /\ jpath ["data"; "topActiveUsers"] (body user) = Some (JArr [])).
Proof.
  intros Hc Hs product supplier quotation reservation user.
  destruct (ProductFacts.product_queries_ok host now db query s Hs)
    as (lp & Hp & _ & _ & _ & Pcat & Pval & Psup & Plow & Pout).
  destruct (SupplierFacts.supplier_lists_ok host now db query s Hc Hs)
    as (ls & Hsq & Sstat & Sloc).
  destruct (QuotationFacts.quotation_queries_ok host now db query s Hc Hs)
    as (lq & Hq & _ & Qrev & Qcat & _ & Qresp).
  destruct (ReservationFacts.reservation_queries_ok host now db query s Hc Hs)
    as (lr & Hr & _ & _ & Rcus & Rsta & Rresp).
  destruct (UserFacts.user_queries_ok host now db query s Hc Hs)
    as (lu & Hu & _ & _ & _ & Utop & Uact & Ulog & _).
  assert (Ep : product = res_json (ProductReport.response lp)).
  { unfold product, getProductReports. now rewrite Hp. }
  assert (Es : supplier = res_json (SupplierReport.response ls)).
  { unfold supplier, getSupplierReports. now rewrite Hsq. }
  assert (Eq : quotation = res_json (QuotationReport.response lq)).
  { unfold quotation, getQuotationReports. now rewrite Hq. }
  assert (Er : reservation = res_json (ReservationReport.response lr)).
  { unfold reservation, getReservationReports. now rewrite Hr. }
  assert (Eu : user = res_json (UserReport.response lu)).
  { unfold user, getUserReports. now rewrite Hu. }
  rewrite Ep, Es, Eq, Er, Eu.
  split; [now repeat split|]. split; [now repeat split|].
  split; [|split; [|split; [|split; [|split; [|split; [|split; [|split]]]]]]].
  - intros He.
    rewrite He in Pcat, Pval.
    rewrite (filter_none Product.isActive _ _
               (fun a H => proj1 (andb_prop _ _ H)) He) in Psup.
    rewrite (filter_none Product.isActive _ _
               (fun a H => proj2 (andb_prop _ _ H)) He) in Plow.
    rewrite (filter_none Product.isActive _ _
               (fun a H => proj2 (andb_prop _ _ H)) He) in Pout.
    cbn. rewrite Pcat, Pval, Psup, Plow, Pout. now repeat split.
  - intros [He | He]; cbn; rewrite Sstat, He.
    + reflexivity.
    + now rewrite SupplierFacts.lookupUnwind_nil.
  - intros He. cbn. now rewrite Sloc, He.
  - intros He. cbn. now rewrite Qrev, He.
  - intros He. cbn. now rewrite Qresp, He.
  - intros He. cbn. now rewrite Qcat, He.
  - intros He. cbn. now rewrite Rresp, He.
  - intros He. cbn. rewrite Rcus, Rsta, He. now split.
  - intros He. cbn. rewrite Uact, Ulog, Utop, He. now repeat split.
Qed.

(** The theorem at a shop whose collections are not empty, with a product
    that is not active, a pending quotation and a pending reservation. *)
Lemma empty_aggregation_is_empty_object_witness :
  clockOk Sample.utc Sample.noon_10_march
  /\ startDate Sample.utc Sample.noon_10_march Sample.noQuery = Some 1707480000000
  /\ jpath ["data"; "overview"; "totalProducts"]
       (body (getProductReports Sample.utc Sample.noon_10_march Sample.dormant
                Sample.noQuery))
     = Some (JNat 1)
  /\ jpath ["data"; "stockValue"]
       (body (getProductReports Sample.utc Sample.noon_10_march Sample.dormant
                Sample.noQuery))
     = Some emptyObject
  /\ jpath ["data"; "outOfStockProducts"]
       (body (getProductReports Sample.utc Sample.noon_10_march Sample.dormant
                Sample.noQuery))
     = Some (JArr [])
  /\ jpath ["data"; "supplierProductStats"]
       (body (getSupplierReports Sample.utc Sample.noon_10_march Sample.dormant
                Sample.noQuery))
     = Some (JArr [])
  /\ jpath ["data"; "revenueStats"]
       (body (getQuotationReports Sample.utc Sample.noon_10_march Sample.dormant
                Sample.noQuery))
     = Some emptyObject
  /\ jpath ["data"; "responseTimeStats"]
       (body (getQuotationReports Sample.utc Sample.noon_10_march Sample.dormant
                Sample.noQuery))
     = Some emptyObject
  /\ jpath ["data"; "responseTimeStats"]
       (body (getReservationReports Sample.utc Sample.noon_10_march Sample.dormant
                Sample.noQuery))
     = Some emptyObject
  /\ jpath ["data"; "activityStats"]
       (body (getUserReports Sample.utc Sample.noon_10_march Sample.empty
                Sample.noQuery))
     = Some emptyObject.
Proof.
  assert (Hc : clockOk Sample.utc Sample.noon_10_march)
    by sample_clock.
  assert (Hs : startDate Sample.utc Sample.noon_10_march Sample.noQuery
               = Some 1707480000000) by (vm_compute; reflexivity).
  split; [exact Hc|]. split; [exact Hs|].
  split; [vm_compute; reflexivity|].
  destruct (empty_aggregation_is_empty_object Sample.utc Sample.noon_10_march
              Sample.dormant Sample.noQuery _ Hc Hs)
    as (_ & _ & H1 & H2 & _ & H4 & H5 & _ & H7 & _).
  destruct (H1 eq_refl) as (Hv & _ & _ & _ & Hout).
  split; [exact Hv|]. split; [exact Hout|].
  split; [exact (H2 (or_introl eq_refl))|].
  split; [exact (H4 eq_refl)|]. split; [exact (H5 eq_refl)|].
  split; [exact (H7 eq_refl)|].
  destruct (empty_aggregation_is_empty_object Sample.utc Sample.noon_10_march
              Sample.empty Sample.noQuery _ Hc Hs)
    as (_ & _ & _ & _ & _ & _ & _ & _ & _ & _ & H10).
  exact (proj1 (H10 eq_refl)).
Defined.

(** C7. For every state of the collections, the [totalRevenue] of the
    dashboard overview and the [revenueStats.totalRevenue] of the quotation
    report are both the sum of [totalAmount] over the completed quotations;
    when there is none the dashboard has 0 and the quotation report the empty
    object. *)
Theorem dashboard_revenue_is_report_revenue (host : Host) now db query query' s :
  clockOk host now -> startDate host now query = Some s ->
  let completed :=
    filter (QuotationReport.hasStatus Quotation.completed) (Quotations db) in
  let revenue := sum (map Quotation.totalAmount completed) in
  let overview := body (getDashboardOverview host now db query') in
  let report := body (getQuotationReports host now db query) in
  jpath ["data"; "overview"; "totalRevenue"] overview = Some (JInt revenue)
  /\ (completed <> [] ->
      jpath ["data"; "revenueStats"; "totalRevenue"] report = Some (JInt revenue))
  /\ (completed = [] ->
      revenue = 0 /\ jpath ["data"; "revenueStats"] report = Some emptyObject).
Proof.
  intros Hc Hs completed revenue overview report.
  destruct (DashboardFacts.dashboard_queries_ok host now db Hc) as (d & Hd & _ & _ & _ & Hrev).
  destruct (QuotationFacts.quotation_queries_ok host now db query s Hc Hs)
    as (l & Hl & _ & Hstats & _).
  assert (Ho : overview = Dashboard.response d).
  { unfold overview, getDashboardOverview. now rewrite Hd. }
  assert (Hr : report = QuotationReport.response l).
  { unfold report, getQuotationReports. now rewrite Hl. }
  rewrite Ho, Hr. fold completed in Hrev, Hstats.
  split; [|split].
  - cbn. unfold Dashboard.totalRevenue. rewrite Hrev.
    unfold revenue. destruct completed as [|q r]; [reflexivity|].
    cbn [groupAll map index0 optField Dashboard.revenueGroup jfield assoc String.eqb
         Ascii.eqb Bool.eqb].
    apply f_equal, DashboardFacts.or_number.
  - intros Hne. cbn. rewrite Hstats.
    destruct completed as [|q r]; [easy | reflexivity].
  - intros He. split.
    + unfold revenue. now rewrite He.
    + cbn. rewrite Hstats, He. reflexivity.
Qed.

Lemma dashboard_revenue_is_report_revenue_witness :
  clockOk Sample.utc Sample.noon_10_march
  /\ startDate Sample.utc Sample.noon_10_march Sample.noQuery = Some 1707480000000
  /\ filter (QuotationReport.hasStatus Quotation.completed)
        (Quotations Sample.ledger) <> []
  /\ jpath ["data"; "overview"; "totalRevenue"]
       (body (getDashboardOverview Sample.utc Sample.noon_10_march Sample.ledger
                Sample.noQuery))
     = Some (JInt 300)
  /\ jpath ["data"; "revenueStats"; "totalRevenue"]
       (body (getQuotationReports Sample.utc Sample.noon_10_march Sample.ledger
                Sample.noQuery))
     = Some (JInt 300).
Proof.
  assert (Hc : clockOk Sample.utc Sample.noon_10_march)
    by sample_clock.
  assert (Hs : startDate Sample.utc Sample.noon_10_march Sample.noQuery
               = Some 1707480000000) by (vm_compute; reflexivity).
  assert (Hne : filter (QuotationReport.hasStatus Quotation.completed)
                  (Quotations Sample.ledger) <> []) by (cbn; discriminate).
  split; [exact Hc|]. split; [exact Hs|]. split; [exact Hne|].
  destruct (dashboard_revenue_is_report_revenue Sample.utc Sample.noon_10_march
              Sample.ledger Sample.noQuery Sample.noQuery _ Hc Hs)
    as (H1 & H2 & _).
  split; [exact H1 | exact (H2 Hne)].
Defined.

(** C8 fails on the code.  Two requests for the user report in succession,
    with the same token and the clock held fixed, give different results:
    [protect] adds a login to the user of the token before each of them, so
    [totalLogins] is 4 in the first response and 5 in the second. *)
Lemma user_report_twice_counterexample :
  jpath ["data"; "activityStats"; "totalLogins"]
    (body (snd (reportRouter Sample.verify Sample.utc Sample.noon_10_march
                  Sample.noon_10_march Sample.earlyBird (Sample.get users))))
  = Some (JInt 4)
  /\ jpath ["data"; "activityStats"; "totalLogins"]
       (body (snd (reportRouter Sample.verify Sample.utc Sample.noon_10_march
                     Sample.noon_10_march
                     (fst (reportRouter Sample.verify Sample.utc
                             Sample.noon_10_march Sample.noon_10_march
                             Sample.earlyBird (Sample.get users)))
                     (Sample.get users))))
     = Some (JInt 5)
  /\ snd (reportRouter Sample.verify Sample.utc Sample.noon_10_march
            Sample.noon_10_march Sample.earlyBird (Sample.get users))
     <> snd (reportRouter Sample.verify Sample.utc Sample.noon_10_march
               Sample.noon_10_march
               (fst (reportRouter Sample.verify Sample.utc Sample.noon_10_march
                       Sample.noon_10_march Sample.earlyBird (Sample.get users)))
               (Sample.get users)).
Proof.
  split; [vm_compute; reflexivity|]. split; [vm_compute; reflexivity|].
  intros E.
  assert (H : jpath ["data"; "activityStats"; "totalLogins"]
                (body (snd (reportRouter Sample.verify Sample.utc
                              Sample.noon_10_march Sample.noon_10_march
                              Sample.earlyBird (Sample.get users))))
              = Some (JInt 5)).
  { rewrite E. vm_compute. reflexivity. }
  vm_compute in H. discriminate H.
Qed.

(** C8, amended.  Every controller is a function of the collections, of the
    clock and of the query, and writes nothing.  Through the authenticated
    route a request writes one thing, the login count and last login of the
    user of the token, in [protect].  So two requests in succession with the
    clock held fixed (whatever [protect] and the controller read on it) give
    identical responses for the dashboard and the
    product, supplier, quotation and reservation reports, which read the
    users collection at most to count it; the user report is not
    repeatable. *)
Theorem reports_repeatable_but_user_report verify (host : Host) now later db req :
  let first := reportRouter verify host now later db req in
  let second := reportRouter verify host now later (fst first) req in
  (Products (fst first) = Products db
   /\ Suppliers (fst first) = Suppliers db
   /\ Quotations (fst first) = Quotations db
   /\ Reservations (fst first) = Reservations db
   /\ List.length (Users (fst first)) = List.length (Users db))
  /\ (route req <> users -> snd second = snd first).
Proof.
  cbv zeta. unfold reportRouter.
  destruct (protect_cases verify now db req)
    as [[answer H] | (tok & id & user & t & Ht & Htok & Hv & Hf & Ha & Hc & H)].
  - rewrite H. cbn [fst snd]. rewrite H. cbn [fst snd]. now repeat split.
  - rewrite H. cbn [fst snd].
    set (coll := findByIdAndUpdate id (touch t) (Users db)).
    assert (Hl : List.length coll = List.length (Users db))
      by apply findByIdAndUpdate_length.
    split; [now repeat split|]. intros Hr.
    assert (H2 : protect verify now (withUsers db coll) req
                 = (withUsers db (findByIdAndUpdate id (touch t) coll), None)).
    { unfold protect. rewrite Ht, Htok, Hv. cbn [Users withUsers].
      unfold coll at 1. rewrite (findById_updated id t _ _ Hf).
      cbn [User.isActive touch]. rewrite Ha. cbn [negb]. rewrite Hc.
      cbn [User._id touch]. rewrite (findById_id id _ _ Hf). reflexivity. }
    rewrite H2. cbn [fst snd].
    rewrite (controller_reads _ host later db _ _ Hr)
      by (now rewrite findByIdAndUpdate_length).
    now rewrite (controller_reads _ host later db coll _ Hr Hl).
Qed.

(** The amended statement at two requests for the dashboard. *)
Lemma reports_repeatable_but_user_report_witness :
  route (Sample.get dashboard) <> users
  /\ snd (reportRouter Sample.verify Sample.utc Sample.noon_10_march
            Sample.noon_10_march
            (fst (reportRouter Sample.verify Sample.utc Sample.noon_10_march
                    Sample.noon_10_march Sample.earlyBird (Sample.get dashboard)))
            (Sample.get dashboard))
     = snd (reportRouter Sample.verify Sample.utc Sample.noon_10_march
              Sample.noon_10_march Sample.earlyBird (Sample.get dashboard)).
Proof.
  assert (H : route (Sample.get dashboard) <> users) by discriminate.
  split; [exact H|].
  exact (proj2 (reports_repeatable_but_user_report Sample.verify Sample.utc
                  Sample.noon_10_march Sample.noon_10_march Sample.earlyBird
                  (Sample.get dashboard)) H).
Defined.

(** C9 fails on the code.  With the period abc the start date is not a
    valid date, the query of [recentSuppliers] is rejected and the handler
    answers 500: the response has no [expiredAgreements], where one supplier
    has an agreement that ended before now. *)
Lemma supplier_agreement_counts_counterexample :
  status (getSupplierReports Sample.utc Sample.noon_10_march Sample.agreements
            {| period := Some "abc" |})
  = 500
  /\ jpath ["success"]
       (body (getSupplierReports Sample.utc Sample.noon_10_march Sample.agreements
                {| period := Some "abc" |}))
     = Some (JBool false)
  /\ jpath ["data"; "overview"; "expiredAgreements"]
       (body (getSupplierReports Sample.utc Sample.noon_10_march Sample.agreements
                {| period := Some "abc" |}))
     = None
  /\ countBefore Supplier.agreementEndDate Sample.noon_10_march
       (Suppliers Sample.agreements)
     = 1%nat
  /\ jpath ["data"; "overview"; "expiredAgreements"]
       (body (getSupplierReports Sample.utc Sample.noon_10_march Sample.agreements
                {| period := Some "abc" |}))
     <> Some (JNat (countBefore Supplier.agreementEndDate Sample.noon_10_march
                      (Suppliers Sample.agreements))).
Proof.
  repeat split; try (vm_compute; reflexivity). vm_compute. discriminate.
Qed.

(** C9, amended.  In the supplier report, for every state of the collection
    and every period with a valid start date, [expiredAgreements] is the
    number of suppliers whose agreement ends strictly before now and
    [expiringSoon] the number of those whose agreement ends in the closed
    interval from now to now + 30 days of 24 hours; neither depends on the
    period.  For a period without a valid start date the handler answers
    500 and the response has neither. *)
Theorem supplier_agreement_counts (host : Host) now db query s :
  clockOk host now -> startDate host now query = Some s ->
  let report q := body (getSupplierReports host now db q) in
  jpath ["data"; "overview"; "expiredAgreements"] (report query)
  = Some (JNat (countBefore Supplier.agreementEndDate now (Suppliers db)))
  /\ jpath ["data"; "overview"; "expiringSoon"] (report query)
     = Some (JNat (countIn Supplier.agreementEndDate now (now + 30 * msPerDay)
                     (Suppliers db)))
  /\ (forall query' s', startDate host now query' = Some s' ->
       jpath ["data"; "overview"; "expiredAgreements"] (report query')
       = jpath ["data"; "overview"; "expiredAgreements"] (report query)
       /\ jpath ["data"; "overview"; "expiringSoon"] (report query')
          = jpath ["data"; "overview"; "expiringSoon"] (report query))
  /\ (forall query', startDate host now query' = None ->
       failed (getSupplierReports host now db query')
       /\ jpath ["data"; "overview"; "expiredAgreements"] (report query') = None
       /\ jpath ["data"; "overview"; "expiringSoon"] (report query') = None).
Proof.
  intros Hc Hs report.
  assert (H : forall q t, startDate host now q = Some t ->
            jpath ["data"; "overview"; "expiredAgreements"] (report q)
            = Some (JNat (countBefore Supplier.agreementEndDate now (Suppliers db)))
            /\ jpath ["data"; "overview"; "expiringSoon"] (report q)
               = Some (JNat (countIn Supplier.agreementEndDate now
                               (now + 30 * msPerDay) (Suppliers db)))).
  { intros q t Ht.
    destruct (SupplierFacts.supplier_queries_ok host now db q t Hc Ht)
      as (l & Hq & He & Hx & _).
    unfold report, getSupplierReports. rewrite Hq. cbn.
    now rewrite He, Hx. }
  destruct (H query s Hs) as [H1 H2].
  split; [exact H1|]. split; [exact H2|]. split.
  - intros query' s' Hs'. destruct (H query' s' Hs') as [H3 H4].
    now rewrite H3, H4, H1, H2.
  - intros query' Hs'.
    destruct (RecentFacts.invalid_start_fails host now db query' Hc Hs')
      as (_ & E & _).
    unfold report. rewrite E. split; [apply RecentFacts.castFailure_failed|].
    split; reflexivity.
Qed.

(** The amended statement at four suppliers whose agreements ended a day
    ago, end now, end in exactly 30 days and end a millisecond later, with
    the periods 7, 30 and abc. *)
Lemma supplier_agreement_counts_witness :
  clockOk Sample.utc Sample.noon_10_march
  /\ startDate Sample.utc Sample.noon_10_march {| period := Some "7" |}
     = Some 1709467200000
  /\ startDate Sample.utc Sample.noon_10_march Sample.noQuery = Some 1707480000000
  /\ jpath ["data"; "overview"; "expiredAgreements"]
       (body (getSupplierReports Sample.utc Sample.noon_10_march Sample.agreements
                {| period := Some "7" |}))
     = Some (JNat 1)
  /\ jpath ["data"; "overview"; "expiringSoon"]
       (body (getSupplierReports Sample.utc Sample.noon_10_march Sample.agreements
                {| period := Some "7" |}))
     = Some (JNat 2)
  /\ jpath ["data"; "overview"; "expiringSoon"]
       (body (getSupplierReports Sample.utc Sample.noon_10_march Sample.agreements
                Sample.noQuery))
     = jpath ["data"; "overview"; "expiringSoon"]
         (body (getSupplierReports Sample.utc Sample.noon_10_march Sample.agreements
                  {| period := Some "7" |}))
  /\ startDate Sample.utc Sample.noon_10_march {| period := Some "abc" |} = None
  /\ failed (getSupplierReports Sample.utc Sample.noon_10_march Sample.agreements
               {| period := Some "abc" |}).
Proof.
  assert (Hc : clockOk Sample.utc Sample.noon_10_march)
    by sample_clock.
  assert (Hs : startDate Sample.utc Sample.noon_10_march {| period := Some "7" |}
               = Some 1709467200000) by (vm_compute; reflexivity).
  assert (Hs' : startDate Sample.utc Sample.noon_10_march Sample.noQuery
                = Some 1707480000000) by (vm_compute; reflexivity).
  assert (Hn : startDate Sample.utc Sample.noon_10_march {| period := Some "abc" |}
               = None) by (vm_compute; reflexivity).
  split; [exact Hc|]. split; [exact Hs|]. split; [exact Hs'|].
  destruct (supplier_agreement_counts Sample.utc Sample.noon_10_march
              Sample.agreements {| period := Some "7" |} _ Hc Hs)
    as (H1 & H2 & H3 & H4).
  split; [exact H1|]. split; [exact H2|].
  split; [exact (proj2 (H3 Sample.noQuery _ Hs'))|].
  split; [exact Hn|]. exact (proj1 (H4 _ Hn)).
Defined.




(** * Further properties *)

(** ** Sums, orders and joins *)

Module ListFacts.
Import Mongo.

Lemma fold_add_shift (l : list Z) (a : Z) :
  fold_left Z.add l a = a + fold_left Z.add l 0.
Proof.
  revert a. induction l as [|x r IH]; intros a; cbn; [lia|].
  rewrite (IH (a + x)), (IH x). lia.
Qed.

Lemma sum_cons x l : sum (x :: l) = x + sum l.
Proof. unfold sum. cbn. apply fold_add_shift. Qed.

Lemma sum_app l l' : sum (l ++ l') = sum l + sum l'.
Proof.
  induction l as [|x r IH]; [reflexivity|].
  cbn [app]. rewrite !sum_cons, IH. lia.
Qed.

Lemma sum_perm l l' : Permutation l l' -> sum l = sum l'.
Proof.
  induction 1; rewrite ?sum_cons; lia.
Qed.

Lemma sum_concat {A : Type} (f : A -> Z) (ls : list (list A)) :
  sum (map (fun l => sum (map f l)) ls) = sum (map f (List.concat ls)).
Proof.
  induction ls as [|l r IH]; [reflexivity|].
  cbn [map List.concat]. now rewrite sum_cons, map_app, sum_app, IH.
Qed.

Lemma sum_const_one {A : Type} (l : list A) :
  sum (map (fun _ => 1) l) = Z.of_nat (List.length l).
Proof.
  induction l as [|x r IH]; [reflexivity|].
  cbn [map List.length]. rewrite sum_cons, IH. lia.
Qed.

(** The sizes of the parts add up to the size of the whole. *)
Lemma sum_sizes {A : Type} (ls : list (list A)) :
  sum (map (fun l => Z.of_nat (List.length l)) ls)
  = Z.of_nat (List.length (List.concat ls)).
Proof.
  rewrite <- sum_const_one, <- sum_concat. f_equal. apply map_ext.
  intros l. symmetry. apply sum_const_one.
Qed.

Lemma sum_bounds (l : list Z) (lo hi : Z) :
  (forall x, In x l -> lo <= x <= hi) ->
  Z.of_nat (List.length l) * lo <= sum l <= Z.of_nat (List.length l) * hi.
Proof.
  induction l as [|x r IH]; intros H; [cbn; lia|].
  rewrite sum_cons. cbn [List.length].
  pose proof (H x (or_introl eq_refl)).
  assert (forall y, In y r -> lo <= y <= hi) by (intros; apply H; now right).
  specialize (IH H1). lia.
Qed.

(** The greatest and the least of a list. *)
Lemma fold_max_spec (l : list Z) (x : Z) :
  (fold_left Z.max l x = x \/ In (fold_left Z.max l x) l)
  /\ x <= fold_left Z.max l x
  /\ forall y, In y l -> y <= fold_left Z.max l x.
Proof.
  revert x. induction l as [|a r IH]; intros x; cbn.
  - repeat split; [now left | lia | easy].
  - destruct (IH (Z.max x a)) as (H1 & H2 & H3). repeat split.
    + destruct H1 as [H1 | H1]; [|right; now right].
      rewrite H1. destruct (Z.max_spec x a) as [[_ ->] | [_ ->]];
        [right; now left | now left].
    + lia.
    + intros y [<- | Hy]; [lia | now apply H3].
Qed.

Lemma fold_min_spec (l : list Z) (x : Z) :
  (fold_left Z.min l x = x \/ In (fold_left Z.min l x) l)
  /\ fold_left Z.min l x <= x
  /\ forall y, In y l -> fold_left Z.min l x <= y.
Proof.
  revert x. induction l as [|a r IH]; intros x; cbn.
  - repeat split; [now left | lia | easy].
  - destruct (IH (Z.min x a)) as (H1 & H2 & H3). repeat split.
    + destruct H1 as [H1 | H1]; [|right; now right].
      rewrite H1. destruct (Z.min_spec x a) as [[_ ->] | [_ ->]];
        [now left | right; now left].
    + lia.
    + intros y [<- | Hy]; [lia | now apply H3].
Qed.

Lemma max_spec (l : list Z) m :
  max l = Some m -> In m l /\ forall y, In y l -> y <= m.
Proof.
  destruct l as [|x r]; [discriminate|]. cbn. intros [= <-].
  destruct (fold_max_spec r x) as (H1 & H2 & H3). split.
  - destruct H1 as [-> | H1]; [now left | now right].
  - intros y [<- | Hy]; [exact H2 | now apply H3].
Qed.

Lemma min_spec (l : list Z) m :
  min l = Some m -> In m l /\ forall y, In y l -> m <= y.
Proof.
  destruct l as [|x r]; [discriminate|]. cbn. intros [= <-].
  destruct (fold_min_spec r x) as (H1 & H2 & H3). split.
  - destruct H1 as [-> | H1]; [now left | now right].
  - intros y [<- | Hy]; [exact H2 | now apply H3].
Qed.

Lemma Sorted_impl {A : Type} (R R' : A -> A -> Prop) (l : list A) :
  (forall a b, R a b -> R' a b) -> Sorted R l -> Sorted R' l.
Proof.
  intros H. induction 1 as [|a r Hs IH Hh]; constructor; [assumption|].
  destruct Hh; constructor. now apply H.
Qed.

Section Orders.
Context {A : Type} (key : A -> Z).

Lemma ascending_sorted l :
  StronglySorted (fun a b => key a <= key b) (ascending key l).
Proof.
  apply Sorted_StronglySorted; [intros a b c; lia|].
  apply Sorted_impl with (R := fun a b => (key a <=? key b) = true).
  - intros a b. apply Z.leb_le.
  - apply MongoFacts.sortBy_sorted. intros a b.
    destruct (Z.leb_spec (key a) (key b)); [now left | right; apply Z.leb_le; lia].
Qed.

Lemma descending_sorted l :
  StronglySorted (fun a b => key b <= key a) (descending key l).
Proof.
  apply Sorted_StronglySorted; [intros a b c; lia|].
  apply Sorted_impl with (R := fun a b => (key b <=? key a) = true).
  - intros a b. apply Z.leb_le.
  - apply MongoFacts.sortBy_sorted. intros a b.
    destruct (Z.leb_spec (key b) (key a)); [now left | right; apply Z.leb_le; lia].
Qed.

Lemma ascending_perm l : Permutation (ascending key l) l.
Proof. apply MongoFacts.sortBy_perm. Qed.

Lemma descending_perm l : Permutation (descending key l) l.
Proof. apply MongoFacts.sortBy_perm. Qed.

End Orders.

Lemma in_firstn {A : Type} (n : nat) (l : list A) (a : A) :
  In a (firstn n l) -> In a l.
Proof.
  intros H. rewrite <- (firstn_skipn n l). apply in_or_app. now left.
Qed.

Lemma in_skipn {A : Type} (n : nat) (l : list A) (a : A) :
  In a (skipn n l) -> In a l.
Proof.
  intros H. rewrite <- (firstn_skipn n l). apply in_or_app. now right.
Qed.

(** The head of a sorted list is sorted, and nothing of the tail comes
    before anything of the head. *)
Lemma sorted_split {A : Type} (R : A -> A -> Prop) (n : nat) (l : list A) :
  StronglySorted R l ->
  StronglySorted R (firstn n l)
  /\ forall a b, In a (firstn n l) -> In b (skipn n l) -> R a b.
Proof.
  intros H. revert n. induction H as [|x r Hr IH Hx]; intros n.
  - rewrite firstn_nil, skipn_nil. split; [constructor | easy].
  - destruct n as [|n]; cbn [firstn skipn].
    + split; [constructor | easy].
    + destruct (IH n) as [H1 H2]. rewrite Forall_forall in Hx. split.
      * constructor; [exact H1|]. apply Forall_forall. intros y Hy.
        apply Hx. now apply in_firstn with (n := n).
      * intros a b [<- | Ha] Hb; [|now apply H2].
        apply Hx. now apply in_skipn with (n := n).
Qed.

Lemma lookupUnwind_In {G F : Type} (from : list F) (foreignId : F -> string)
  (localId : G -> string) (gs : list G) (g : G) (f : F) :
  In (g, f) (lookupUnwind from foreignId localId gs)
  <-> In g gs /\ In f from /\ foreignId f = localId g.
Proof.
  unfold lookupUnwind. rewrite in_flat_map. split.
  - intros (g' & Hg & H). apply in_map_iff in H as (f' & [= <- <-] & Hf).
    apply filter_In in Hf as [Hf He]. apply String.eqb_eq in He. now repeat split.
  - intros (Hg & Hf & He). exists g. split; [exact Hg|].
    apply in_map_iff. exists f. split; [reflexivity|].
    apply filter_In. split; [exact Hf | now apply String.eqb_eq].
Qed.

(** A condition that is one of two exclusive conditions. *)
Lemma filter_split {A : Type} (p q r : A -> bool) (l : list A) :
  (forall a, In a l -> p a = q a || r a) ->
  (forall a, In a l -> q a && r a = false) ->
  List.length (filter p l)
  = (List.length (filter q l) + List.length (filter r l))%nat.
Proof.
  induction l as [|a t IH]; intros H1 H2; [reflexivity|].
  cbn [filter]. rewrite (H1 a (or_introl eq_refl)).
  pose proof (H2 a (or_introl eq_refl)) as E.
  assert (IH' : List.length (filter p t)
                = (List.length (filter q t) + List.length (filter r t))%nat).
  { apply IH; intros; [apply H1 | apply H2]; now right. }
  destruct (q a), (r a); cbn in *; try discriminate; lia.
Qed.

Lemma filter_length_le {A : Type} (p : A -> bool) (l : list A) :
  (List.length (filter p l) <= List.length l)%nat.
Proof.
  induction l as [|a t IH]; cbn; [lia|]. destruct (p a); cbn; lia.
Qed.

Lemma mapM_map {A B : Type} (f : A -> result B) (g : A -> B) (l : list A) :
  (forall a, In a l -> f a = Ok (g a)) -> mapM f l = Ok (map g l).
Proof.
  induction l as [|a r IH]; intros H; [reflexivity|].
  cbn. rewrite (H a (or_introl eq_refl)). cbn.
  rewrite IH by (intros; apply H; now right). reflexivity.
Qed.

End ListFacts.

Import ListFacts.

(** ** The product report in full *)

Module ProductLocals.
Import JSDate Mongo JS MongoFacts ListFacts Spec ProductReport.

(** Every local of the product report, for a valid start date. *)
Lemma product_locals (host : Host) now db query s :
  startDate host now query = Some s ->
  queries host now db query
  = Ok {| totalProducts := List.length (filter (fun _ => true) (Products db));
          activeProducts := List.length (filter Product.isActive (Products db));
          lowStockProducts :=
            List.length (filter (fun p => lowStock p && Product.isActive p)
                           (Products db));
          outOfStockProducts :=
            List.length (filter (fun p => (Product.stock p =? 0) && Product.isActive p)
                           (Products db));
          categoryStats :=
            map categoryGroup
              (descending (fun g => size (snd g))
                 (group String.eqb Product.category
                    (filter Product.isActive (Products db))));
          stockValueStats :=
            map stockValueGroup (groupAll (filter Product.isActive (Products db)));
          recentProducts :=
            List.length
              (filter (fun p => matchesDate [(gte, s)] (Some (Product.createdAt p)))
                 (Products db));
          supplierStats :=
            map supplierGroup
              (limit 10
                 (descending (fun g => size (snd (fst g)))
                    (lookupUnwind (Suppliers db) Supplier._id fst
                       (group String.eqb supplierRef
                          (filter (fun p => Product.isActive p && hasSupplier p)
                             (Products db))))));
          lowStockProductsList :=
            map selectLowStock
              (ascending Product.stock
                 (filter (fun p => lowStock p && (0 <? Product.stock p)
                                   && Product.isActive p) (Products db)));
          outOfStockProductsList :=
            map selectOutOfStock
              (descending Product.updatedAt
                 (filter (fun p => (Product.stock p =? 0) && Product.isActive p)
                    (Products db))) |}.
Proof.
  intros Hs. unfold queries. rewrite Hs. reflexivity.
Qed.

(** The response of the product report, for a valid start date. *)
Lemma product_body (host : Host) now db query s :
  startDate host now query = Some s ->
  exists l,
    queries host now db query = Ok l
    /\ getProductReports host now db query = res_json (response l).
Proof.
  intros Hs. eexists. split; [apply (product_locals host now db query s Hs)|].
  unfold getProductReports. now rewrite (product_locals host now db query s Hs).
Qed.

End ProductLocals.

(** X1. In the product report, when no stock and no minimum stock is
    negative, the low-stock count of the overview is the length of the
    detailed low-stock list plus the length of the detailed out-of-stock
    list, and the out-of-stock count is the length of the latter. *)
Theorem low_stock_count_is_sum_of_lists (host : Host) now db query s :
  startDate host now query = Some s ->
  (forall p, In p (Products db) -> 0 <= Product.stock p /\ 0 <= Product.minStock p) ->
  let report := body (getProductReports host now db query) in
  exists low out,
    jpath ["data"; "lowStockProducts"] report = Some (JArr low)
    /\ jpath ["data"; "outOfStockProducts"] report = Some (JArr out)
    /\ jpath ["data"; "overview"; "lowStockProducts"] report
       = Some (JNat (List.length low + List.length out))
    /\ jpath ["data"; "overview"; "outOfStockProducts"] report
       = Some (JNat (List.length out)).
Proof.
  intros Hs Hinv report. unfold report, getProductReports.
  rewrite (ProductLocals.product_locals host now db query s Hs).
  do 2 eexists. cbn.
  split; [reflexivity|]. split; [reflexivity|].
  rewrite !length_map.
  rewrite (Permutation_length (ascending_perm _ _)),
    (Permutation_length (descending_perm _ _)).
  split; [|reflexivity]. do 3 f_equal.
  apply filter_split.
  - intros p Hp. destruct (Hinv p Hp) as [H0 Hm]. unfold lowStock.
    destruct (Product.isActive p); rewrite ?andb_false_r, ?andb_true_r;
      [|reflexivity].
    destruct (Z.leb_spec (Product.stock p) (Product.minStock p)),
      (Z.ltb_spec 0 (Product.stock p)), (Z.eqb_spec (Product.stock p) 0);
      cbn; try reflexivity; lia.
  - intros p _.
    destruct (Z.ltb_spec 0 (Product.stock p)), (Z.eqb_spec (Product.stock p) 0);
      rewrite ?andb_false_r, ?andb_false_l; cbn; try reflexivity; try lia.
    all: destruct (lowStock p), (Product.isActive p); reflexivity.
Qed.

(** X1 at the three sample products. *)
Lemma low_stock_count_is_sum_of_lists_witness :
  startDate Sample.utc Sample.noon_10_march Sample.noQuery = Some 1707480000000
  /\ (forall p, In p (Products Sample.stockroom) ->
                0 <= Product.stock p /\ 0 <= Product.minStock p)
  /\ exists low out : list json,
       jpath ["data"; "overview"; "lowStockProducts"]
         (body (getProductReports Sample.utc Sample.noon_10_march Sample.stockroom
                  Sample.noQuery))
       = Some (JNat (List.length low + List.length out))
       /\ List.length low = 1%nat /\ List.length out = 1%nat.
Proof.
  assert (H : startDate Sample.utc Sample.noon_10_march Sample.noQuery = Some 1707480000000)
    by (vm_compute; reflexivity).
  assert (Hinv : forall p, In p (Products Sample.stockroom) ->
                           0 <= Product.stock p /\ 0 <= Product.minStock p).
  { intros p [<- | [<- | [<- | []]]]; cbn; lia. }
  split; [exact H|]. split; [exact Hinv|].
  destruct (low_stock_count_is_sum_of_lists Sample.utc Sample.noon_10_march Sample.stockroom
              Sample.noQuery _ H Hinv) as (low & out & H1 & H2 & H3 & _).
  exists low, out. split; [exact H3|].
  vm_compute in H1. vm_compute in H2.
  injection H1 as <-. injection H2 as <-. split; reflexivity.
Defined.

(** X2. In the product report every active product is counted in exactly
    one entry of [categoryDistribution], the entry whose [_id] is its
    category: the categories of the entries are distinct, the [count] of an
    entry is the number of its products and is not 0, the counts add up to
    [activeProducts], and the entries come by descending count. *)
Theorem category_distribution_partitions_active_products (host : Host) now db query s :
  startDate host now query = Some s ->
  let report := body (getProductReports host now db query) in
  let active := filter Product.isActive (Products db) in
  exists groups entries,
    jpath ["data"; "categoryDistribution"] report = Some (JArr entries)
    /\ Forall2
         (fun g entry =>
            fieldsOf entry [("_id", JStr (fst g)); ("count", JInt (size (snd g)))])
         groups entries
    /\ wellGrouped Product.category groups
    /\ Permutation (List.concat (map snd groups)) active
    /\ jpath ["data"; "overview"; "activeProducts"] report
       = Some (JInt (sum (map (fun g => size (snd g)) groups)))
    /\ StronglySorted (fun a b => size (snd b) <= size (snd a)) groups.
Proof.
  intros Hs report active. unfold report, getProductReports.
  rewrite (ProductLocals.product_locals host now db query s Hs).
  fold active.
  set (sorted := descending (fun g => size (snd g))
                   (group String.eqb Product.category active)).
  destruct (group_partition String.eqb Product.category String.eqb_eq active)
    as [[Hnd Hg] Hperm].
  assert (Hsort : Permutation sorted (group String.eqb Product.category active))
    by apply descending_perm.
  assert (Hcat : Permutation (List.concat (map snd sorted)) active).
  { rewrite <- Hperm. apply perm_concat, Permutation_map, Hsort. }
  exists sorted, (map (ProductReport.categoryGroup) sorted).
  split; [reflexivity|].
  split; [apply Forall2_map; intros g _; repeat constructor|].
  split; [|split; [|split]].
  - split.
    + eapply Permutation_NoDup; [|exact Hnd]. apply Permutation_map. now symmetry.
    + intros g Hin. apply Hg. now apply (Permutation_in _ Hsort).
  - exact Hcat.
  - cbn. unfold JNat. do 3 f_equal.
    rewrite <- (Permutation_length Hcat), <- sum_sizes, map_map. reflexivity.
  - apply descending_sorted.
Qed.

(** X3. In the product report the detailed low-stock list has an entry for
    each active product with [0 < stock <= minStock], with its [_id], name,
    sku, stock, minimum stock, category and price, by ascending stock; and
    the detailed out-of-stock list an entry for each active product with
    [stock = 0], with its [_id], name, sku, stock, category, price and time of
    last update, by descending time of last update. *)
Theorem detailed_stock_lists_are_sorted (host : Host) now db query s :
  startDate host now query = Some s ->
  let report := body (getProductReports host now db query) in
  exists low out lowEntries outEntries,
    jpath ["data"; "lowStockProducts"] report = Some (JArr lowEntries)
    /\ Forall2
         (fun p entry =>
            fieldsOf entry
              [("_id", JStr (Product._id p)); ("name", JStr (Product.name p));
               ("sku", JStr (Product.sku p)); ("stock", JInt (Product.stock p));
               ("minStock", JInt (Product.minStock p));
               ("category", JStr (Product.category p));
               ("price", JInt (Product.price p))])
         low lowEntries
    /\ Permutation low
         (filter (fun p => lowStock p && (0 <? Product.stock p) && Product.isActive p)
            (Products db))
    /\ StronglySorted (fun a b => Product.stock a <= Product.stock b) low
    /\ jpath ["data"; "outOfStockProducts"] report = Some (JArr outEntries)
    /\ Forall2
         (fun p entry =>
            fieldsOf entry
              [("_id", JStr (Product._id p)); ("name", JStr (Product.name p));
               ("sku", JStr (Product.sku p)); ("stock", JInt (Product.stock p));
               ("category", JStr (Product.category p));
               ("price", JInt (Product.price p));
               ("updatedAt", JDate (Product.updatedAt p))])
         out outEntries
    /\ Permutation out
         (filter (fun p => (Product.stock p =? 0) && Product.isActive p) (Products db))
    /\ StronglySorted (fun a b => Product.updatedAt b <= Product.updatedAt a) out.
Proof.
  intros Hs report. unfold report, getProductReports.
  rewrite (ProductLocals.product_locals host now db query s Hs).
  do 4 eexists. split; [reflexivity|].
  split; [apply Forall2_map; intros p _; apply selectLowStock_fields|].
  split; [apply ascending_perm|]. split; [apply ascending_sorted|].
  split; [reflexivity|].
  split; [apply Forall2_map; intros p _; apply selectOutOfStock_fields|].
  split; [apply descending_perm | apply descending_sorted].
Qed.

(** X4. In the product report [topSuppliers] has at most ten entries, by
    descending [productCount]; the [supplierInfo] of an entry is a document
    of the supplier collection whose [_id] is the [_id] of the entry; and
    the products that [productCount] counts are active products that refer
    to that supplier, at least one. *)
Theorem top_suppliers_are_joined_and_limited (host : Host) now db query s :
  startDate host now query = Some s ->
  let report := body (getProductReports host now db query) in
  exists rows entries,
    jpath ["data"; "topSuppliers"] report = Some (JArr entries)
    /\ Forall2
         (fun row entry =>
            fieldsOf entry
              [("_id", JStr (fst (fst row)));
               ("productCount", JInt (size (snd (fst row))))]
            /\ jpath ["supplierInfo"; "_id"] entry
               = Some (JStr (Supplier._id (snd row)))
            /\ jpath ["supplierInfo"; "name"] entry
               = Some (JStr (Supplier.name (snd row)))
            /\ jpath ["supplierInfo"; "location"] entry
               = Some (JStr (Supplier.location (snd row))))
         rows entries
    /\ (List.length entries <= 10)%nat
    /\ StronglySorted
         (fun a b => size (snd (fst b)) <= size (snd (fst a))) rows
    /\ forall row, In row rows ->
         In (snd row) (Suppliers db)
         /\ Supplier._id (snd row) = fst (fst row)
         /\ 0 < size (snd (fst row))
         /\ forall p, In p (snd (fst row)) ->
              In p (Products db) /\ Product.isActive p = true
              /\ Product.supplier p = Some (fst (fst row)).
Proof.
  intros Hs report. unfold report, getProductReports.
  rewrite (ProductLocals.product_locals host now db query s Hs).
  set (docs := filter (fun p => Product.isActive p && hasSupplier p) (Products db)).
  set (joined := lookupUnwind (Suppliers db) Supplier._id fst
                   (group String.eqb supplierRef docs)).
  set (sorted := descending (fun g => size (snd (fst g))) joined).
  exists (limit 10 sorted), (map ProductReport.supplierGroup (limit 10 sorted)).
  split; [reflexivity|].
  split; [apply Forall2_map; intros row _; repeat split; repeat constructor|].
  split; [rewrite length_map; apply firstn_le_length|].
  split; [apply (sorted_split _ 10 sorted), descending_sorted|].
  intros [[k ps] sup] Hin. cbn [fst snd].
  apply in_firstn in Hin.
  apply (Permutation_in _ (descending_perm _ joined)) in Hin.
  apply lookupUnwind_In in Hin as (Hg & Hsup & Hid). cbn [fst] in Hid.
  destruct (group_partition String.eqb supplierRef String.eqb_eq docs)
    as [[_ Hgs] Hperm].
  destruct (Hgs _ Hg) as [Hne Hkey]. cbn [fst snd] in Hne, Hkey.
  assert (Hdocs : forall p, In p ps -> In p docs).
  { intros p H. apply (Permutation_in _ Hperm). apply in_concat.
    exists ps. split; [|exact H]. apply in_map_iff. now exists (k, ps). }
  split; [exact Hsup|]. split; [exact Hid|].
  split; [unfold size; destruct ps; [easy | cbn; lia]|].
  intros p H. pose proof (Hdocs p H) as Hp.
  apply filter_In in Hp as [Hin Hp]. apply andb_prop in Hp as [Ha Hp].
  repeat split; try assumption.
  specialize (Hkey p H). unfold supplierRef, hasSupplier in *.
  destruct (Product.supplier p); [now subst | discriminate].
Qed.

(** X2 at the shop: the categories tools and paint, with two active
    products each. *)
Lemma category_distribution_partitions_active_products_witness :
  startDate Sample.utc Shop.clock Sample.noQuery = Some 1707480000000
  /\ exists entries,
       jpath ["data"; "categoryDistribution"]
         (body (getProductReports Sample.utc Shop.clock Shop.db Sample.noQuery))
       = Some (JArr entries)
       /\ map (jfield "count") entries = [Some (JInt 2); Some (JInt 2)]
       /\ In (Some (JStr "tools")) (map (jfield "_id") entries)
       /\ In (Some (JStr "paint")) (map (jfield "_id") entries)
       /\ jpath ["data"; "overview"; "activeProducts"]
            (body (getProductReports Sample.utc Shop.clock Shop.db Sample.noQuery))
          = Some (JInt 4).
Proof.
  assert (H : startDate Sample.utc Shop.clock Sample.noQuery = Some 1707480000000)
    by (vm_compute; reflexivity).
  split; [exact H|].
  destruct (category_distribution_partitions_active_products Sample.utc Shop.clock Shop.db
              Sample.noQuery _ H) as (groups & entries & H1 & _).
  exists entries. split; [exact H1|].
  vm_compute in H1. injection H1 as <-.
  split; [vm_compute; reflexivity|].
  split; [vm_compute; tauto|]. split; [vm_compute; tauto|].
  vm_compute. reflexivity.
Defined.

(** X3 at the shop: [p1] is low on stock, [p4] and [p2] are out of stock,
    the one updated last first. *)
Lemma detailed_stock_lists_are_sorted_witness :
  startDate Sample.utc Shop.clock Sample.noQuery = Some 1707480000000
  /\ exists lowEntries outEntries,
       jpath ["data"; "lowStockProducts"]
         (body (getProductReports Sample.utc Shop.clock Shop.db Sample.noQuery))
       = Some (JArr lowEntries)
       /\ jpath ["data"; "outOfStockProducts"]
            (body (getProductReports Sample.utc Shop.clock Shop.db Sample.noQuery))
          = Some (JArr outEntries)
       /\ map (fun entry => (jfield "_id" entry, jfield "stock" entry)) lowEntries
          = [(Some (JStr "p1"), Some (JInt 5))]
       /\ map (fun entry => (jfield "_id" entry, jfield "stock" entry)) outEntries
          = [(Some (JStr "p4"), Some (JInt 0)); (Some (JStr "p2"), Some (JInt 0))].
Proof.
  assert (H : startDate Sample.utc Shop.clock Sample.noQuery = Some 1707480000000)
    by (vm_compute; reflexivity).
  split; [exact H|].
  destruct (detailed_stock_lists_are_sorted Sample.utc Shop.clock Shop.db Sample.noQuery _ H)
    as (low & out & lowEntries & outEntries & H1 & _ & _ & _ & H5 & _).
  exists lowEntries, outEntries. split; [exact H1|]. split; [exact H5|].
  vm_compute in H1. injection H1 as <-.
  vm_compute in H5. injection H5 as <-.
  split; vm_compute; reflexivity.
Defined.

(** X4 at the shop: the entry of [s1] with two products and that of [s2]
    with one; the product without supplier and the product that is not
    active are in none. *)
Lemma top_suppliers_are_joined_and_limited_witness :
  startDate Sample.utc Shop.clock Sample.noQuery = Some 1707480000000
  /\ exists entries,
       jpath ["data"; "topSuppliers"]
         (body (getProductReports Sample.utc Shop.clock Shop.db Sample.noQuery))
       = Some (JArr entries)
       /\ (List.length entries <= 10)%nat
       /\ map (fun entry => (jfield "productCount" entry,
                             jpath ["supplierInfo"; "_id"] entry)) entries
          = [(Some (JInt 2), Some (JStr "s1")); (Some (JInt 1), Some (JStr "s2"))].
Proof.
  assert (H : startDate Sample.utc Shop.clock Sample.noQuery = Some 1707480000000)
    by (vm_compute; reflexivity).
  split; [exact H|].
  destruct (top_suppliers_are_joined_and_limited Sample.utc Shop.clock Shop.db
              Sample.noQuery _ H) as (rows & entries & H1 & _ & H2 & _).
  exists entries. split; [exact H1|]. split; [exact H2|].
  vm_compute in H1. injection H1 as <-.
  vm_compute. reflexivity.
Defined.

(** ** The other reports in full *)

Module ReportLocals.
Import JSDate JSDateFacts JSString JSDateString Mongo JS MongoFacts ListFacts.
Import ClockFacts Spec Terms.

Lemma count_window {A : Type} (path : A -> option Z) (lo hi : Z) (coll : list A) :
  List.length (filter (fun a => matchesDate [(gte, lo); (lt, hi)] (path a)) coll)
  = countWindow path lo hi coll.
Proof.
  unfold countWindow. f_equal. apply filter_ext. intros a.
  destruct (path a) as [t|]; cbn; [|reflexivity]. now rewrite andb_true_r.
Qed.

Lemma count_since {A : Type} (path : A -> option Z) (lo : Z) (coll : list A) :
  List.length (filter (fun a => matchesDate [(gte, lo)] (path a)) coll)
  = countSince path lo coll.
Proof.
  unfold countSince. f_equal. apply filter_ext. intros a.
  destruct (path a) as [t|]; cbn; [|reflexivity]. now rewrite andb_true_r.
Qed.

(** Two windows that meet make one window. *)
Lemma countWindow_join {A : Type} (path : A -> option Z) (a b c : Z) (coll : list A) :
  a <= b <= c ->
  (countWindow path a b coll + countWindow path b c coll)%nat
  = countWindow path a c coll.
Proof.
  intros H. unfold countWindow. symmetry. apply filter_split.
  - intros x _. destruct (path x) as [t|]; [|reflexivity].
    destruct (Z.leb_spec a t), (Z.ltb_spec t b), (Z.leb_spec b t), (Z.ltb_spec t c);
      cbn; try reflexivity; lia.
  - intros x _. destruct (path x) as [t|]; [|reflexivity].
    destruct (Z.leb_spec a t), (Z.ltb_spec t b), (Z.leb_spec b t), (Z.ltb_spec t c);
      cbn; try reflexivity; lia.
Qed.

(** A turn of a seven-day loop, as a point. *)
Lemma dayPoint_is (host : Host) now coll name path key i :
  clockOk host now -> 0 <= i <= 6 ->
  UserReport.dayPoint host now coll name path key i
  = Ok (dayPointOf host now coll path key i).
Proof.
  intros Hc Hi. rewrite (UserFacts.dayPoint_ok host now coll name path key i Hc Hi).
  unfold dayPointOf, dayLabel, dayStart, dayEnd. rewrite count_window.
  reflexivity.
Qed.

Lemma dayTrend_is (host : Host) now coll name path key :
  clockOk host now ->
  mapM (UserReport.dayPoint host now coll name path key) [6; 5; 4; 3; 2; 1; 0]
  = Ok (map (dayPointOf host now coll path key) [6; 5; 4; 3; 2; 1; 0]).
Proof.
  intros Hc. apply mapM_map. intros i Hi. apply dayPoint_is; [exact Hc|].
  cbn in Hi. lia.
Qed.

Lemma thirtyDaysAgo_is (host : Host) now :
  clockOk host now ->
  setDate host (Date_now now) (num_sub (getDate host (Date_now now)) (Some 30))
  = Some (daysFrom host now (-30)).
Proof. apply thirtyDaysAgo_ok. Qed.

Lemma inThirtyDays_is (host : Host) now :
  clockOk host now ->
  Date_of_number (num_add (getTime (Date_now now)) (Some (30 * 24 * 60 * 60 * 1000)))
  = Some (now + 30 * msPerDay).
Proof.
  intros Hc. rewrite (Date_now_ok host now Hc). cbn [getTime num_add Date_of_number].
  change (30 * 24 * 60 * 60 * 1000) with (30 * msPerDay).
  apply shifted_ok with (zone := localZone host); [exact Hc | lia].
Qed.

(** Every local of the supplier report. *)
Lemma supplier_locals (host : Host) now db query s :
  clockOk host now -> startDate host now query = Some s ->
  SupplierReport.queries host now db query
  = Ok {| SupplierReport.totalSuppliers :=
            List.length (filter (fun _ => true) (Suppliers db));
          SupplierReport.activeSuppliers :=
            List.length (filter Supplier.isActive (Suppliers db));
          SupplierReport.inactiveSuppliers :=
            List.length (filter (fun s => negb (Supplier.isActive s)) (Suppliers db));
          SupplierReport.expiredAgreements :=
            List.length
              (filter (fun x => matchesDate [(lt, now)]
                                  (Some (Supplier.agreementEndDate x)))
                 (Suppliers db));
          SupplierReport.expiringSoon :=
            List.length
              (filter (fun x => matchesDate [(gte, now); (lte, now + 30 * msPerDay)]
                                  (Some (Supplier.agreementEndDate x)))
                 (Suppliers db));
          SupplierReport.supplierProductStats :=
            map SupplierReport.supplierGroup
              (descending (fun g => size (snd (fst g)))
                 (lookupUnwind (Suppliers db) Supplier._id fst
                    (group String.eqb supplierRef
                       (filter (fun p => Product.isActive p && hasSupplier p)
                          (Products db)))));
          SupplierReport.recentSuppliers :=
            List.length
              (filter (fun x => matchesDate [(gte, s)] (Some (Supplier.createdAt x)))
                 (Suppliers db));
          SupplierReport.locationStats :=
            map SupplierReport.locationGroup
              (descending (fun g => size (snd g))
                 (group String.eqb Supplier.location (Suppliers db))) |}.
Proof.
  intros Hc Hs. unfold SupplierReport.queries.
  rewrite Hs, (inThirtyDays_is host now Hc), (Date_now_ok host now Hc). reflexivity.
Qed.

(** Every local of the user report. *)
Lemma user_locals (host : Host) now db query s :
  clockOk host now -> startDate host now query = Some s ->
  UserReport.queries host now db query
  = Ok {| UserReport.totalUsers := List.length (filter (fun _ => true) (Users db));
          UserReport.adminUsers := List.length (filter UserReport.isAdmin (Users db));
          UserReport.customerUsers :=
            List.length (filter UserReport.isCustomer (Users db));
          UserReport.recentRegistrations :=
            List.length
              (filter (fun u => matchesDate [(gte, s)] (Some (User.createdAt u)))
                 (Users db));
          UserReport.registrationTrends :=
            map (dayPointOf host now (Users db)
                   (fun u => Some (User.createdAt u)) "count")
                [6; 5; 4; 3; 2; 1; 0];
          UserReport.activeUsers :=
            List.length
              (filter (fun u => matchesDate [(gte, daysFrom host now (-30))]
                                  (User.lastLogin u)) (Users db));
          UserReport.topActiveUsers :=
            map UserReport.selectActive
              (limit 5 (descending User.loginCount
                          (filter UserReport.isCustomer (Users db))));
          UserReport.activityStats :=
            map UserReport.activityGroup (groupAll (Users db));
          UserReport.loginDistribution :=
            map UserReport.bucketDoc (UserReport.sortedBuckets (Users db));
          UserReport.activityTrends :=
            map (dayPointOf host now (Users db) User.lastLogin "activeUsers")
                [6; 5; 4; 3; 2; 1; 0] |}.
Proof.
  intros Hc Hs. unfold UserReport.queries.
  rewrite Hs, (thirtyDaysAgo_is host now Hc).
  set (r := mapM (UserReport.dayPoint _ _ _ _ _ "count") _).
  assert (Er : r = Ok (map (dayPointOf host now (Users db)
                              (fun u => Some (User.createdAt u)) "count")
                           [6; 5; 4; 3; 2; 1; 0]))
    by (apply dayTrend_is; exact Hc).
  clearbody r. subst r.
  set (a := mapM (UserReport.dayPoint _ _ _ _ _ "activeUsers") _).
  assert (Ea : a = Ok (map (dayPointOf host now (Users db) User.lastLogin
                              "activeUsers")
                           [6; 5; 4; 3; 2; 1; 0]))
    by (apply dayTrend_is; exact Hc).
  clearbody a. subst a.
  reflexivity.
Qed.

(** Every local of the quotation report; the monthly trend has six
    points. *)
Lemma quotation_locals (host : Host) now db query s :
  clockOk host now -> startDate host now query = Some s ->
  exists points,
    List.length points = 6%nat
    /\ QuotationReport.queries host now db query
       = Ok {| QuotationReport.totalQuotations :=
                 List.length (filter (fun _ => true) (Quotations db));
               QuotationReport.pendingQuotations :=
                 List.length (filter (QuotationReport.hasStatus Quotation.pending)
                                (Quotations db));
               QuotationReport.processingQuotations :=
                 List.length (filter (QuotationReport.hasStatus Quotation.processing)
                                (Quotations db));
               QuotationReport.completedQuotations :=
                 List.length (filter (QuotationReport.hasStatus Quotation.completed)
                                (Quotations db));
               QuotationReport.rejectedQuotations :=
                 List.length (filter (QuotationReport.hasStatus Quotation.rejected)
                                (Quotations db));
               QuotationReport.recentQuotations :=
                 List.length
                   (filter (fun q => matchesDate [(gte, s)]
                                       (Some (Quotation.createdAt q)))
                      (Quotations db));
               QuotationReport.revenueStats :=
                 map QuotationReport.revenueGroup
                   (groupAll (filter (QuotationReport.hasStatus Quotation.completed)
                                (Quotations db)));
               QuotationReport.categoryStats :=
                 map QuotationReport.categoryGroup
                   (descending (fun g => size (snd g))
                      (group String.eqb Quotation.productCategory (Quotations db)));
               QuotationReport.monthlyTrends := points;
               QuotationReport.responseTimeStats :=
                 map QuotationReport.responseTimeGroup
                   (groupAll
                      (map QuotationReport.responseTime
                         (filter (fun q =>
                                    QuotationReport.hasStatus Quotation.completed q
                                    || QuotationReport.hasStatus Quotation.rejected q)
                            (Quotations db)))) |}.
Proof.
  intros Hc Hs.
  destruct (QuotationFacts.quotation_trend_ok host now (Quotations db) Hc)
    as (pts & Hpts & Lpts).
  exists pts. split; [exact Lpts|].
  unfold QuotationReport.queries. rewrite Hs.
  set (m := mapM (QuotationReport.monthPoint _ _ _) _).
  assert (Em : m = Ok pts) by exact Hpts. clearbody m. subst m.
  reflexivity.
Qed.

(** Every local of the reservation report; the monthly trend has six
    points. *)
Lemma reservation_locals (host : Host) now db query s :
  clockOk host now -> startDate host now query = Some s ->
  exists points,
    List.length points = 6%nat
    /\ ReservationReport.queries host now db query
       = Ok {| ReservationReport.totalReservations :=
                 List.length (filter (fun _ => true) (Reservations db));
               ReservationReport.pendingReservations :=
                 List.length (filter (ReservationReport.hasStatus Reservation.pending)
                                (Reservations db));
               ReservationReport.confirmedReservations :=
                 List.length (filter (ReservationReport.hasStatus Reservation.confirmed)
                                (Reservations db));
               ReservationReport.completedReservations :=
                 List.length (filter (ReservationReport.hasStatus Reservation.completed)
                                (Reservations db));
               ReservationReport.cancelledReservations :=
                 List.length (filter (ReservationReport.hasStatus Reservation.cancelled)
                                (Reservations db));
               ReservationReport.recentReservations :=
                 List.length
                   (filter (fun r => matchesDate [(gte, s)]
                                       (Some (Reservation.createdAt r)))
                      (Reservations db));
               ReservationReport.monthlyTrends := points;
               ReservationReport.customerStats :=
                 map ReservationReport.customerGroup
                   (limit 10
                      (descending (fun g => size (snd g))
                         (group String.eqb Reservation.email (Reservations db))));
               ReservationReport.statusDistribution :=
                 map ReservationReport.statusGroup
                   (descending (fun g => size (snd g))
                      (group ReservationReport.statusEqb Reservation.status
                         (Reservations db)));
               ReservationReport.responseTimeStats :=
                 map ReservationReport.responseTimeGroup
                   (groupAll
                      (map ReservationReport.responseTime
                         (filter (fun r =>
                                    ReservationReport.hasStatus Reservation.confirmed r
                                    || ReservationReport.hasStatus Reservation.completed r
                                    || ReservationReport.hasStatus Reservation.cancelled r)
                            (Reservations db)))) |}.
Proof.
  intros Hc Hs.
  destruct (ReservationFacts.reservation_trend_ok host now (Reservations db) Hc)
    as (pts & Hpts & Lpts).
  exists pts. split; [exact Lpts|].
  unfold ReservationReport.queries. rewrite Hs.
  set (m := mapM (ReservationReport.monthPoint _ _ _) _).
  assert (Em : m = Ok pts) by exact Hpts. clearbody m. subst m.
  reflexivity.
Qed.

(** Every local of the dashboard. *)
Lemma dashboard_locals (host : Host) now db :
  clockOk host now ->
  Dashboard.queries host now db
  = Ok {| Dashboard.totalProducts :=
            List.length (filter Product.isActive (Products db));
          Dashboard.totalSuppliers :=
            List.length (filter Supplier.isActive (Suppliers db));
          Dashboard.totalUsers := List.length (filter (fun _ => true) (Users db));
          Dashboard.totalQuotations :=
            List.length (filter (fun _ => true) (Quotations db));
          Dashboard.totalReservations :=
            List.length (filter (fun _ => true) (Reservations db));
          Dashboard.lowStockProducts :=
            List.length (filter (fun p => lowStock p && Product.isActive p)
                           (Products db));
          Dashboard.pendingQuotations :=
            List.length (filter (QuotationReport.hasStatus Quotation.pending)
                           (Quotations db));
          Dashboard.pendingReservations :=
            List.length (filter (ReservationReport.hasStatus Reservation.pending)
                           (Reservations db));
          Dashboard.recentQuotations :=
            List.length
              (filter (fun q => matchesDate [(gte, daysFrom host now (-30))]
                                  (Some (Quotation.createdAt q))) (Quotations db));
          Dashboard.recentReservations :=
            List.length
              (filter (fun r => matchesDate [(gte, daysFrom host now (-30))]
                                  (Some (Reservation.createdAt r)))
                 (Reservations db));
          Dashboard.revenueData :=
            map Dashboard.revenueGroup
              (groupAll (filter (QuotationReport.hasStatus Quotation.completed)
                           (Quotations db))) |}.
Proof.
  intros Hc. unfold Dashboard.queries. rewrite (thirtyDaysAgo_is host now Hc).
  reflexivity.
Qed.

End ReportLocals.

(** ** Groups and counts *)

Module GroupFacts.
Import Mongo MongoFacts ListFacts Spec.

Lemma filter_perm_length {A : Type} (p : A -> bool) (l l' : list A) :
  Permutation l l' -> List.length (filter p l) = List.length (filter p l').
Proof.
  induction 1 as [|x l l' _ IH|x y l|l l' l'' _ IH1 _ IH2]; cbn.
  - reflexivity.
  - destruct (p x); cbn; now rewrite IH.
  - destruct (p x), (p y); reflexivity.
  - now rewrite IH1.
Qed.

Lemma filter_all {A : Type} (p : A -> bool) (l : list A) :
  (forall a, In a l -> p a = true) -> filter p l = l.
Proof.
  induction l as [|a r IH]; intros H; [reflexivity|]. cbn.
  rewrite (H a (or_introl eq_refl)), IH; [reflexivity|].
  intros; apply H; now right.
Qed.

Lemma filter_nothing {A : Type} (p : A -> bool) (l : list A) :
  (forall a, In a l -> p a = false) -> filter p l = [].
Proof.
  induction l as [|a r IH]; intros H; [reflexivity|]. cbn.
  rewrite (H a (or_introl eq_refl)). apply IH. intros; apply H; now right.
Qed.

Section Counting.
Context {A K : Type} (eqb : K -> K -> bool) (key : A -> K).
Hypothesis eqb_spec : forall a b, eqb a b = true <-> a = b.

(** A group holds as many documents as have its key. *)
Lemma wellGrouped_count (groups : list (K * list A)) (docs : list A) g :
  wellGrouped key groups ->
  Permutation (List.concat (map snd groups)) docs ->
  In g groups ->
  List.length (snd g)
  = List.length (filter (fun a => eqb (key a) (fst g)) docs).
Proof.
  intros [Hnd Hg] Hperm Hin.
  rewrite <- (filter_perm_length _ _ _ Hperm). clear Hperm docs.
  induction groups as [|h r IH]; [destruct Hin|].
  cbn [map List.concat]. rewrite filter_app, length_app.
  inversion Hnd as [|? ? Hh Hr]; subst.
  destruct Hin as [-> | Hin].
  - rewrite filter_all.
    + rewrite filter_nothing; [cbn; lia|].
      intros a Ha. apply in_concat in Ha as (ds & Hds & Ha).
      apply in_map_iff in Hds as (g' & <- & Hg').
      destruct (eqb (key a) (fst g)) eqn:E; [|reflexivity].
      apply eqb_spec in E. exfalso. apply Hh.
      rewrite <- E, (proj2 (Hg g' (or_intror Hg')) a Ha).
      now apply in_map.
    + intros a Ha. apply eqb_spec. now apply (Hg g (or_introl eq_refl)).
  - rewrite filter_nothing.
    + cbn. apply IH; [exact Hr | | exact Hin].
      intros g' Hg'. apply Hg. now right.
    + intros a Ha.
      destruct (eqb (key a) (fst g)) eqn:E; [|reflexivity].
      apply eqb_spec in E. exfalso. apply Hh.
      rewrite <- (proj2 (Hg h (or_introl eq_refl)) a Ha), E.
      now apply in_map.
Qed.

End Counting.

End GroupFacts.

Import GroupFacts.

(** ** The overviews *)

Import ReportLocals.

(** X5. In the supplier report the active and the inactive suppliers add
    up to all suppliers, and no supplier is counted both as expired and as
    expiring soon: the two counts together are at most the total. *)
Theorem supplier_overview_counts_add_up (host : Host) now db query s :
  clockOk host now -> startDate host now query = Some s ->
  let report := body (getSupplierReports host now db query) in
  exists total active inactive expired soon : nat,
    jpath ["data"; "overview"; "totalSuppliers"] report = Some (JNat total)
    /\ jpath ["data"; "overview"; "activeSuppliers"] report = Some (JNat active)
    /\ jpath ["data"; "overview"; "inactiveSuppliers"] report = Some (JNat inactive)
    /\ jpath ["data"; "overview"; "expiredAgreements"] report = Some (JNat expired)
    /\ jpath ["data"; "overview"; "expiringSoon"] report = Some (JNat soon)
    /\ total = List.length (Suppliers db)
    /\ (active + inactive = total)%nat
    /\ (expired + soon <= total)%nat.
Proof.
  intros Hc Hs report. unfold report, getSupplierReports.
  rewrite (supplier_locals host now db query s Hc Hs).
  do 5 eexists. cbn [bind handler res_json body].
  do 5 (split; [reflexivity|]).
  cbn [SupplierReport.totalSuppliers SupplierReport.activeSuppliers
       SupplierReport.inactiveSuppliers SupplierReport.expiredAgreements
       SupplierReport.expiringSoon].
  rewrite filter_true. split; [reflexivity|]. split.
  - symmetry. rewrite <- (filter_true (Suppliers db)) at 1. apply filter_split.
    + intros a _. now destruct (Supplier.isActive a).
    + intros a _. now destruct (Supplier.isActive a).
  - rewrite <- (filter_split
                  (fun x => matchesDate [(lt, now)] (Some (Supplier.agreementEndDate x))
                            || matchesDate [(gte, now); (lte, now + 30 * msPerDay)]
                                 (Some (Supplier.agreementEndDate x)))).
    + apply filter_length_le.
    + reflexivity.
    + intros a _. cbn.
      destruct (Z.ltb_spec (Supplier.agreementEndDate a) now),
        (Z.leb_spec now (Supplier.agreementEndDate a)); cbn; try reflexivity; lia.
Qed.

(** X5 at the shop: two active and one inactive supplier. *)
Lemma supplier_overview_counts_add_up_witness :
  clockOk Sample.utc Shop.clock
  /\ startDate Sample.utc Shop.clock Sample.noQuery = Some 1707480000000
  /\ exists total active inactive : nat,
       jpath ["data"; "overview"; "activeSuppliers"]
         (body (getSupplierReports Sample.utc Shop.clock Shop.db Sample.noQuery))
       = Some (JNat active)
       /\ total = 3%nat /\ (active + inactive = total)%nat.
Proof.
  assert (Hc : clockOk Sample.utc Shop.clock) by (vm_compute; split; discriminate).
  assert (H : startDate Sample.utc Shop.clock Sample.noQuery = Some 1707480000000)
    by (vm_compute; reflexivity).
  split; [exact Hc|]. split; [exact H|].
  destruct (supplier_overview_counts_add_up Sample.utc Shop.clock Shop.db Sample.noQuery _ Hc H)
    as (total & active & inactive & expired & soon & _ & H2 & _ & _ & _ & H6 & H7 & _).
  exists total, active, inactive. split; [exact H2|]. split; [exact H6 | exact H7].
Defined.

(** X6. In the user report the administrators and the customers add up to
    all users, and the active users and the recent registrations are each
    at most the total. *)
Theorem user_overview_counts_add_up (host : Host) now db query s :
  clockOk host now -> startDate host now query = Some s ->
  let report := body (getUserReports host now db query) in
  exists total admins customers active recent : nat,
    jpath ["data"; "overview"; "totalUsers"] report = Some (JNat total)
    /\ jpath ["data"; "overview"; "adminUsers"] report = Some (JNat admins)
    /\ jpath ["data"; "overview"; "customerUsers"] report = Some (JNat customers)
    /\ jpath ["data"; "overview"; "activeUsers"] report = Some (JNat active)
    /\ jpath ["data"; "overview"; "recentRegistrations"] report = Some (JNat recent)
    /\ total = List.length (Users db)
    /\ (admins + customers = total)%nat
    /\ (active <= total)%nat /\ (recent <= total)%nat.
Proof.
  intros Hc Hs report. unfold report, getUserReports.
  rewrite (user_locals host now db query s Hc Hs).
  do 5 eexists. cbn [bind handler res_json body].
  do 5 (split; [reflexivity|]).
  cbn [UserReport.totalUsers UserReport.adminUsers UserReport.customerUsers
       UserReport.activeUsers UserReport.recentRegistrations].
  rewrite filter_true. split; [reflexivity|]. split; [|split].
  - symmetry. rewrite <- (filter_true (Users db)) at 1. apply filter_split.
    + intros a _. unfold UserReport.isAdmin, UserReport.isCustomer.
      now destruct (User.role a).
    + intros a _. unfold UserReport.isAdmin, UserReport.isCustomer.
      now destruct (User.role a).
  - apply filter_length_le.
  - apply filter_length_le.
Qed.

(** X6 at the shop: one administrator and three customers. *)
Lemma user_overview_counts_add_up_witness :
  clockOk Sample.utc Shop.clock
  /\ startDate Sample.utc Shop.clock Sample.noQuery = Some 1707480000000
  /\ exists total admins customers : nat,
       jpath ["data"; "overview"; "adminUsers"]
         (body (getUserReports Sample.utc Shop.clock Shop.db Sample.noQuery))
       = Some (JNat admins)
       /\ total = 4%nat /\ (admins + customers = total)%nat.
Proof.
  assert (Hc : clockOk Sample.utc Shop.clock) by (vm_compute; split; discriminate).
  assert (H : startDate Sample.utc Shop.clock Sample.noQuery = Some 1707480000000)
    by (vm_compute; reflexivity).
  split; [exact Hc|]. split; [exact H|].
  destruct (user_overview_counts_add_up Sample.utc Shop.clock Shop.db Sample.noQuery _ Hc H)
    as (total & admins & customers & active & recent
        & _ & H2 & _ & _ & _ & H6 & H7 & _).
  exists total, admins, customers. split; [exact H2|]. split; [exact H6 | exact H7].
Defined.

(** X7. In the user report [topActiveUsers] has an entry for each of five
    customers, or for all of them when they are fewer, with the [_id], full
    name, email and login count of the customer, and with the last login
    when the customer has one and no such key otherwise; the entries come by
    descending login count, and no customer left out has more logins than
    one of the list; an administrator is never in the list. *)
Theorem top_active_users_are_top_customers (host : Host) now db query s :
  clockOk host now -> startDate host now query = Some s ->
  let report := body (getUserReports host now db query) in
  let customers := filter UserReport.isCustomer (Users db) in
  exists top rest entries,
    jpath ["data"; "topActiveUsers"] report = Some (JArr entries)
    /\ Forall2
         (fun u entry =>
            fieldsOf entry
              [("_id", JStr (User._id u)); ("fullName", JStr (User.fullName u));
               ("email", JStr (User.email u));
               ("loginCount", JInt (User.loginCount u))]
            /\ jfield "lastLogin" entry = option_map JDate (User.lastLogin u))
         top entries
    /\ List.length entries = Nat.min 5 (List.length customers)
    /\ Permutation (top ++ rest) customers
    /\ (forall u, In u top -> In u (Users db) /\ User.role u = User.customer)
    /\ StronglySorted (fun a b => User.loginCount b <= User.loginCount a) top
    /\ forall a b, In a top -> In b rest -> User.loginCount b <= User.loginCount a.
Proof.
  intros Hc Hs report customers. unfold report, getUserReports.
  rewrite (user_locals host now db query s Hc Hs). fold customers.
  set (sorted := descending User.loginCount customers).
  assert (Hperm : Permutation sorted customers) by apply descending_perm.
  assert (Hsort : StronglySorted (fun a b => User.loginCount b <= User.loginCount a)
                    sorted) by apply descending_sorted.
  destruct (sorted_split _ 5 sorted Hsort) as [H1 H2].
  exists (limit 5 sorted), (skipn 5 sorted),
    (map UserReport.selectActive (limit 5 sorted)).
  split; [reflexivity|].
  split.
  { apply Forall2_map. intros u _. unfold UserReport.selectActive.
    split; [repeat constructor|].
    destruct (User.lastLogin u); reflexivity. }
  unfold limit.
  split; [rewrite length_map, length_firstn, (Permutation_length Hperm); reflexivity|].
  split; [rewrite firstn_skipn; exact Hperm|].
  split; [|split; [exact H1 | exact H2]].
  intros u Hu. apply in_firstn in Hu. apply (Permutation_in _ Hperm) in Hu.
  apply filter_In in Hu as [Hu Hr]. split; [exact Hu|].
  unfold UserReport.isCustomer in Hr. now destruct (User.role u).
Qed.

(** X7 at the shop: the three customers, the one with seven logins first;
    the customer who never logged in has no [lastLogin]. *)
Lemma top_active_users_are_top_customers_witness :
  clockOk Sample.utc Shop.clock
  /\ startDate Sample.utc Shop.clock Sample.noQuery = Some 1707480000000
  /\ exists entries,
       jpath ["data"; "topActiveUsers"]
         (body (getUserReports Sample.utc Shop.clock Shop.db Sample.noQuery))
       = Some (JArr entries)
       /\ map (fun entry => (jfield "_id" entry, jfield "loginCount" entry,
                             jfield "lastLogin" entry)) entries
          = [(Some (JStr "c3"), Some (JInt 7), Some (JStr "2024-01-25T12:00:00.000Z"));
             (Some (JStr "c1"), Some (JInt 3), Some (JStr "2024-03-08T12:00:00.000Z"));
             (Some (JStr "c2"), Some (JInt 0), None)].
Proof.
  assert (Hc : clockOk Sample.utc Shop.clock) by (vm_compute; split; discriminate).
  assert (H : startDate Sample.utc Shop.clock Sample.noQuery = Some 1707480000000)
    by (vm_compute; reflexivity).
  split; [exact Hc|]. split; [exact H|].
  destruct (top_active_users_are_top_customers Sample.utc Shop.clock Shop.db Sample.noQuery
              _ Hc H) as (top & rest & entries & H1 & _).
  exists entries. split; [exact H1|].
  vm_compute in H1. injection H1 as <-.
  vm_compute. reflexivity.
Defined.

(** X8. In the quotation report the pending, processing, completed and
    rejected quotations add up to all quotations, and the recent quotations
    are at most the total. *)
Theorem quotation_status_counts_add_up (host : Host) now db query s :
  clockOk host now -> startDate host now query = Some s ->
  let report := body (getQuotationReports host now db query) in
  exists total pending processing completed rejected recent : nat,
    jpath ["data"; "overview"; "totalQuotations"] report = Some (JNat total)
    /\ jpath ["data"; "overview"; "pendingQuotations"] report = Some (JNat pending)
    /\ jpath ["data"; "overview"; "processingQuotations"] report
       = Some (JNat processing)
    /\ jpath ["data"; "overview"; "completedQuotations"] report
       = Some (JNat completed)
    /\ jpath ["data"; "overview"; "rejectedQuotations"] report = Some (JNat rejected)
    /\ jpath ["data"; "overview"; "recentQuotations"] report = Some (JNat recent)
    /\ total = List.length (Quotations db)
    /\ (pending + processing + completed + rejected = total)%nat
    /\ (recent <= total)%nat.
Proof.
  intros Hc Hs report. unfold report, getQuotationReports.
  destruct (quotation_locals host now db query s Hc Hs) as (pts & _ & ->).
  do 6 eexists. cbn [bind handler res_json body].
  do 6 (split; [reflexivity|]).
  cbn [QuotationReport.totalQuotations QuotationReport.pendingQuotations
       QuotationReport.processingQuotations QuotationReport.completedQuotations
       QuotationReport.rejectedQuotations QuotationReport.recentQuotations].
  rewrite filter_true. split; [reflexivity|]. split; [|apply filter_length_le].
  unfold QuotationReport.hasStatus.
  induction (Quotations db) as [|q r IH]; [reflexivity|]. cbn [filter].
  destruct (Quotation.status q); cbn [QuotationReport.statusEqb List.length]; lia.
Qed.

(** X8 at the shop: five quotations. *)
Lemma quotation_status_counts_add_up_witness :
  clockOk Sample.utc Shop.clock
  /\ startDate Sample.utc Shop.clock Sample.noQuery = Some 1707480000000
  /\ exists total pending processing completed rejected : nat,
       jpath ["data"; "overview"; "completedQuotations"]
         (body (getQuotationReports Sample.utc Shop.clock Shop.db Sample.noQuery))
       = Some (JNat completed)
       /\ total = 5%nat
       /\ (pending + processing + completed + rejected = total)%nat.
Proof.
  assert (Hc : clockOk Sample.utc Shop.clock) by (vm_compute; split; discriminate).
  assert (H : startDate Sample.utc Shop.clock Sample.noQuery = Some 1707480000000)
    by (vm_compute; reflexivity).
  split; [exact Hc|]. split; [exact H|].
  destruct (quotation_status_counts_add_up Sample.utc Shop.clock Shop.db Sample.noQuery _ Hc H)
    as (total & pending & processing & completed & rejected & recent
        & _ & _ & _ & H4 & _ & _ & H7 & H8 & _).
  exists total, pending, processing, completed, rejected.
  split; [exact H4|]. split; [exact H7 | exact H8].
Defined.

(** X9. In the reservation report [statusDistribution] has one entry for
    each status that some reservation has, with the name of the status as
    [_id], by descending [count], and the [count] of an entry is the count
    that the overview gives for that status; the counts of the entries add
    up to [totalReservations]. *)
Theorem status_distribution_agrees_with_overview (host : Host) now db query s :
  clockOk host now -> startDate host now query = Some s ->
  let report := body (getReservationReports host now db query) in
  exists (groups : list (Reservation.Status * list Reservation.t)) entries,
    jpath ["data"; "statusDistribution"] report = Some (JArr entries)
    /\ Forall2
         (fun g entry =>
            fieldsOf entry
              [("_id", JStr (ReservationReport.statusName (fst g)));
               ("count", JInt (size (snd g)))])
         groups entries
    /\ NoDup (map fst groups)
    /\ (forall st, In st (map fst groups)
                   <-> exists r, In r (Reservations db) /\ Reservation.status r = st)
    /\ (forall g, In g groups ->
          0 < size (snd g)
          /\ jpath ["data"; "overview";
                    (ReservationReport.statusName (fst g) ++ "Reservations")%string]
               report = Some (JInt (size (snd g))))
    /\ StronglySorted (fun a b => size (snd b) <= size (snd a)) groups
    /\ jpath ["data"; "overview"; "totalReservations"] report
       = Some (JInt (sum (map (fun g => size (snd g)) groups))).
Proof.
  intros Hc Hs report. unfold report, getReservationReports.
  destruct (reservation_locals host now db query s Hc Hs) as (pts & _ & ->).
  assert (Heq : forall a b, ReservationReport.statusEqb a b = true <-> a = b).
  { intros [] []; cbn; split; congruence. }
  set (groups := group ReservationReport.statusEqb Reservation.status
                   (Reservations db)).
  set (sorted := descending (fun g => size (snd g)) groups).
  destruct (group_partition ReservationReport.statusEqb Reservation.status Heq
              (Reservations db)) as [[Hnd Hg] Hperm].
  fold groups in Hnd, Hg, Hperm.
  assert (Hsort : Permutation sorted groups) by apply descending_perm.
  exists sorted, (map ReservationReport.statusGroup sorted).
  cbn [bind handler res_json body].
  split; [reflexivity|].
  split; [apply Forall2_map; intros g _; repeat constructor|].
  split; [|split; [|split; [|split]]].
  - eapply Permutation_NoDup; [|exact Hnd]. apply Permutation_map. now symmetry.
  - intros st. split.
    + intros Hin. apply in_map_iff in Hin as (g & <- & Hin).
      apply (Permutation_in _ Hsort) in Hin.
      destruct (Hg g Hin) as [Hne Hk].
      destruct (snd g) as [|r0 rs] eqn:E; [congruence|].
      exists r0. split; [|apply Hk; now left].
      apply (Permutation_in _ Hperm). apply in_concat. exists (snd g).
      split; [now apply in_map | rewrite E; now left].
    + intros (r0 & Hr & <-).
      apply (Permutation_in _ (Permutation_sym Hperm)) in Hr.
      apply in_concat in Hr as (ds & Hds & Hr).
      apply in_map_iff in Hds as (g & <- & Hin).
      rewrite (proj2 (Hg g Hin) r0 Hr).
      apply in_map. now apply (Permutation_in _ (Permutation_sym Hsort)).
  - intros g Hin. apply (Permutation_in _ Hsort) in Hin.
    pose proof (wellGrouped_count ReservationReport.statusEqb Reservation.status Heq
                  groups (Reservations db) g (conj Hnd Hg) Hperm Hin) as Hn.
    split.
    + destruct (Hg g Hin) as [Hne _]. unfold size.
      destruct (snd g); [congruence | cbn; lia].
    + unfold size. rewrite Hn.
      destruct g as [[] ds]; reflexivity.
  - apply descending_sorted.
  - cbn. unfold JNat. do 3 f_equal. rewrite filter_true.
    rewrite <- (Permutation_length Hperm).
    rewrite <- (sum_perm _ _ (Permutation_map (fun g => size (snd g))
                                (Permutation_sym Hsort))).
    rewrite <- sum_sizes, map_map. reflexivity.
Qed.

(** X9 at the shop: four statuses, one reservation each. *)
Lemma status_distribution_agrees_with_overview_witness :
  clockOk Sample.utc Shop.clock
  /\ startDate Sample.utc Shop.clock Sample.noQuery = Some 1707480000000
  /\ exists entries,
       jpath ["data"; "statusDistribution"]
         (body (getReservationReports Sample.utc Shop.clock Shop.db Sample.noQuery))
       = Some (JArr entries)
       /\ map (jfield "count") entries
          = [Some (JInt 1); Some (JInt 1); Some (JInt 1); Some (JInt 1)]
       /\ In (Some (JStr "cancelled")) (map (jfield "_id") entries)
       /\ jpath ["data"; "overview"; "cancelledReservations"]
            (body (getReservationReports Sample.utc Shop.clock Shop.db Sample.noQuery))
          = Some (JInt 1).
Proof.
  assert (Hc : clockOk Sample.utc Shop.clock) by (vm_compute; split; discriminate).
  assert (H : startDate Sample.utc Shop.clock Sample.noQuery = Some 1707480000000)
    by (vm_compute; reflexivity).
  split; [exact Hc|]. split; [exact H|].
  destruct (status_distribution_agrees_with_overview Sample.utc Shop.clock Shop.db
              Sample.noQuery _ Hc H) as (groups & entries & H1 & _).
  exists entries. split; [exact H1|].
  vm_compute in H1. injection H1 as <-.
  split; [vm_compute; reflexivity|]. split; [vm_compute; tauto|].
  vm_compute. reflexivity.
Defined.

(** ** Statistics and trends *)

Module StatFacts.
Import Mongo ListFacts.

(** The accumulators of a group that is not empty. *)
Lemma accumulators (l : list Z) :
  l <> [] ->
  exists lo hi mean,
    min l = Some lo /\ max l = Some hi /\ avg l = Some mean
    /\ In lo l /\ In hi l
    /\ (forall x, In x l -> lo <= x <= hi)
    /\ Z.of_nat (List.length l) * lo <= sum l <= Z.of_nat (List.length l) * hi.
Proof.
  intros Hne.
  destruct (min l) as [lo|] eqn:Emin; [|destruct l; [congruence | discriminate]].
  destruct (max l) as [hi|] eqn:Emax; [|destruct l; [congruence | discriminate]].
  destruct (min_spec l lo Emin) as [Hlo1 Hlo2].
  destruct (max_spec l hi Emax) as [Hhi1 Hhi2].
  assert (Hb : forall x, In x l -> lo <= x <= hi)
    by (intros x Hx; split; [now apply Hlo2 | now apply Hhi2]).
  pose proof (sum_bounds l lo hi Hb) as Hs.
  exists lo, hi,
    (PrimFloat.div (toDouble (sum l)) (toDouble (Z.of_nat (List.length l)))).
  split; [reflexivity|]. split; [reflexivity|].
  split; [destruct l; [congruence | reflexivity]|].
  split; [exact Hlo1|]. split; [exact Hhi1|]. split; [exact Hb|].
  exact Hs.
Qed.

End StatFacts.

(** X10. In the quotation report, when some quotation is completed,
    [minQuotationValue] and [maxQuotationValue] are amounts of completed
    quotations and bound the amount of every completed quotation, and
    [avgQuotationValue] is a number, not null. *)
Theorem revenue_statistics_are_bounded (host : Host) now db query s q0 :
  clockOk host now -> startDate host now query = Some s ->
  In q0 (Quotations db) -> Quotation.status q0 = Quotation.completed ->
  let report := body (getQuotationReports host now db query) in
  let completed :=
    filter (QuotationReport.hasStatus Quotation.completed) (Quotations db) in
  exists lo hi mean qlo qhi,
    jpath ["data"; "revenueStats"; "minQuotationValue"] report = Some (JInt lo)
    /\ jpath ["data"; "revenueStats"; "maxQuotationValue"] report = Some (JInt hi)
    /\ jpath ["data"; "revenueStats"; "avgQuotationValue"] report
       = Some (JDouble mean)
    /\ In qlo completed /\ Quotation.totalAmount qlo = lo
    /\ In qhi completed /\ Quotation.totalAmount qhi = hi
    /\ (forall q, In q completed -> lo <= Quotation.totalAmount q <= hi)
    /\ lo <= Quotation.totalAmount q0 <= hi.
Proof.
  intros Hc Hs Hin Hst report completed. unfold report, getQuotationReports.
  destruct (quotation_locals host now db query s Hc Hs) as (pts & _ & ->).
  fold completed.
  assert (Hq0 : In q0 completed).
  { apply filter_In. split; [exact Hin|].
    unfold QuotationReport.hasStatus. now rewrite Hst. }
  assert (Hne : map Quotation.totalAmount completed <> []).
  { destruct completed; [destruct Hq0 | discriminate]. }
  destruct (StatFacts.accumulators _ Hne)
    as (lo & hi & mean & Emin & Emax & Eavg & Hlo & Hhi & Hb & _).
  apply in_map_iff in Hlo as (qlo & Elo & Hlo).
  apply in_map_iff in Hhi as (qhi & Ehi & Hhi).
  exists lo, hi, mean, qlo, qhi.
  assert (Hg : groupAll completed = [completed]).
  { destruct completed; [destruct Hq0 | reflexivity]. }
  cbn [bind handler res_json body QuotationReport.response
       QuotationReport.revenueStats QuotationReport.completedQuotations].
  rewrite Hg. cbn [map index0 or_]. unfold QuotationReport.revenueGroup.
  rewrite Emin, Emax, Eavg.
  split; [reflexivity|]. split; [reflexivity|]. split; [reflexivity|].
  split; [exact Hlo|]. split; [exact Elo|].
  split; [exact Hhi|]. split; [exact Ehi|].
  split; intros; apply Hb; now apply in_map.
Qed.

(** X10 at the shop: completed quotations of 100 and 300. *)
Lemma revenue_statistics_are_bounded_witness :
  clockOk Sample.utc Shop.clock
  /\ startDate Sample.utc Shop.clock Sample.noQuery = Some 1707480000000
  /\ exists q0 lo hi mean,
       In q0 (Quotations Shop.db) /\ Quotation.status q0 = Quotation.completed
       /\ jpath ["data"; "revenueStats"; "minQuotationValue"]
            (body (getQuotationReports Sample.utc Shop.clock Shop.db Sample.noQuery))
          = Some (JInt lo)
       /\ jpath ["data"; "revenueStats"; "maxQuotationValue"]
            (body (getQuotationReports Sample.utc Shop.clock Shop.db Sample.noQuery))
          = Some (JInt hi)
       /\ jpath ["data"; "revenueStats"; "avgQuotationValue"]
            (body (getQuotationReports Sample.utc Shop.clock Shop.db Sample.noQuery))
          = Some (JDouble mean)
       /\ lo = 100 /\ hi = 300 /\ mean = Mongo.toDouble 200.
Proof.
  assert (Hc : clockOk Sample.utc Shop.clock) by (vm_compute; split; discriminate).
  assert (H : startDate Sample.utc Shop.clock Sample.noQuery = Some 1707480000000)
    by (vm_compute; reflexivity).
  split; [exact Hc|]. split; [exact H|].
  pose (q0 := Shop.quotation "q1" Quotation.completed 100
                (Shop.clock - 10 * Shop.day) (Shop.clock - 8 * Shop.day)).
  assert (Hin : In q0 (Quotations Shop.db)) by (cbn; tauto).
  destruct (revenue_statistics_are_bounded Sample.utc Shop.clock Shop.db Sample.noQuery _ q0
              Hc H Hin eq_refl)
    as (lo & hi & mean & qlo & qhi & H1 & H2 & H3 & _).
  exists q0, lo, hi, mean. split; [exact Hin|]. split; [reflexivity|].
  split; [exact H1|]. split; [exact H2|]. split; [exact H3|].
  assert (E1 := H1). assert (E2 := H2). assert (E3 := H3).
  vm_compute in E1. vm_compute in E2. vm_compute in E3.
  injection E1 as E1. injection E2 as E2. injection E3 as E3.
  split; [lia|]. split; [lia|]. rewrite <- E3. vm_compute. reflexivity.
Defined.

(** X11. In the quotation report the response times are those of the
    completed and the rejected quotations only: the least and the greatest
    are the time from creation to last update of such a quotation and bound
    that of every other, so that they are not negative when no quotation
    was updated before it was created; with no such quotation the field is
    the empty object. *)
Theorem response_times_of_settled_quotations (host : Host) now db query s :
  clockOk host now -> startDate host now query = Some s ->
  let report := body (getQuotationReports host now db query) in
  let settled :=
    filter (fun q => QuotationReport.hasStatus Quotation.completed q
                     || QuotationReport.hasStatus Quotation.rejected q)
           (Quotations db) in
  (settled = [] -> jpath ["data"; "responseTimeStats"] report = Some emptyObject)
  /\ (settled <> [] ->
      exists lo hi qlo qhi,
        jpath ["data"; "responseTimeStats"; "minResponseTime"] report
        = Some (JInt lo)
        /\ jpath ["data"; "responseTimeStats"; "maxResponseTime"] report
           = Some (JInt hi)
        /\ In qlo settled /\ lo = Quotation.updatedAt qlo - Quotation.createdAt qlo
        /\ In qhi settled /\ hi = Quotation.updatedAt qhi - Quotation.createdAt qhi
        /\ (forall q, In q settled ->
              lo <= Quotation.updatedAt q - Quotation.createdAt q <= hi)
        /\ ((forall q, In q (Quotations db) ->
               Quotation.createdAt q <= Quotation.updatedAt q) -> 0 <= lo)).
Proof.
  intros Hc Hs report settled. unfold report, getQuotationReports.
  destruct (quotation_locals host now db query s Hc Hs) as (pts & _ & ->).
  fold settled.
  cbn [bind handler res_json body QuotationReport.response
       QuotationReport.responseTimeStats].
  split.
  - intros ->. reflexivity.
  - intros Hne.
    assert (Hne' : map QuotationReport.responseTime settled <> [])
      by (destruct settled; [congruence | discriminate]).
    destruct (StatFacts.accumulators _ Hne')
      as (lo & hi & mean & Emin & Emax & Eavg & Hlo & Hhi & Hb & _).
    apply in_map_iff in Hlo as (qlo & Elo & Hlo).
    apply in_map_iff in Hhi as (qhi & Ehi & Hhi).
    exists lo, hi, qlo, qhi.
    assert (Hg : groupAll (map QuotationReport.responseTime settled)
                 = [map QuotationReport.responseTime settled]).
    { destruct (map QuotationReport.responseTime settled);
        [congruence | reflexivity]. }
    rewrite Hg. cbn [map index0 or_]. unfold QuotationReport.responseTimeGroup.
    rewrite Emin, Emax, Eavg.
    split; [reflexivity|]. split; [reflexivity|].
    split; [exact Hlo|]. split; [now rewrite <- Elo|].
    split; [exact Hhi|]. split; [now rewrite <- Ehi|].
    split.
    + intros q Hq. apply (Hb (QuotationReport.responseTime q)). now apply in_map.
    + intros Hord. rewrite <- Elo. unfold QuotationReport.responseTime.
      apply filter_In in Hlo as [Hlo _]. specialize (Hord qlo Hlo). lia.
Qed.

(** X11 at the shop: the rejected quotation took three days, the completed
    ones two days and one day. *)
Lemma response_times_of_settled_quotations_witness :
  clockOk Sample.utc Shop.clock
  /\ startDate Sample.utc Shop.clock Sample.noQuery = Some 1707480000000
  /\ jpath ["data"; "responseTimeStats"; "minResponseTime"]
       (body (getQuotationReports Sample.utc Shop.clock Shop.db Sample.noQuery))
     = Some (JInt Shop.day)
  /\ (filter (fun q => QuotationReport.hasStatus Quotation.completed q
                       || QuotationReport.hasStatus Quotation.rejected q)
        (Quotations Sample.empty) = [] ->
      jpath ["data"; "responseTimeStats"]
        (body (getQuotationReports Sample.utc Shop.clock Sample.empty Sample.noQuery))
      = Some emptyObject).
Proof.
  assert (Hc : clockOk Sample.utc Shop.clock) by (vm_compute; split; discriminate).
  assert (H : startDate Sample.utc Shop.clock Sample.noQuery = Some 1707480000000)
    by (vm_compute; reflexivity).
  split; [exact Hc|]. split; [exact H|]. split; [vm_compute; reflexivity|].
  exact (proj1 (response_times_of_settled_quotations Sample.utc Shop.clock Sample.empty
                  Sample.noQuery _ Hc H)).
Defined.

(** ** Daily trends and the dashboard *)

Module TrendFacts.
Import JSDate Mongo ListFacts Spec Terms ReportLocals.

(** The seven windows of a daily loop make one window of seven days. *)
Lemma week_tiles {A : Type} (path : A -> option Z) (now : Z) (coll : list A) :
  list_sum
    (map (fun i => countWindow path (now - i * msPerDay)
                     (now - i * msPerDay + msPerDay) coll) week)
  = countWindow path (now - 6 * msPerDay) (now + msPerDay) coll.
Proof.
  unfold week, list_sum. cbn [map fold_right].
  assert (Hd : 0 < msPerDay) by (unfold msPerDay; lia).
  rewrite <- (countWindow_join path (now - 6 * msPerDay) (now - 5 * msPerDay)
                (now + msPerDay)) by lia.
  rewrite <- (countWindow_join path (now - 5 * msPerDay) (now - 4 * msPerDay)
                (now + msPerDay)) by lia.
  rewrite <- (countWindow_join path (now - 4 * msPerDay) (now - 3 * msPerDay)
                (now + msPerDay)) by lia.
  rewrite <- (countWindow_join path (now - 3 * msPerDay) (now - 2 * msPerDay)
                (now + msPerDay)) by lia.
  rewrite <- (countWindow_join path (now - 2 * msPerDay) (now - 1 * msPerDay)
                (now + msPerDay)) by lia.
  rewrite <- (countWindow_join path (now - 1 * msPerDay) now (now + msPerDay)) by lia.
  replace (now - 6 * msPerDay + msPerDay) with (now - 5 * msPerDay) by lia.
  replace (now - 5 * msPerDay + msPerDay) with (now - 4 * msPerDay) by lia.
  replace (now - 4 * msPerDay + msPerDay) with (now - 3 * msPerDay) by lia.
  replace (now - 3 * msPerDay + msPerDay) with (now - 2 * msPerDay) by lia.
  replace (now - 2 * msPerDay + msPerDay) with (now - 1 * msPerDay) by lia.
  replace (now - 1 * msPerDay + msPerDay) with now by lia.
  replace (now - 0 * msPerDay) with now by lia.
  lia.
Qed.

(** A window that starts at or after [lo] counts no more than the count
    since [lo]. *)
Lemma countWindow_since {A : Type} (path : A -> option Z) (lo a b : Z)
  (coll : list A) :
  lo <= a -> (countWindow path a b coll <= countSince path lo coll)%nat.
Proof.
  intros H. unfold countWindow, countSince.
  induction coll as [|x r IH]; cbn; [lia|].
  destruct (path x) as [t|]; [|exact IH].
  destruct (Z.leb_spec a t), (Z.ltb_spec t b), (Z.leb_spec lo t); cbn; lia.
Qed.

(** In a zone with a constant offset a window is of 24 hours. *)
Lemma dayStart_fixed zone tza now i :
  fixed zone tza -> dayStart zone now i = now - i * msPerDay.
Proof.
  intros H. unfold dayStart. rewrite (ClockFacts.daysFrom_fixed zone tza _ _ H). lia.
Qed.

Lemma dayEnd_fixed zone tza now i :
  fixed zone tza -> dayEnd zone now i = now - i * msPerDay + msPerDay.
Proof.
  intros H. unfold dayEnd.
  rewrite (ClockFacts.daysFrom_fixed zone tza _ _ H), (dayStart_fixed zone tza now i H).
  lia.
Qed.

(** There the seven windows make one window of seven days. *)
Lemma week_tiles_fixed {A : Type} zone tza (path : A -> option Z) (now : Z)
  (coll : list A) :
  fixed zone tza ->
  list_sum
    (map (fun i => countWindow path (dayStart zone now i) (dayEnd zone now i) coll)
       week)
  = countWindow path (now - 6 * msPerDay) (now + msPerDay) coll.
Proof.
  intros H. rewrite <- week_tiles. f_equal. apply map_ext. intros i.
  now rewrite (dayStart_fixed zone tza now i H), (dayEnd_fixed zone tza now i H).
Qed.

Lemma Forall2_maps {A B C : Type} (R : B -> C -> Prop) (f : A -> B) (g : A -> C)
  (l : list A) :
  (forall a, In a l -> R (f a) (g a)) -> Forall2 R (map f l) (map g l).
Proof.
  induction l as [|a r IH]; intros H; [constructor|].
  cbn [map]. constructor; [apply H; now left|].
  apply IH. intros; apply H; now right.
Qed.

End TrendFacts.

Import Terms.

(** X12. A turn of a daily loop of the user report, for the day [i] days
    back and with [reading] what it reads on the clock, gives the point whose
    [date] is the UTC date of the start of its window and whose count is the
    number of users dated in the window; the window starts [i] calendar days
    before the reading, at the same local time in the zone of the server,
    and ends one calendar day later, so that in a zone with a constant offset
    it is the 24 hours from the reading less [i] days.  Each of the two
    trends of the response has seven such points, for [i] from 6 down to 0;
    the period changes none of them. *)
Theorem daily_trend_points_count_their_window (host : Host) now db query s :
  clockOk host now -> startDate host now query = Some s ->
  let report := body (getUserReports host now db query) in
  let created := fun u => Some (User.createdAt u) in
  (forall reading i coll name path key,
      clockOk host reading -> 0 <= i <= 6 ->
      exists point,
        UserReport.dayPoint host reading coll name path key i = Ok point
        /\ jfield "date" point = Some (JStr (dayLabel (dayStart host reading i)))
        /\ (key <> "date" ->
            jfield key point
            = Some (JNat (countWindow path (dayStart host reading i)
                            (dayEnd host reading i) coll))))
  /\ (forall tza reading i,
        fixed host tza ->
        dayStart host reading i = reading - i * msPerDay
        /\ dayEnd host reading i = reading - i * msPerDay + msPerDay)
  /\ exists registrations activity,
       jpath ["data"; "registrationTrends"] report = Some (JArr registrations)
       /\ jpath ["data"; "activityTrends"] report = Some (JArr activity)
       /\ Forall2
            (fun i point =>
               fieldsOf point
                 [("date", JStr (dayLabel (dayStart host now i)));
                  ("count", JNat (countWindow created (dayStart host now i)
                                    (dayEnd host now i) (Users db)))])
            week registrations
       /\ Forall2
            (fun i point =>
               fieldsOf point
                 [("date", JStr (dayLabel (dayStart host now i)));
                  ("activeUsers",
                   JNat (countWindow User.lastLogin (dayStart host now i)
                           (dayEnd host now i) (Users db)))])
            week activity.
Proof.
  intros Hc Hs report created. split; [|split].
  - intros reading i coll name path key Hr Hi. eexists.
    split; [apply (dayPoint_is host reading coll name path key i Hr Hi)|].
    unfold dayPointOf. split; [reflexivity|]. intros Hk.
    cbn [jfield assoc].
    destruct (String.eqb_spec key "date") as [E | _]; [contradiction|].
    now rewrite String.eqb_refl.
  - intros tza reading i Hf.
    split; [apply (TrendFacts.dayStart_fixed host tza reading i Hf)
           | apply (TrendFacts.dayEnd_fixed host tza reading i Hf)].
  - unfold report, getUserReports.
    rewrite (user_locals host now db query s Hc Hs).
    do 2 eexists. split; [reflexivity|]. split; [reflexivity|].
    split; apply Forall2_map; intros i _; repeat constructor.
Qed.

(** X12 in New York at noon UTC of 10 March 2024, the day the clocks went
    forward: the window of six days back starts at 13:00 UTC of 4 March; the
    users created at noon UTC of 7 and of 9 March are in the points of 6 and
    of 8 March. *)
Lemma daily_trend_points_count_their_window_witness :
  clockOk Sample.newYork Shop.clock
  /\ startDate Sample.newYork Shop.clock Sample.noQuery = Some 1707483600000
  /\ dayStart Sample.newYork Shop.clock 6 = Shop.clock - 6 * msPerDay + 3600000
  /\ dayEnd Sample.newYork Shop.clock 6 = Shop.clock - 5 * msPerDay + 3600000
  /\ exists registrations,
       jpath ["data"; "registrationTrends"]
         (body (getUserReports Sample.newYork Shop.clock Shop.db Sample.noQuery))
       = Some (JArr registrations)
       /\ map (fun point => (jfield "date" point, jfield "count" point))
            registrations
          = [(Some (JStr "2024-03-04"), Some (JNat 0));
             (Some (JStr "2024-03-05"), Some (JNat 0));
             (Some (JStr "2024-03-06"), Some (JNat 1));
             (Some (JStr "2024-03-07"), Some (JNat 0));
             (Some (JStr "2024-03-08"), Some (JNat 1));
             (Some (JStr "2024-03-09"), Some (JNat 0));
             (Some (JStr "2024-03-10"), Some (JNat 0))].
Proof.
  assert (Hc : clockOk Sample.newYork Shop.clock).
  { apply ClockFacts.clockOk_newYork.
    unfold JSDate.maxTime, JSDate.msPerDay, Shop.clock, Sample.noon_10_march. lia. }
  assert (H : startDate Sample.newYork Shop.clock Sample.noQuery
              = Some 1707483600000) by (vm_compute; reflexivity).
  split; [exact Hc|]. split; [exact H|].
  split; [vm_compute; reflexivity|]. split; [vm_compute; reflexivity|].
  destruct (daily_trend_points_count_their_window Sample.newYork Shop.clock Shop.db
              Sample.noQuery _ Hc H)
    as (_ & _ & registrations & activity & H1 & _).
  exists registrations. split; [exact H1|].
  vm_compute in H1. injection H1 as <-.
  vm_compute. reflexivity.
Defined.

(** X13. In the user report of a server whose zone has a constant offset,
    the [activeUsers] of the seven points of the activity trend add up to no
    more than the [activeUsers] of the overview, and, when the start date is
    six days before the reading of the clock or earlier, the [count] of the
    seven points of the registration trend add up to no more than
    [recentRegistrations]. *)
Theorem daily_trends_within_overview (host : Host) tza now db query s :
  clockOk host now -> startDate host now query = Some s -> fixed host tza ->
  let report := body (getUserReports host now db query) in
  exists (active recent : nat) (activity registrations : list json)
         (actives counts : list nat),
    jpath ["data"; "overview"; "activeUsers"] report = Some (JNat active)
    /\ jpath ["data"; "overview"; "recentRegistrations"] report = Some (JNat recent)
    /\ jpath ["data"; "activityTrends"] report = Some (JArr activity)
    /\ jpath ["data"; "registrationTrends"] report = Some (JArr registrations)
    /\ Forall2 (fun n point => jfield "activeUsers" point = Some (JNat n))
         actives activity
    /\ Forall2 (fun n point => jfield "count" point = Some (JNat n))
         counts registrations
    /\ List.length activity = 7%nat /\ List.length registrations = 7%nat
    /\ (list_sum actives <= active)%nat
    /\ (s <= now - 6 * msPerDay -> (list_sum counts <= recent)%nat).
Proof.
  intros Hc Hs Hf report. unfold report, getUserReports.
  rewrite (user_locals host now db query s Hc Hs).
  pose (created := fun u : User.t => Some (User.createdAt u)).
  do 2 eexists.
  exists (map (dayPointOf host now (Users db) User.lastLogin "activeUsers") week),
    (map (dayPointOf host now (Users db) created "count") week),
    (map (fun i => countWindow User.lastLogin (dayStart host now i)
                     (dayEnd host now i) (Users db)) week),
    (map (fun i => countWindow created (dayStart host now i)
                     (dayEnd host now i) (Users db)) week).
  split; [reflexivity|]. split; [reflexivity|].
  split; [reflexivity|]. split; [reflexivity|].
  split; [apply TrendFacts.Forall2_maps; intros i _; reflexivity|].
  split; [apply TrendFacts.Forall2_maps; intros i _; reflexivity|].
  split; [reflexivity|]. split; [reflexivity|].
  cbn [UserReport.activeUsers UserReport.recentRegistrations].
  rewrite !(TrendFacts.week_tiles_fixed host tza _ now (Users db) Hf).
  rewrite count_since, (count_since created).
  rewrite (ClockFacts.daysFrom_fixed host tza now (-30) Hf).
  assert (Hd : 0 < msPerDay) by (unfold msPerDay; lia).
  split.
  - apply TrendFacts.countWindow_since. lia.
  - intros Hle. now apply TrendFacts.countWindow_since.
Qed.

(** X13 at the shop in UTC, with the period of 30 days. *)
Lemma daily_trends_within_overview_witness :
  clockOk Sample.utc Shop.clock
  /\ startDate Sample.utc Shop.clock Sample.noQuery = Some 1707480000000
  /\ fixed Sample.utc 0
  /\ 1707480000000 <= Shop.clock - 6 * msPerDay
  /\ exists (active recent : nat) (activity : list json) (actives counts : list nat),
       jpath ["data"; "overview"; "activeUsers"]
         (body (getUserReports Sample.utc Shop.clock Shop.db Sample.noQuery))
       = Some (JNat active)
       /\ jpath ["data"; "activityTrends"]
            (body (getUserReports Sample.utc Shop.clock Shop.db Sample.noQuery))
          = Some (JArr activity)
       /\ Forall2 (fun n point => jfield "activeUsers" point = Some (JNat n))
            actives activity
       /\ active = 2%nat /\ recent = 2%nat
       /\ (list_sum actives <= active)%nat
       /\ (list_sum counts <= recent)%nat.
Proof.
  assert (Hc : clockOk Sample.utc Shop.clock) by (vm_compute; split; discriminate).
  assert (H : startDate Sample.utc Shop.clock Sample.noQuery = Some 1707480000000)
    by (vm_compute; reflexivity).
  assert (Hf : fixed Sample.utc 0) by apply ClockFacts.fixed_fixedOffset.
  assert (Hle : 1707480000000 <= Shop.clock - 6 * msPerDay)
    by (vm_compute; discriminate).
  split; [exact Hc|]. split; [exact H|]. split; [exact Hf|]. split; [exact Hle|].
  destruct (daily_trends_within_overview Sample.utc 0 Shop.clock Shop.db
              Sample.noQuery _ Hc H Hf)
    as (active & recent & activity & registrations & actives & counts
        & H1 & H2 & H3 & _ & H5 & _ & _ & _ & H9 & H10).
  exists active, recent, activity, actives, counts.
  split; [exact H1|]. split; [exact H3|]. split; [exact H5|].
  assert (E1 : Some (JNat active) = Some (JNat 2))
    by (rewrite <- H1; vm_compute; reflexivity).
  assert (E2 : Some (JNat recent) = Some (JNat 2))
    by (rewrite <- H2; vm_compute; reflexivity).
  injection E1 as E1. injection E2 as E2.
  split; [lia|]. split; [lia|]. split; [exact H9 | exact (H10 Hle)].
Defined.

(** X14. The counts of the dashboard are those of the reports: its
    [totalProducts] and [totalSuppliers] are the active products and the
    active suppliers of the product and the supplier report, not their
    totals; its low-stock alert, its totals of users, quotations and
    reservations and its pending counts are those of the reports; and its
    recent activity is that of the quotation and the reservation report at
    the period of 30 days. *)
Theorem dashboard_counts_agree_with_reports (host : Host) now db query s :
  clockOk host now -> startDate host now query = Some s ->
  let board := body (getDashboardOverview host now db query) in
  let products := body (getProductReports host now db query) in
  let suppliers := body (getSupplierReports host now db query) in
  let users := body (getUserReports host now db query) in
  let quotations := body (getQuotationReports host now db query) in
  let reservations := body (getReservationReports host now db query) in
  sameCount ["data"; "overview"; "totalProducts"] board
            ["data"; "overview"; "activeProducts"] products
  /\ sameCount ["data"; "alerts"; "lowStockProducts"] board
               ["data"; "overview"; "lowStockProducts"] products
  /\ sameCount ["data"; "overview"; "totalSuppliers"] board
               ["data"; "overview"; "activeSuppliers"] suppliers
  /\ sameCount ["data"; "overview"; "totalUsers"] board
               ["data"; "overview"; "totalUsers"] users
  /\ sameCount ["data"; "overview"; "totalQuotations"] board
               ["data"; "overview"; "totalQuotations"] quotations
  /\ sameCount ["data"; "alerts"; "pendingQuotations"] board
               ["data"; "overview"; "pendingQuotations"] quotations
  /\ sameCount ["data"; "overview"; "totalReservations"] board
               ["data"; "overview"; "totalReservations"] reservations
  /\ sameCount ["data"; "alerts"; "pendingReservations"] board
               ["data"; "overview"; "pendingReservations"] reservations
  /\ (days query = Some 30 ->
      sameCount ["data"; "recentActivity"; "recentQuotations"] board
                ["data"; "overview"; "recentQuotations"] quotations
      /\ sameCount ["data"; "recentActivity"; "recentReservations"] board
                   ["data"; "overview"; "recentReservations"] reservations).
Proof.
  intros Hc Hs board products suppliers users quotations reservations.
  unfold board, products, suppliers, users, quotations, reservations,
    getDashboardOverview, getProductReports, getSupplierReports, getUserReports,
    getQuotationReports, getReservationReports.
  rewrite (dashboard_locals host now db Hc),
    (ProductLocals.product_locals host now db query s Hs),
    (supplier_locals host now db query s Hc Hs),
    (user_locals host now db query s Hc Hs).
  destruct (quotation_locals host now db query s Hc Hs) as (qpts & _ & ->).
  destruct (reservation_locals host now db query s Hc Hs) as (rpts & _ & ->).
  unfold sameCount.
  do 8 (split; [eexists; split; reflexivity|]).
  intros Hd.
  assert (Es : s = daysFrom host now (-30)).
  { rewrite (startDate_eq host now query 30 Hc Hd) in Hs.
    change (- (30)) with (-30) in Hs.
    rewrite (daysFrom_ok host now (-30) Hc) in Hs by lia.
    congruence. }
  subst s. split; eexists; split; reflexivity.
Qed.

(** X14 at the shop: four active products of five, two active suppliers
    of three. *)
Lemma dashboard_counts_agree_with_reports_witness :
  clockOk Sample.utc Shop.clock
  /\ startDate Sample.utc Shop.clock Sample.noQuery = Some 1707480000000
  /\ days Sample.noQuery = Some 30
  /\ sameCount ["data"; "overview"; "totalProducts"]
       (body (getDashboardOverview Sample.utc Shop.clock Shop.db Sample.noQuery))
       ["data"; "overview"; "activeProducts"]
       (body (getProductReports Sample.utc Shop.clock Shop.db Sample.noQuery))
  /\ sameCount ["data"; "recentActivity"; "recentQuotations"]
       (body (getDashboardOverview Sample.utc Shop.clock Shop.db Sample.noQuery))
       ["data"; "overview"; "recentQuotations"]
       (body (getQuotationReports Sample.utc Shop.clock Shop.db Sample.noQuery))
  /\ jpath ["data"; "overview"; "totalProducts"]
       (body (getDashboardOverview Sample.utc Shop.clock Shop.db Sample.noQuery))
     = Some (JNat 4)
  /\ jpath ["data"; "overview"; "totalProducts"]
       (body (getProductReports Sample.utc Shop.clock Shop.db Sample.noQuery))
     = Some (JNat 5).
Proof.
  assert (Hc : clockOk Sample.utc Shop.clock) by (vm_compute; split; discriminate).
  assert (H : startDate Sample.utc Shop.clock Sample.noQuery = Some 1707480000000)
    by (vm_compute; reflexivity).
  assert (Hd : days Sample.noQuery = Some 30) by reflexivity.
  split; [exact Hc|]. split; [exact H|]. split; [exact Hd|].
  destruct (dashboard_counts_agree_with_reports Sample.utc Shop.clock Shop.db Sample.noQuery
              _ Hc H) as (H1 & _ & _ & _ & _ & _ & _ & _ & H9).
  split; [exact H1|]. split; [exact (proj1 (H9 Hd))|].
  split; vm_compute; reflexivity.
Defined.

(** X15. The dashboard reads no period: where the period is one on which
    the start date of the five period reports is no valid date, so that
    each of them answers with the status 500, [success] false and no
    [data], the dashboard still answers 200, and what it answers is what it
    answers to a request without period. *)
Theorem dashboard_answers_where_reports_fail (host : Host) now db query :
  clockOk host now -> startDate host now query = None ->
  status (getDashboardOverview host now db query) = 200
  /\ jpath ["success"] (body (getDashboardOverview host now db query))
     = Some (JBool true)
  /\ getDashboardOverview host now db query
     = getDashboardOverview host now db {| period := None |}
  /\ failed (getProductReports host now db query)
  /\ failed (getSupplierReports host now db query)
  /\ failed (getUserReports host now db query)
  /\ failed (getQuotationReports host now db query)
  /\ failed (getReservationReports host now db query).
Proof.
  intros Hc Hs.
  split; [|split; [|split]].
  - unfold getDashboardOverview. now rewrite (dashboard_locals host now db Hc).
  - unfold getDashboardOverview. now rewrite (dashboard_locals host now db Hc).
  - reflexivity.
  - destruct (RecentFacts.invalid_start_fails host now db query Hc Hs)
      as (E1 & E2 & E3 & E4 & E5).
    rewrite E1, E2, E3, E4, E5. repeat split.
Qed.

(** X15 at the period [soon]. *)
Lemma dashboard_answers_where_reports_fail_witness :
  clockOk Sample.utc Shop.clock
  /\ startDate Sample.utc Shop.clock {| period := Some "soon" |} = None
  /\ status (getDashboardOverview Sample.utc Shop.clock Shop.db {| period := Some "soon" |})
     = 200
  /\ status (getUserReports Sample.utc Shop.clock Shop.db {| period := Some "soon" |}) = 500
  /\ jpath ["success"]
       (body (getUserReports Sample.utc Shop.clock Shop.db {| period := Some "soon" |}))
     = Some (JBool false).
Proof.
  assert (Hc : clockOk Sample.utc Shop.clock) by (vm_compute; split; discriminate).
  assert (H : startDate Sample.utc Shop.clock {| period := Some "soon" |} = None)
    by (vm_compute; reflexivity).
  split; [exact Hc|]. split; [exact H|].
  destruct (dashboard_answers_where_reports_fail Sample.utc Shop.clock Shop.db
              {| period := Some "soon" |} Hc H)
    as (H1 & _ & _ & _ & _ & (H6 & H7 & _) & _).
  split; [exact H1|]. split; [exact H6 | exact H7].
Defined.

(** ** The middleware *)

Module AccessFacts.
Import JSDate Mongo ListFacts Spec Terms Auth RouterFacts ClockFacts.

(** The first document with an identifier, and what is before it. *)
Lemma findById_split id coll u :
  findById id coll = Some u ->
  exists l1 l2,
    coll = (l1 ++ u :: l2)%list
    /\ (forall v, In v l1 -> User._id v <> id)
    /\ User._id u = id.
Proof.
  unfold findById. induction coll as [|v r IH]; cbn; [discriminate|].
  destruct (String.eqb (User._id v) id) eqn:E.
  - intros [= ->]. exists [], r. split; [reflexivity|].
    split; [intros ? [] | now apply String.eqb_eq].
  - intros H. destruct (IH H) as (l1 & l2 & -> & H1 & H2).
    exists (v :: l1), l2. split; [reflexivity|]. split; [|exact H2].
    intros w [<- | Hw]; [now apply String.eqb_neq | now apply H1].
Qed.

Lemma findByIdAndUpdate_split id f l1 u l2 :
  (forall v, In v l1 -> User._id v <> id) -> User._id u = id ->
  findByIdAndUpdate id f (l1 ++ u :: l2) = (l1 ++ f u :: l2)%list.
Proof.
  intros H1 H2. induction l1 as [|v r IH]; cbn.
  - apply String.eqb_eq in H2. now rewrite H2.
  - assert (E : String.eqb (User._id v) id = false)
      by (apply String.eqb_neq, H1; now left).
    rewrite E, IH; [reflexivity|]. intros; apply H1; now right.
Qed.

Lemma findByIdAndDelete_split id l1 u l2 :
  (forall v, In v l1 -> User._id v <> id) -> User._id u = id ->
  UserController.findByIdAndDelete id (l1 ++ u :: l2) = (l1 ++ l2)%list.
Proof.
  intros H1 H2. induction l1 as [|v r IH]; cbn.
  - apply String.eqb_eq in H2. now rewrite H2.
  - assert (E : String.eqb (User._id v) id = false)
      by (apply String.eqb_neq, H1; now left).
    rewrite E, IH; [reflexivity|]. intros; apply H1; now right.
Qed.

Lemma findById_absent id coll :
  (forall v, In v coll -> User._id v <> id) -> findById id coll = None.
Proof.
  intros H. unfold findById.
  destruct (List.find _ coll) as [u|] eqn:E; [|reflexivity].
  apply find_some in E as [Hu E]. apply String.eqb_eq in E.
  now destruct (H u Hu).
Qed.

Lemma totalLogins_touch t l1 u l2 :
  totalLogins (l1 ++ touch t u :: l2) = totalLogins (l1 ++ u :: l2) + 1.
Proof.
  unfold totalLogins. rewrite !map_app, !sum_app. cbn [map].
  rewrite !sum_cons. cbn [touch User.loginCount]. lia.
Qed.

(** When [protect] lets a request through. *)
Lemma protect_passes verify now db req db' :
  protect verify now db req = (db', None) ->
  exists tok id user t,
    token req = Some tok /\ String.eqb tok "" = false
    /\ verify tok = Some id /\ findById id (Users db) = Some user
    /\ User.isActive user = true /\ castDate (Date_now now) = Some t
    /\ db' = withUsers db (findByIdAndUpdate id (touch t) (Users db)).
Proof.
  intros H.
  destruct (protect_cases verify now db req)
    as [[answer Ha] | (tok & id & user & t & H1 & H2 & H3 & H4 & H5 & H6 & H7)].
  - rewrite Ha in H. discriminate.
  - exists tok, id, user, t. rewrite H7 in H. injection H as <-.
    repeat split; assumption.
Qed.

End AccessFacts.

(** X16. When [protect] answers a request itself, it has written nothing,
    the router sends that answer and runs no controller, the answer is a
    failure with status 401 or 403, and the status is 403 exactly when the
    token verifies for a stored user whose account is deactivated. *)
Theorem protect_rejects_without_writing verify (host : Host) now later db req db'
  answer :
  Auth.protect verify now db req = (db', Some answer) ->
  db' = db
  /\ reportRouter verify host now later db req = (db, answer)
  /\ jpath ["success"] (body answer) = Some (JBool false)
  /\ (status answer = 401 \/ status answer = 403)
  /\ (status answer = 403
      <-> exists tok id user,
            Auth.token req = Some tok /\ tok <> ""
            /\ verify tok = Some id
            /\ Auth.findById id (Users db) = Some user
            /\ User.isActive user = false).
Proof.
  intros H. unfold reportRouter. rewrite H. revert H. unfold Auth.protect.
  destruct (Auth.token req) as [tok|].
  2: { intros [= <- <-]. repeat split; try (now left).
       - discriminate.
       - intros (? & ? & ? & [=] & _). }
  destruct (String.eqb tok "") eqn:Et.
  { intros [= <- <-]. repeat split; try (now left).
    - discriminate.
    - intros (tok' & id & user & [= <-] & Hne & _). apply String.eqb_eq in Et.
      contradiction. }
  destruct (verify tok) as [id|] eqn:Ev.
  2: { intros [= <- <-]. repeat split; try (now left).
       - discriminate.
       - intros (tok' & id & user & [= <-] & _ & Hv & _). congruence. }
  destruct (Auth.findById id (Users db)) as [user|] eqn:Ef.
  2: { intros [= <- <-]. repeat split; try (now left).
       - discriminate.
       - intros (tok' & id' & user & [= <-] & _ & Hv & Hf & _). congruence. }
  destruct (User.isActive user) eqn:Ea; cbn [negb].
  2: { intros [= <- <-]. repeat split; try (now right).
       intros _. exists tok, id, user. apply String.eqb_neq in Et.
       repeat split; assumption. }
  destruct (castDate (Date_now now)) as [t|]; [discriminate|].
  intros [= <- <-]. repeat split; try (now left).
  - discriminate.
  - intros (tok' & id' & user' & [= <-] & _ & Hv & Hf & Hi). congruence.
Qed.

(** X16 at a request without Authorization header. *)
Lemma protect_rejects_without_writing_witness :
  Auth.protect Shop.verify Shop.clock Shop.db
    {| route := users; authorization := None; query := Sample.noQuery |}
  = (Shop.db, Some (Auth.unauthorized 401 "Not authorized to access this route"))
  /\ reportRouter Shop.verify Sample.utc Shop.clock (Shop.clock + 25) Shop.db
       {| route := users; authorization := None; query := Sample.noQuery |}
     = (Shop.db, Auth.unauthorized 401 "Not authorized to access this route").
Proof.
  assert (H : Auth.protect Shop.verify Shop.clock Shop.db
                {| route := users; authorization := None; query := Sample.noQuery |}
              = (Shop.db,
                 Some (Auth.unauthorized 401 "Not authorized to access this route")))
    by reflexivity.
  split; [exact H|].
  exact (proj1 (proj2 (protect_rejects_without_writing Shop.verify Sample.utc Shop.clock
                         (Shop.clock + 25) Shop.db _ _ _ H))).
Defined.

(** X17. When [protect] lets a request through, the token verifies for a
    stored user whose account is active, and the one write is to the first
    document with that identifier: its login count is one more and its last
    login is the clock reading.  Every other document of the user
    collection and every other collection is as before, so the login counts
    of the collection add up to one more. *)
Theorem protect_counts_one_login verify (host : Host) now db req db' :
  clockOk host now ->
  Auth.protect verify now db req = (db', None) ->
  exists tok user before after,
    Auth.token req = Some tok /\ verify tok = Some (User._id user)
    /\ User.isActive user = true
    /\ Users db = (before ++ user :: after)%list
    /\ (forall v, In v before -> User._id v <> User._id user)
    /\ Users db' = (before ++ Auth.touch now user :: after)%list
    /\ totalLogins (Users db') = totalLogins (Users db) + 1
    /\ Products db' = Products db /\ Suppliers db' = Suppliers db
    /\ Quotations db' = Quotations db /\ Reservations db' = Reservations db.
Proof.
  intros Hc H.
  destruct (AccessFacts.protect_passes verify now db req db' H)
    as (tok & id & user & t & H1 & H2 & H3 & H4 & H5 & H6 & ->).
  rewrite (Date_now_ok host now Hc) in H6. injection H6 as <-.
  destruct (AccessFacts.findById_split id (Users db) user H4)
    as (l1 & l2 & E & Hl1 & Hid).
  exists tok, user, l1, l2. subst id.
  assert (Eu : Auth.findByIdAndUpdate (User._id user) (Auth.touch now) (Users db)
               = (l1 ++ Auth.touch now user :: l2)%list).
  { rewrite E. now apply AccessFacts.findByIdAndUpdate_split. }
  cbn [Auth.withUsers Users Products Suppliers Quotations Reservations].
  rewrite Eu.
  repeat (split; [assumption || reflexivity|]).
  split; [|repeat split; reflexivity].
  rewrite E. apply AccessFacts.totalLogins_touch.
Qed.

(** X17 at the shop and the token of the customer [c1]. *)
Lemma protect_counts_one_login_witness :
  clockOk Sample.utc Shop.clock
  /\ snd (Auth.protect Shop.verify Shop.clock Shop.db (Shop.bearer users "c1")) = None
  /\ totalLogins (Users Shop.db) = 22
  /\ totalLogins
       (Users (fst (Auth.protect Shop.verify Shop.clock Shop.db
                      (Shop.bearer users "c1")))) = 22 + 1.
Proof.
  assert (Hc : clockOk Sample.utc Shop.clock) by (vm_compute; split; discriminate).
  split; [exact Hc|]. split; [vm_compute; reflexivity|].
  split; [vm_compute; reflexivity|].
  destruct (Auth.protect Shop.verify Shop.clock Shop.db (Shop.bearer users "c1"))
    as [db' [answer|]] eqn:E; [vm_compute in E; discriminate|].
  destruct (protect_counts_one_login Shop.verify Sample.utc Shop.clock Shop.db _ db' Hc E)
    as (tok & user & before & after & _ & _ & _ & _ & _ & _ & H7 & _).
  exact H7.
Defined.

(** X18. The report router asks for no role: for a token that verifies for
    a stored user with an active account, administrator or customer, and a
    period with a valid start date, every one of the six routes answers 200
    with a report; [now] is what [protect] reads on the clock and [later]
    what the controller reads. *)
Theorem every_active_user_reads_every_report verify (host : Host) now later db req tok
  user s :
  clockOk host now -> clockOk host later ->
  startDate host later (query req) = Some s ->
  Auth.token req = Some tok -> tok <> "" ->
  verify tok = Some (User._id user) ->
  Auth.findById (User._id user) (Users db) = Some user ->
  User.isActive user = true ->
  let answer := snd (reportRouter verify host now later db req) in
  status answer = 200 /\ jpath ["success"] (body answer) = Some (JBool true).
Proof.
  intros Hn Hc Hs Ht Hne Hv Hf Ha answer. unfold answer, reportRouter, Auth.protect.
  apply String.eqb_neq in Hne.
  rewrite Ht, Hne, Hv, Hf, Ha, (Date_now_ok host now Hn). cbn [negb castDate snd].
  set (db' := Auth.withUsers db _).
  destruct (route req); unfold controller.
  - unfold getDashboardOverview. rewrite (dashboard_locals host later db' Hc).
    split; reflexivity.
  - unfold getProductReports.
    rewrite (ProductLocals.product_locals host later db' _ s Hs). split; reflexivity.
  - unfold getSupplierReports.
    rewrite (supplier_locals host later db' _ s Hc Hs). split; reflexivity.
  - unfold getUserReports.
    rewrite (user_locals host later db' _ s Hc Hs). split; reflexivity.
  - unfold getQuotationReports.
    destruct (quotation_locals host later db' _ s Hc Hs) as (pts & _ & ->).
    split; reflexivity.
  - unfold getReservationReports.
    destruct (reservation_locals host later db' _ s Hc Hs) as (pts & _ & ->).
    split; reflexivity.
Qed.

(** X18 at the shop: the customer [c1] reads the user report, which reads
    the clock 25 ms after [protect]. *)
Lemma every_active_user_reads_every_report_witness :
  clockOk Sample.utc Shop.clock
  /\ clockOk Sample.utc (Shop.clock + 25)
  /\ startDate Sample.utc (Shop.clock + 25) (query (Shop.bearer users "c1"))
     = Some 1707480000025
  /\ Auth.token (Shop.bearer users "c1") = Some "c1"
  /\ User.role (Shop.user "c1" User.customer true 3
                  (Some (Shop.clock - 2 * Shop.day)) (Shop.clock - 3 * Shop.day))
     = User.customer
  /\ status (snd (reportRouter Shop.verify Sample.utc Shop.clock (Shop.clock + 25)
                    Shop.db (Shop.bearer users "c1"))) = 200.
Proof.
  assert (Hn : clockOk Sample.utc Shop.clock) by (vm_compute; split; discriminate).
  assert (Hc : clockOk Sample.utc (Shop.clock + 25))
    by (vm_compute; split; discriminate).
  assert (H : startDate Sample.utc (Shop.clock + 25) (query (Shop.bearer users "c1"))
              = Some 1707480000025) by (vm_compute; reflexivity).
  assert (Ht : Auth.token (Shop.bearer users "c1") = Some "c1")
    by (vm_compute; reflexivity).
  split; [exact Hn|]. split; [exact Hc|]. split; [exact H|]. split; [exact Ht|].
  split; [reflexivity|].
  refine (proj1 (every_active_user_reads_every_report Shop.verify Sample.utc Shop.clock
                   (Shop.clock + 25) Shop.db (Shop.bearer users "c1") "c1"
                   (Shop.user "c1" User.customer true 3
                      (Some (Shop.clock - 2 * Shop.day)) (Shop.clock - 3 * Shop.day))
                   _ Hn Hc H Ht _ _ _ _)).
  - discriminate.
  - reflexivity.
  - reflexivity.
  - reflexivity.
Defined.

(** X19. The user report that the router serves counts the request that
    asks for it: with [now] what [protect] reads on the clock and [later]
    what the controller reads, no more than 28 days of 24 hours after it,
    [totalLogins] is one more than the login counts stored before the
    request and the requesting user is among the [activeUsers], which are
    one at least, while [totalUsers] is the number of users stored. *)
Theorem user_report_counts_its_own_request verify (host : Host) now later db req db' s :
  clockOk host now -> clockOk host later ->
  later - now <= 28 * msPerDay ->
  startDate host later (query req) = Some s ->
  route req = users ->
  Auth.protect verify now db req = (db', None) ->
  let report := body (snd (reportRouter verify host now later db req)) in
  exists (active : nat) user,
    jpath ["data"; "activityStats"; "totalLogins"] report
    = Some (JInt (totalLogins (Users db) + 1))
    /\ jpath ["data"; "overview"; "totalUsers"] report
       = Some (JNat (List.length (Users db)))
    /\ jpath ["data"; "overview"; "activeUsers"] report = Some (JNat active)
    /\ active = countSince User.lastLogin (daysFrom host later (-30)) (Users db')
    /\ In user (Users db') /\ User.lastLogin user = Some now
    /\ daysFrom host later (-30) <= now
    /\ (1 <= active)%nat.
Proof.
  intros Hn Hc Hlate Hs Hr H report.
  destruct (AccessFacts.protect_passes verify now db req db' H)
    as (tok & id & user & t & H1 & H2 & H3 & H4 & H5 & H6 & Edb).
  rewrite (Date_now_ok host now Hn) in H6. injection H6 as <-.
  destruct (AccessFacts.findById_split id (Users db) user H4)
    as (l1 & l2 & E & Hl1 & Hid).
  assert (Eu : Users db' = (l1 ++ Auth.touch now user :: l2)%list).
  { rewrite Edb. cbn [Auth.withUsers Users]. rewrite E.
    now apply AccessFacts.findByIdAndUpdate_split. }
  assert (Hin : In (Auth.touch now user) (Users db'))
    by (rewrite Eu; apply in_elt).
  assert (Hago : daysFrom host later (-30) <= now).
  { pose proof (daysFrom_near host later later (-30) Hc) as Hnear.
    unfold msPerDay in *. lia. }
  assert (Hact : (1 <= countSince User.lastLogin (daysFrom host later (-30))
                        (Users db'))%nat).
  { unfold countSince.
    destruct (in_split _ _ Hin) as (a & b & ->).
    rewrite filter_app, length_app. cbn [filter Auth.touch User.lastLogin].
    destruct (Z.leb_spec (daysFrom host later (-30)) now); [cbn; lia | lia]. }
  unfold report, reportRouter. rewrite H, Hr. cbn [snd controller].
  unfold getUserReports. rewrite (user_locals host later db' _ s Hc Hs).
  exists (countSince User.lastLogin (daysFrom host later (-30)) (Users db')),
    (Auth.touch now user).
  cbn [bind handler res_json body UserReport.response UserReport.activityStats
       UserReport.totalUsers UserReport.activeUsers UserReport.activityTrends].
  assert (Hg : groupAll (Users db') = [Users db']).
  { rewrite Eu. destruct l1; reflexivity. }
  rewrite Hg. cbn [map index0 or_ week].
  rewrite (count_since User.lastLogin), filter_true.
  assert (Hlen : List.length (Users db') = List.length (Users db)).
  { rewrite Eu, E, !length_app. reflexivity. }
  assert (Hsum : sum (map User.loginCount (Users db')) = totalLogins (Users db) + 1).
  { rewrite Eu, E. apply AccessFacts.totalLogins_touch. }
  split.
  { transitivity (Some (JInt (sum (map User.loginCount (Users db')))));
      [reflexivity | now rewrite Hsum]. }
  split; [now rewrite Hlen|]. split; [reflexivity|]. split; [reflexivity|].
  split; [exact Hin|]. split; [reflexivity|]. split; [exact Hago | exact Hact].
Qed.

(** X19 at the shop, where the controller reads the clock 25 ms after
    [protect]: 22 logins are stored and the report says 23. *)
Lemma user_report_counts_its_own_request_witness :
  clockOk Sample.utc Shop.clock
  /\ clockOk Sample.utc (Shop.clock + 25)
  /\ Shop.clock + 25 - Shop.clock <= 28 * msPerDay
  /\ startDate Sample.utc (Shop.clock + 25) (query (Shop.bearer users "c1"))
     = Some 1707480000025
  /\ route (Shop.bearer users "c1") = users
  /\ snd (Auth.protect Shop.verify Shop.clock Shop.db (Shop.bearer users "c1")) = None
  /\ totalLogins (Users Shop.db) = 22
  /\ jpath ["data"; "activityStats"; "totalLogins"]
       (body (snd (reportRouter Shop.verify Sample.utc Shop.clock (Shop.clock + 25)
                     Shop.db (Shop.bearer users "c1"))))
     = Some (JInt (totalLogins (Users Shop.db) + 1))
  /\ jpath ["data"; "overview"; "activeUsers"]
       (body (snd (reportRouter Shop.verify Sample.utc Shop.clock (Shop.clock + 25)
                     Shop.db (Shop.bearer users "c1"))))
     = Some (JNat 2).
Proof.
  assert (Hn : clockOk Sample.utc Shop.clock) by (vm_compute; split; discriminate).
  assert (Hc : clockOk Sample.utc (Shop.clock + 25))
    by (vm_compute; split; discriminate).
  assert (Hl : Shop.clock + 25 - Shop.clock <= 28 * msPerDay)
    by (vm_compute; discriminate).
  assert (H : startDate Sample.utc (Shop.clock + 25) (query (Shop.bearer users "c1"))
              = Some 1707480000025) by (vm_compute; reflexivity).
  split; [exact Hn|]. split; [exact Hc|]. split; [exact Hl|]. split; [exact H|].
  split; [reflexivity|].
  split; [vm_compute; reflexivity|]. split; [vm_compute; reflexivity|].
  destruct (Auth.protect Shop.verify Shop.clock Shop.db (Shop.bearer users "c1"))
    as [db' [answer|]] eqn:E; [vm_compute in E; discriminate|].
  destruct (user_report_counts_its_own_request Shop.verify Sample.utc Shop.clock
              (Shop.clock + 25) Shop.db (Shop.bearer users "c1") db' _
              Hn Hc Hl H eq_refl E)
    as (active & user & H1 & _).
  split; [exact H1|]. vm_compute. reflexivity.
Defined.

(** X20. After a user whom [protect] let through has deleted the own
    account with [deleteMe], the answer is 200, the user collection is the
    one stored before the request without that user, every other document
    is kept, and, identifiers being unique, the same token is answered 401,
    no user being found for it. *)
Theorem deleted_account_cannot_return verify (host : Host) now db req db1 :
  clockOk host now ->
  NoDup (map User._id (Users db)) ->
  Auth.protect verify now db req = (db1, None) ->
  exists user,
    Access.reqUser verify now db req = Some user
    /\ In user (Users db)
    /\ let db2 := fst (UserController.deleteMe db1 user) in
       let answer := snd (UserController.deleteMe db1 user) in
       status answer = 200
       /\ jpath ["success"] (body answer) = Some (JBool true)
       /\ (List.length (Users db2) + 1 = List.length (Users db))%nat
       /\ (forall v, In v (Users db2)
                     <-> In v (Users db) /\ User._id v <> User._id user)
       /\ Products db2 = Products db /\ Suppliers db2 = Suppliers db
       /\ Quotations db2 = Quotations db /\ Reservations db2 = Reservations db
       /\ Auth.protect verify now db2 req
          = (db2, Some (Auth.unauthorized 401 "No user found for this token")).
Proof.
  intros Hc Hnd H.
  destruct (AccessFacts.protect_passes verify now db req db1 H)
    as (tok & id & user & t & H1 & H2 & H3 & H4 & H5 & H6 & Edb).
  pose proof H6 as H6'.
  rewrite (Date_now_ok host now Hc) in H6'. injection H6' as <-.
  destruct (AccessFacts.findById_split id (Users db) user H4)
    as (l1 & l2 & E & Hl1 & Hid).
  exists user. split.
  { unfold Access.reqUser. now rewrite H1, H2, H3, H4, H5, H6. }
  split; [rewrite E; apply in_elt|].
  assert (Eu : Users db1 = (l1 ++ Auth.touch now user :: l2)%list).
  { rewrite Edb. cbn [Auth.withUsers Users]. rewrite E.
    now apply AccessFacts.findByIdAndUpdate_split. }
  assert (Hf1 : Auth.findById (User._id user) (Users db1)
                = Some (Auth.touch now user)).
  { rewrite Edb. cbn [Auth.withUsers Users]. rewrite Hid.
    now apply RouterFacts.findById_updated. }
  assert (Hdel : UserController.findByIdAndDelete (User._id user) (Users db1)
                 = (l1 ++ l2)%list).
  { rewrite Eu, Hid. now apply AccessFacts.findByIdAndDelete_split. }
  assert (Hrest : forall v, In v (l1 ++ l2)%list -> User._id v <> id).
  { intros v Hv Hvid. rewrite E, map_app in Hnd. cbn [map] in Hnd.
    apply NoDup_remove_2 in Hnd. apply Hnd. rewrite <- map_app, Hid, <- Hvid.
    now apply in_map. }
  unfold UserController.deleteMe. rewrite Hf1, Hdel.
  cbn [fst snd Auth.withUsers Users Products Suppliers Quotations Reservations].
  split; [reflexivity|]. split; [reflexivity|].
  split; [rewrite E, !length_app; cbn; lia|].
  split.
  { intros v. rewrite E, Hid. split.
    - intros Hv. split; [|now apply Hrest].
      apply in_app_or in Hv as [Hv | Hv]; apply in_or_app;
        [now left | right; now right].
    - intros [Hv Hne]. apply in_app_or in Hv as [Hv | [<- | Hv]];
        [apply in_or_app; now left | congruence | apply in_or_app; now right]. }
  rewrite Edb. cbn [Auth.withUsers Products Suppliers Quotations Reservations].
  do 4 (split; [reflexivity|]).
  unfold Auth.protect. rewrite H1, H2, H3. cbn [Auth.withUsers Users].
  rewrite (AccessFacts.findById_absent id (l1 ++ l2) Hrest). reflexivity.
Qed.

(** X20 at the shop and the customer [c1]. *)
Lemma deleted_account_cannot_return_witness :
  clockOk Sample.utc Shop.clock
  /\ NoDup (map User._id (Users Shop.db))
  /\ snd (Auth.protect Shop.verify Shop.clock Shop.db (Shop.bearer users "c1")) = None
  /\ exists user,
       Access.reqUser Shop.verify Shop.clock Shop.db (Shop.bearer users "c1")
       = Some user
       /\ User._id user = "c1"
       /\ status (snd (UserController.deleteMe
                         (fst (Auth.protect Shop.verify Shop.clock Shop.db
                                 (Shop.bearer users "c1"))) user)) = 200.
Proof.
  assert (Hc : clockOk Sample.utc Shop.clock) by (vm_compute; split; discriminate).
  assert (Hnd : NoDup (map User._id (Users Shop.db))).
  { cbn. repeat constructor; cbn; intuition discriminate. }
  split; [exact Hc|]. split; [exact Hnd|]. split; [vm_compute; reflexivity|].
  destruct (Auth.protect Shop.verify Shop.clock Shop.db (Shop.bearer users "c1"))
    as [db1 [answer|]] eqn:E; [vm_compute in E; discriminate|].
  destruct (deleted_account_cannot_return Shop.verify Sample.utc Shop.clock Shop.db _ db1
              Hc Hnd E) as (user & H1 & _ & H3 & _).
  exists user. split; [exact H1|]. split; [|exact H3].
  vm_compute in H1. injection H1 as <-. reflexivity.
Defined.

(** X21. [adminOrSelf] lets a request through exactly when it carries a
    user who is an administrator, or whose identifier is the one named in
    the path; whoever passes [authorize('admin')] passes [adminOrSelf];
    [authorize] lets through exactly the users whose role is listed; and
    both answer 401 to a request without user and 403 to any other request
    they stop. *)
Theorem admin_or_self_lets_admin_and_owner_through user paramId roles :
  (Access.adminOrSelf user paramId = None
   <-> exists u, user = Some u
                 /\ (User.role u = User.admin
                     \/ (paramId = Some (User._id u) /\ User._id u <> "")))
  /\ (Access.authorize roles user = None
      <-> exists u, user = Some u /\ In (Access.roleName (User.role u)) roles)
  /\ (Access.authorize ["admin"] user = None ->
      Access.adminOrSelf user paramId = None)
  /\ (forall r, Access.adminOrSelf user paramId = Some r \/
                Access.authorize roles user = Some r ->
        jpath ["success"] (body r) = Some (JBool false)
        /\ (user = None -> status r = 401)
        /\ (user <> None -> status r = 403)).
Proof.
  split; [|split; [|split]].
  - unfold Access.adminOrSelf. destruct user as [u|].
    2: { split; [discriminate | intros (? & [=] & _)]. }
    destruct (User.role u) eqn:Er.
    + split; [|reflexivity]. intros _. exists u. split; [reflexivity | now left].
    + destruct paramId as [id|].
      2: { split; [discriminate|].
           intros (? & [= <-] & [H | [H _]]); congruence. }
      destruct (String.eqb id "") eqn:E1; cbn [negb andb].
      * split; [discriminate|]. apply String.eqb_eq in E1.
        intros (? & [= <-] & [H | [[= ->] H]]); congruence.
      * destruct (String.eqb (User._id u) id) eqn:E2.
        -- split; [|reflexivity]. intros _. exists u. split; [reflexivity|].
           right. apply String.eqb_eq in E2. apply String.eqb_neq in E1.
           subst id. now split.
        -- split; [discriminate|]. apply String.eqb_neq in E2.
           intros (? & [= <-] & [H | [[= ->] H]]); congruence.
  - unfold Access.authorize. destruct user as [u|].
    2: { split; [discriminate | intros (? & [=] & _)]. }
    destruct (existsb _ roles) eqn:E; cbn [negb].
    + split; [|reflexivity]. intros _. exists u. split; [reflexivity|].
      apply existsb_exists in E as (x & Hx & E). apply String.eqb_eq in E.
      now subst x.
    + split; [discriminate|]. intros (? & [= <-] & Hin).
      assert (existsb (String.eqb (Access.roleName (User.role u))) roles = true).
      { apply existsb_exists. eexists. split; [exact Hin | apply String.eqb_refl]. }
      congruence.
  - unfold Access.authorize, Access.adminOrSelf. destruct user as [u|]; [|discriminate].
    destruct (User.role u); [reflexivity | discriminate].
  - intros r [H | H]; revert H.
    + unfold Access.adminOrSelf. destruct user as [u|].
      2: { intros [= <-]. repeat split; congruence. }
      destruct (User.role u); [discriminate|].
      destruct paramId as [id|].
      2: { intros [= <-]. repeat split; congruence. }
      destruct (negb (String.eqb id "") && String.eqb (User._id u) id);
        [discriminate|].
      intros [= <-]. repeat split; congruence.
    + unfold Access.authorize. destruct user as [u|].
      2: { intros [= <-]. repeat split; congruence. }
      destruct (negb (existsb _ roles)); [|discriminate].
      intros [= <-]. repeat split; congruence.
Qed.

(** ** The product controller *)

Module StockFacts.
Import Mongo ListFacts Spec ProductController.

Lemma stored_product_split id coll p :
  findById id coll = Some p ->
  exists l1 l2,
    coll = (l1 ++ p :: l2)%list
    /\ (forall v, In v l1 -> Product._id v <> id)
    /\ Product._id p = id.
Proof.
  unfold findById. induction coll as [|v r IH]; cbn; [discriminate|].
  destruct (String.eqb (Product._id v) id) eqn:E.
  - intros [= ->]. exists [], r. split; [reflexivity|].
    split; [intros ? [] | now apply String.eqb_eq].
  - intros H. destruct (IH H) as (l1 & l2 & -> & H1 & H2).
    exists (v :: l1), l2. split; [reflexivity|]. split; [|exact H2].
    intros w [<- | Hw]; [now apply String.eqb_neq | now apply H1].
Qed.

Lemma findById_first id l1 p l2 :
  (forall v, In v l1 -> Product._id v <> id) -> Product._id p = id ->
  findById id (l1 ++ p :: l2) = Some p.
Proof.
  intros H1 H2. unfold findById. induction l1 as [|v r IH]; cbn.
  - apply String.eqb_eq in H2. now rewrite H2.
  - assert (E : String.eqb (Product._id v) id = false)
      by (apply String.eqb_neq, H1; now left).
    rewrite E. apply IH. intros; apply H1; now right.
Qed.



Lemma store_split p' l1 p l2 :
  (forall v, In v l1 -> Product._id v <> Product._id p') ->
  Product._id p = Product._id p' ->
  store p' (l1 ++ p :: l2) = (l1 ++ p' :: l2)%list.
Proof.
  intros H1 H2. induction l1 as [|v r IH]; cbn.
  - apply String.eqb_eq in H2. now rewrite H2.
  - assert (E : String.eqb (Product._id v) (Product._id p') = false)
      by (apply String.eqb_neq, H1; now left).
    rewrite E, IH; [reflexivity|]. intros; apply H1; now right.
Qed.


(** What [save] and the read that follows it come to, for a document
    whose identifier is that of a stored one. *)
Lemma saved_cases validate now db l1 p l2 p0 :
  Products db = (l1 ++ p :: l2)%list ->
  (forall v, In v l1 -> Product._id v <> Product._id p) ->
  Product._id p0 = Product._id p ->
  (validate p0 <> None
   /\ saved validate now db p0
      = (db, answer 500 (message "Server error while updating stock")))
  \/ (validate p0 = None
      /\ saved validate now db p0
         = (withProducts db (l1 ++ stamp p0 now :: l2),
            answer 200
              (product (stamp p0 now)
                 (populate (withProducts db (l1 ++ stamp p0 now :: l2))
                    (stamp p0 now))))).
Proof.
  intros E H1 H2. unfold saved, save.
  destruct (validate p0) as [e|] eqn:Ev; [left; split; [discriminate | reflexivity]|].
  right. split; [reflexivity|].
  assert (Es : store (stamp p0 now) (Products db) = (l1 ++ stamp p0 now :: l2)%list).
  { rewrite E. apply store_split; cbn [stamp Product._id]; [|congruence].
    intros v Hv. rewrite H2. now apply H1. }
  rewrite Es. cbn [withProducts Products stamp Product._id].
  rewrite (findById_first (Product._id p0) l1 (stamp p0 now) l2);
    [reflexivity | | reflexivity].
  intros v Hv. rewrite H2. now apply H1.
Qed.

(** The values that [distinct] keeps. *)
Lemma distinctFrom_spec seen values :
  NoDup (distinctFrom seen values)
  /\ forall c, In c (distinctFrom seen values) <-> In c values /\ ~ In c seen.
Proof.
  revert seen. induction values as [|v r IH]; intros seen; cbn.
  - split; [constructor | intros c; tauto].
  - destruct (existsb (String.eqb v) seen) eqn:E.
    + destruct (IH seen) as [Hn Hi]. split; [exact Hn|].
      intros c. rewrite Hi. split; [tauto|].
      intros [[<- | Hc] Hs]; [|tauto].
      apply existsb_exists in E as (x & Hx & E). apply String.eqb_eq in E.
      subst x. contradiction.
    + destruct (IH (v :: seen)) as [Hn Hi]. split.
      * constructor; [|exact Hn]. rewrite Hi. cbn. tauto.
      * intros c. cbn. rewrite Hi. cbn.
        assert (Hv : ~ In v seen).
        { intros Hv.
          assert (existsb (String.eqb v) seen = true)
            by (apply existsb_exists; exists v; split;
                [exact Hv | apply String.eqb_refl]).
          congruence. }
        destruct (string_dec v c) as [-> | Hne]; [tauto|]. tauto.
Qed.

End StockFacts.

(** X22. [checkLowStock] lists the products of which the product report
    has an entry in its detailed low-stock list, the active products with
    [0 < stock <= minStock]: an entry of the report has the [_id], name,
    sku, stock and minimum stock of its product; the count of
    [checkLowStock] is the length of its list and the number of those
    entries; and the supplier it joins to a product is a stored supplier
    with the identifier the product refers to. *)
Theorem low_stock_alerts_are_the_report_list (host : Host) now db query s :
  startDate host now query = Some s ->
  exists low alerts entries,
    jpath ["data"; "lowStockProducts"] (body (getProductReports host now db query))
    = Some (JArr entries)
    /\ Forall2
         (fun p entry =>
            fieldsOf entry
              [("_id", JStr (Product._id p)); ("name", JStr (Product.name p));
               ("sku", JStr (Product.sku p)); ("stock", JInt (Product.stock p));
               ("minStock", JInt (Product.minStock p))])
         low entries
    /\ ProductController.checkLowStock db
       = ProductController.answer 200
           (ProductController.listing (List.length alerts)
              (map (fun p => (p, ProductController.populate db p)) alerts))
    /\ Permutation low alerts
    /\ List.length alerts = List.length entries
    /\ (forall p, In p alerts
                  <-> In p (Products db) /\ Product.isActive p = true
                      /\ 0 < Product.stock p <= Product.minStock p)
    /\ (forall p sup, In p alerts -> ProductController.populate db p = Some sup ->
          In sup (Suppliers db) /\ Product.supplier p = Some (Supplier._id sup)).
Proof.
  intros Hs. unfold getProductReports.
  rewrite (ProductLocals.product_locals host now db query s Hs).
  set (alerts := filter (fun p => lowStock p && Product.isActive p
                                  && (0 <? Product.stock p)) (Products db)).
  set (low := ascending Product.stock
                (filter (fun p => lowStock p && (0 <? Product.stock p)
                                  && Product.isActive p) (Products db))).
  assert (Hperm : Permutation low alerts).
  { unfold low. rewrite ascending_perm. unfold alerts.
    erewrite filter_ext; [reflexivity|].
    intros p. cbv beta.
    destruct (lowStock p), (0 <? Product.stock p), (Product.isActive p); reflexivity. }
  exists low, alerts, (map ProductReport.selectLowStock low).
  split; [reflexivity|].
  split; [apply Forall2_map; intros p _; repeat constructor|].
  split; [reflexivity|]. split; [exact Hperm|].
  split; [now rewrite length_map, (Permutation_length Hperm)|].
  split.
  - intros p. unfold alerts. rewrite filter_In. unfold lowStock.
    destruct (Product.isActive p);
      destruct (Z.leb_spec (Product.stock p) (Product.minStock p));
      destruct (Z.ltb_spec 0 (Product.stock p)); cbn;
      intuition (try lia; try discriminate).
  - intros p sup _. unfold ProductController.populate.
    destruct (Product.supplier p) as [id|]; [|discriminate].
    intros H. apply find_some in H as [H1 H2]. apply String.eqb_eq in H2.
    split; [exact H1 | now rewrite H2].
Qed.

(** X22 at the shop: one alert, for the product [p1] of supplier [s1]. *)
Lemma low_stock_alerts_are_the_report_list_witness :
  startDate Sample.utc Shop.clock Sample.noQuery = Some 1707480000000
  /\ exists alerts entries,
       ProductController.checkLowStock Shop.db
       = ProductController.answer 200
           (ProductController.listing (List.length alerts)
              (map (fun p => (p, ProductController.populate Shop.db p)) alerts))
       /\ jpath ["data"; "lowStockProducts"]
            (body (getProductReports Sample.utc Shop.clock Shop.db Sample.noQuery))
          = Some (JArr entries)
       /\ List.length alerts = List.length entries
       /\ map (fun entry => (jfield "_id" entry, jfield "stock" entry)) entries
          = [(Some (JStr "p1"), Some (JInt 5))].
Proof.
  assert (H : startDate Sample.utc Shop.clock Sample.noQuery = Some 1707480000000)
    by (vm_compute; reflexivity).
  split; [exact H|].
  destruct (low_stock_alerts_are_the_report_list Sample.utc Shop.clock Shop.db Sample.noQuery
              _ H) as (low & alerts & entries & H1 & _ & H3 & _ & H5 & _).
  exists alerts, entries. split; [exact H3|]. split; [exact H1|].
  split; [exact H5|].
  vm_compute in H1. injection H1 as <-. vm_compute. reflexivity.
Defined.

Module UpdateFacts.
Import Mongo ListFacts Spec ProductController StockFacts.

(** The outcomes of [updateStock]. *)
Lemma updateStock_cases isValid validate now db id operation quantity :
  let db' := fst (updateStock isValid validate now db id operation quantity) in
  let a := snd (updateStock isValid validate now db id operation quantity) in
  (db' = db /\ (code a = 400 \/ code a = 404 \/ code a = 500))
  \/ (exists q p before after stock',
        quantity = Some q /\ 0 < q /\ isValid id = true
        /\ Products db = (before ++ p :: after)%list
        /\ (forall v, In v before -> Product._id v <> id)
        /\ Product._id p = id
        /\ ((operation = Some "add" /\ stock' = Product.stock p + q)
            \/ (operation = Some "subtract" /\ q <= Product.stock p
                /\ stock' = Product.stock p - q))
        /\ validate (setStock p stock') = None
        /\ db' = withProducts db (before ++ stamp (setStock p stock') now :: after)
        /\ a = answer 200
                 (product (stamp (setStock p stock') now)
                    (populate db' (stamp (setStock p stock') now)))).
Proof.
  cbv zeta. unfold updateStock.
  destruct operation as [op|]; [|left; cbn; tauto].
  destruct quantity as [q|]; [|left; cbn; tauto].
  destruct (String.eqb op "" || (q =? 0) || (q <=? 0)) eqn:E0; [left; cbn; tauto|].
  apply orb_false_elim in E0 as [E0 Eq]. apply orb_false_elim in E0 as [_ Eq0].
  apply Z.leb_gt in Eq.
  destruct (isValid id) eqn:Ev; cbn [negb]; [|left; cbn; tauto].
  destruct (findById id (Products db)) as [p|] eqn:Ef; [|left; cbn; tauto].
  destruct (stored_product_split id _ p Ef) as (l1 & l2 & E & Hl1 & Hid).
  assert (Hl1' : forall v, In v l1 -> Product._id v <> Product._id p)
    by (intros v Hv; rewrite Hid; now apply Hl1).
  destruct (String.eqb op "add") eqn:Eadd.
  - apply String.eqb_eq in Eadd. subst op.
    destruct (saved_cases validate now db l1 p l2 (setStock p (Product.stock p + q))
                E Hl1' eq_refl) as [[_ ->] | [Hv ->]]; [left; cbn; tauto|].
    right. exists q, p, l1, l2, (Product.stock p + q). cbn [fst snd].
    repeat (split; [assumption || reflexivity || (left; now split)|]). reflexivity.
  - destruct (String.eqb op "subtract") eqn:Esub; [|left; cbn; tauto].
    apply String.eqb_eq in Esub. subst op.
    destruct (Z.ltb_spec (Product.stock p) q); [left; cbn; tauto|].
    destruct (saved_cases validate now db l1 p l2 (setStock p (Product.stock p - q))
                E Hl1' eq_refl) as [[_ ->] | [Hv ->]]; [left; cbn; tauto|].
    right. exists q, p, l1, l2, (Product.stock p - q). cbn [fst snd].
    repeat (split; [assumption || reflexivity || (right; now repeat split)|]).
    reflexivity.
Qed.

End UpdateFacts.


(** X24. [updateStock] never makes a stock negative: when no stored stock
    is negative before the request, none is after it, whatever the request
    and whatever the validators of the schema accept. *)
Theorem update_stock_keeps_stock_non_negative isValid validate now db id operation
  quantity :
  (forall p, In p (Products db) -> 0 <= Product.stock p) ->
  forall p,
    In p (Products
            (fst (ProductController.updateStock isValid validate now db id operation
                    quantity))) ->
    0 <= Product.stock p.
Proof.
  intros Hinv.
  destruct (UpdateFacts.updateStock_cases isValid validate now db id operation quantity)
    as [[Hdb Hc]
       | (q & p0 & l1 & l2 & st & Hq & Hpos & Hv & E & Hl1 & Hid & Hop & Hval & Hdb & Ha)].
  - rewrite Hdb. exact Hinv.
  - rewrite Hdb. cbn [ProductController.withProducts Products]. intros p Hp.
    assert (H0 : 0 <= Product.stock p0) by (apply Hinv; rewrite E; apply in_elt).
    apply in_app_or in Hp as [Hp | [<- | Hp]].
    + apply Hinv. rewrite E. apply in_or_app. now left.
    + cbn. destruct Hop as [[_ ->] | (_ & Hle & ->)]; lia.
    + apply Hinv. rewrite E. apply in_or_app. right. now right.
Qed.

(** X24 at the shop, where the validators accept no negative stock, and at
    one with no validator: taking 9 of the 5 in stock is refused. *)
Lemma update_stock_keeps_stock_non_negative_witness :
  (forall p, In p (Products Shop.db) -> 0 <= Product.stock p)
  /\ (forall p,
        In p (Products
                (fst (ProductController.updateStock Shop.isValid (fun _ => None)
                        Shop.clock Shop.db "p1" (Some "subtract") (Some 9)))) ->
        0 <= Product.stock p)
  /\ ProductController.code
       (snd (ProductController.updateStock Shop.isValid (fun _ => None) Shop.clock
               Shop.db "p1" (Some "subtract") (Some 9))) = 400.
Proof.
  assert (H : forall p, In p (Products Shop.db) -> 0 <= Product.stock p).
  { intros p Hp. cbn in Hp.
    repeat (destruct Hp as [<- | Hp]; [cbn; lia|]). destruct Hp. }
  split; [exact H|]. split; [|vm_compute; reflexivity].
  exact (update_stock_keeps_stock_non_negative Shop.isValid (fun _ => None) Shop.clock
           Shop.db "p1" (Some "subtract") (Some 9) H).
Defined.

(** X25. Where the stocks and the quantity are integers and the stocks of
    the product with the quantity added are safe integers of JavaScript (at
    most 2^53 in absolute value, so that the sum and the difference are
    exact), adding a quantity to the stock of a product and then taking the
    same quantity from it, both answered 200, leaves every collection as it
    was but for the time of last update of that product. *)
Theorem add_then_subtract_restores_stock isValid validate now1 now2 db id q :
  let r1 :=
    ProductController.updateStock isValid validate now1 db id (Some "add") (Some q) in
  let r2 :=
    ProductController.updateStock isValid validate now2 (fst r1) id (Some "subtract")
      (Some q) in
  (forall p, In p (Products db) -> Product._id p = id ->
             Z.abs (Product.stock p) + q <= 2 ^ 53) ->
  ProductController.code (snd r1) = 200 ->
  ProductController.code (snd r2) = 200 ->
  exists before p after,
    Products db = (before ++ p :: after)%list
    /\ Product._id p = id
    /\ Products (fst r2) = (before ++ ProductController.stamp p now2 :: after)%list
    /\ map Product.stock (Products (fst r2)) = map Product.stock (Products db)
    /\ Suppliers (fst r2) = Suppliers db /\ Users (fst r2) = Users db
    /\ Quotations (fst r2) = Quotations db
    /\ Reservations (fst r2) = Reservations db.
Proof.
  cbv zeta. intros _ H1 H2.
  destruct (UpdateFacts.updateStock_cases isValid validate now1 db id (Some "add")
              (Some q))
    as [[_ Hc] | (q1 & p & l1 & l2 & st & Hq & Hpos & Hv & E & Hl1 & Hid & Hop & Hval
                  & Hdb & Ha)]; [lia|].
  injection Hq as <-.
  destruct Hop as [[_ ->] | ([=] & _)].
  set (r1 := ProductController.updateStock isValid validate now1 db id (Some "add")
               (Some q)) in *.
  destruct (UpdateFacts.updateStock_cases isValid validate now2 (fst r1) id
              (Some "subtract") (Some q))
    as [[_ Hc] | (q2 & p' & l1' & l2' & st' & Hq' & _ & _ & E' & Hl1' & Hid' & Hop'
                  & _ & Hdb' & _)]; [lia|].
  injection Hq' as <-.
  destruct Hop' as [([=] & _) | (_ & Hle & ->)].
  rewrite Hdb in E'. cbn [ProductController.withProducts Products] in E'.
  assert (Hf : ProductController.findById id
                 (l1 ++ ProductController.stamp
                          (ProductController.setStock p (Product.stock p + q)) now1
                     :: l2)
               = Some p').
  { rewrite E'. now apply StockFacts.findById_first. }
  rewrite (StockFacts.findById_first id l1 _ l2 Hl1) in Hf by exact Hid.
  injection Hf as <-.
  assert (El : l1' = l1 /\ l2' = l2).
  { clear - E' Hl1 Hl1' Hid.
    revert l1' E' Hl1'. induction l1 as [|v r IH]; intros [|v' r'] E' Hl1'.
    - cbn in E'. injection E' as <-. now split.
    - cbn in E'. injection E' as Ev _. exfalso.
      apply (Hl1' v' (or_introl eq_refl)). rewrite <- Ev. exact Hid.
    - cbn in E'. injection E' as Ev _. exfalso.
      apply (Hl1 v (or_introl eq_refl)). rewrite Ev. exact Hid.
    - cbn in E'. injection E' as <- E'.
      destruct (IH (fun w Hw => Hl1 w (or_intror Hw)) r' E'
                  (fun w Hw => Hl1' w (or_intror Hw))) as [-> ->].
      now split. }
  destruct El as [-> ->].
  exists l1, p, l2. rewrite Hdb', Hdb.
  cbn [ProductController.withProducts Products Suppliers Users Quotations
       Reservations].
  assert (Ep : ProductController.stamp
                 (ProductController.setStock
                    (ProductController.stamp
                       (ProductController.setStock p (Product.stock p + q)) now1)
                    (Product.stock
                       (ProductController.stamp
                          (ProductController.setStock p (Product.stock p + q)) now1)
                     - q)) now2
               = ProductController.stamp p now2).
  { destruct p. unfold ProductController.stamp, ProductController.setStock.
    cbn. f_equal. lia. }
  rewrite Ep.
  split; [exact E|]. split; [exact Hid|]. split; [reflexivity|].
  split; [|repeat split; reflexivity].
  rewrite E, !map_app. reflexivity.
Qed.

(** X25 at the shop: three more of [p1], and three fewer. *)
Lemma add_then_subtract_restores_stock_witness :
  (forall p, In p (Products Shop.db) -> Product._id p = "p1" ->
             Z.abs (Product.stock p) + 3 <= 2 ^ 53)
  /\ ProductController.code
       (snd (ProductController.updateStock Shop.isValid Shop.validate Shop.clock Shop.db
               "p1" (Some "add") (Some 3))) = 200
  /\ ProductController.code
       (snd (ProductController.updateStock Shop.isValid Shop.validate
               (Shop.clock + 1)
               (fst (ProductController.updateStock Shop.isValid Shop.validate
                       Shop.clock Shop.db "p1" (Some "add") (Some 3)))
               "p1" (Some "subtract") (Some 3))) = 200
  /\ map Product.stock
       (Products
          (fst (ProductController.updateStock Shop.isValid Shop.validate
                  (Shop.clock + 1)
                  (fst (ProductController.updateStock Shop.isValid Shop.validate
                          Shop.clock Shop.db "p1" (Some "add") (Some 3)))
                  "p1" (Some "subtract") (Some 3))))
     = map Product.stock (Products Shop.db).
Proof.
  assert (Hsafe : forall p, In p (Products Shop.db) -> Product._id p = "p1" ->
                            Z.abs (Product.stock p) + 3 <= 2 ^ 53).
  { intros p [<- | [<- | [<- | [<- | [<- | []]]]]] _; cbn; lia. }
  assert (H1 : ProductController.code
                 (snd (ProductController.updateStock Shop.isValid Shop.validate
                         Shop.clock Shop.db "p1" (Some "add") (Some 3))) = 200)
    by (vm_compute; reflexivity).
  assert (H2 : ProductController.code
                 (snd (ProductController.updateStock Shop.isValid Shop.validate
                         (Shop.clock + 1)
                         (fst (ProductController.updateStock Shop.isValid
                                 Shop.validate Shop.clock Shop.db "p1" (Some "add")
                                 (Some 3)))
                         "p1" (Some "subtract") (Some 3))) = 200)
    by (vm_compute; reflexivity).
  split; [exact Hsafe|]. split; [exact H1|]. split; [exact H2|].
  destruct (add_then_subtract_restores_stock Shop.isValid Shop.validate Shop.clock
              (Shop.clock + 1) Shop.db "p1" 3 Hsafe H1 H2)
    as (before & p & after & _ & _ & _ & H & _).
  exact H.
Defined.


(** X27. [getCategories] answers the categories of the active products,
    each once: they are the [_id] of the entries of [categoryDistribution]
    in the product report. *)
Theorem categories_are_those_of_the_distribution (host : Host) now db query s :
  startDate host now query = Some s ->
  exists names ids entries,
    ProductController.getCategories db
    = ProductController.answer 200 (ProductController.categories names)
    /\ NoDup names
    /\ (forall c, In c names
                  <-> exists p, In p (Products db) /\ Product.isActive p = true
                                /\ Product.category p = c)
    /\ jpath ["data"; "categoryDistribution"]
         (body (getProductReports host now db query))
       = Some (JArr entries)
    /\ Forall2 (fun id entry => jfield "_id" entry = Some (JStr id)) ids entries
    /\ Permutation ids names.
Proof.
  intros Hs. unfold getProductReports.
  rewrite (ProductLocals.product_locals host now db query s Hs).
  set (active := filter Product.isActive (Products db)).
  destruct (StockFacts.distinctFrom_spec [] (map Product.category active))
    as [Hnd Hin].
  assert (Hnames : forall c,
            In c (ProductController.distinct (map Product.category active))
            <-> exists p, In p (Products db) /\ Product.isActive p = true
                          /\ Product.category p = c).
  { intros c. unfold ProductController.distinct. rewrite Hin, in_map_iff. split.
    - intros [(p & <- & Hp) _]. apply filter_In in Hp as [Hp Ha]. now exists p.
    - intros (p & Hp & Ha & <-). split; [|intros []].
      exists p. split; [reflexivity|]. apply filter_In. now split. }
  destruct (group_partition String.eqb Product.category String.eqb_eq active)
    as [[Hgn Hg] Hperm].
  set (groups := group String.eqb Product.category active) in *.
  set (sorted := descending (fun g => size (snd g)) groups).
  exists (ProductController.distinct (map Product.category active)),
    (map fst sorted), (map ProductReport.categoryGroup sorted).
  split; [reflexivity|]. split; [exact Hnd|].
  split; [exact Hnames|]. split; [reflexivity|].
  split; [apply TrendFacts.Forall2_maps; intros g _; reflexivity|].
  assert (Hsort : Permutation sorted groups) by apply descending_perm.
  rewrite (Permutation_map fst Hsort).
  apply NoDup_Permutation; [exact Hgn | exact Hnd|].
  intros c. rewrite Hnames. split.
  - intros Hc. apply in_map_iff in Hc as (g & <- & Hgin).
    destruct (Hg g Hgin) as [Hne Hk].
    destruct (snd g) as [|p ps] eqn:Eg; [congruence|].
    assert (Hp : In p active).
    { apply (Permutation_in _ Hperm). apply in_concat. exists (snd g).
      split; [now apply in_map | rewrite Eg; now left]. }
    apply filter_In in Hp as [Hp Ha]. exists p.
    split; [exact Hp|]. split; [exact Ha|]. apply Hk. now left.
  - intros (p & Hp & Ha & <-).
    assert (Hpa : In p active) by (apply filter_In; now split).
    apply (Permutation_in _ (Permutation_sym Hperm)) in Hpa.
    apply in_concat in Hpa as (ds & Hds & Hpd).
    apply in_map_iff in Hds as (g & <- & Hgin).
    rewrite (proj2 (Hg g Hgin) p Hpd). now apply in_map.
Qed.

(** X27 at the shop: tools and paint, and not the category of the
    inactive product. *)
Lemma categories_are_those_of_the_distribution_witness :
  startDate Sample.utc Shop.clock Sample.noQuery = Some 1707480000000
  /\ exists (names ids : list string) (entries : list json),
       ProductController.getCategories Shop.db
       = ProductController.answer 200 (ProductController.categories names)
       /\ jpath ["data"; "categoryDistribution"]
            (body (getProductReports Sample.utc Shop.clock Shop.db Sample.noQuery))
          = Some (JArr entries)
       /\ Forall2 (fun id entry => jfield "_id" entry = Some (JStr id)) ids entries
       /\ Permutation ids names
       /\ names = ["tools"; "paint"].
Proof.
  assert (H : startDate Sample.utc Shop.clock Sample.noQuery = Some 1707480000000)
    by (vm_compute; reflexivity).
  split; [exact H|].
  destruct (categories_are_those_of_the_distribution Sample.utc Shop.clock Shop.db
              Sample.noQuery _ H) as (names & ids & entries & H1 & _ & _ & H4 & H5 & H6).
  exists names, ids, entries. split; [exact H1|]. split; [exact H4|].
  split; [exact H5|]. split; [exact H6|].
  vm_compute in H1. now injection H1 as <-.
Defined.

(** ** Distributions *)

(** X28. The [topSuppliers] of the product report are ten entries of the
    [supplierProductStats] of the supplier report, or all of them when they
    are ten or fewer: each has its [_id] and [productCount] in an entry
    there, and no entry there whose [_id] is not among the top suppliers
    has a greater [productCount] than one of them. *)
Theorem top_suppliers_lead_the_supplier_report (host : Host) now db query s :
  clockOk host now -> startDate host now query = Some s ->
  exists top stats,
    jpath ["data"; "topSuppliers"] (body (getProductReports host now db query))
    = Some (JArr top)
    /\ jpath ["data"; "supplierProductStats"]
         (body (getSupplierReports host now db query))
       = Some (JArr stats)
    /\ List.length top = Nat.min 10 (List.length stats)
    /\ (forall e, In e top ->
          exists f id n,
            In f stats
            /\ fieldsOf e [("_id", JStr id); ("productCount", JInt n)]
            /\ fieldsOf f [("_id", JStr id); ("productCount", JInt n)])
    /\ (forall e f id ne nf,
          In e top -> In f stats ->
          jfield "_id" f = Some (JStr id) ->
          (forall e', In e' top -> jfield "_id" e' <> Some (JStr id)) ->
          jfield "productCount" e = Some (JInt ne) ->
          jfield "productCount" f = Some (JInt nf) ->
          nf <= ne).
Proof.
  intros Hc Hs. unfold getProductReports, getSupplierReports.
  rewrite (ProductLocals.product_locals host now db query s Hs),
    (supplier_locals host now db query s Hc Hs).
  set (rows := descending (fun g => size (snd (fst g)))
                 (lookupUnwind (Suppliers db) Supplier._id fst
                    (group String.eqb supplierRef
                       (filter (fun p => Product.isActive p && hasSupplier p)
                          (Products db))))).
  assert (Hsort : StronglySorted
                    (fun a b => size (snd (fst b)) <= size (snd (fst a))) rows)
    by apply descending_sorted.
  exists (map ProductReport.supplierGroup (limit 10 rows)),
    (map SupplierReport.supplierGroup rows).
  unfold limit.
  split; [reflexivity|]. split; [reflexivity|].
  split; [rewrite !length_map; apply length_firstn|].
  split.
  - intros e He. apply in_map_iff in He as (row & <- & Hrow).
    apply in_firstn in Hrow.
    exists (SupplierReport.supplierGroup row), (fst (fst row)),
      (size (snd (fst row))).
    split; [now apply in_map|]. split; repeat constructor.
  - intros e f id ne nf He Hf Hid Hnot Hne Hnf.
    apply in_map_iff in He as (re & <- & Hre).
    apply in_map_iff in Hf as (rf & <- & Hrf).
    change (Some (JInt (size (snd (fst re)))) = Some (JInt ne)) in Hne.
    change (Some (JInt (size (snd (fst rf)))) = Some (JInt nf)) in Hnf.
    apply Some_JInt_inj in Hne, Hnf. subst ne nf.
    rewrite <- (firstn_skipn 10 rows) in Hrf.
    apply in_app_or in Hrf as [Hrf | Hrf].
    + exfalso. apply (Hnot (ProductReport.supplierGroup rf)); [now apply in_map|].
      exact Hid.
    + now apply (proj2 (sorted_split _ 10 rows Hsort) re rf).
Qed.

(** X28 at the shop: the suppliers [s1], with two products, and [s2], with
    one, in both reports. *)
Lemma top_suppliers_lead_the_supplier_report_witness :
  clockOk Sample.utc Shop.clock
  /\ startDate Sample.utc Shop.clock Sample.noQuery = Some 1707480000000
  /\ exists top stats,
       jpath ["data"; "topSuppliers"]
         (body (getProductReports Sample.utc Shop.clock Shop.db Sample.noQuery))
       = Some (JArr top)
       /\ jpath ["data"; "supplierProductStats"]
            (body (getSupplierReports Sample.utc Shop.clock Shop.db Sample.noQuery))
          = Some (JArr stats)
       /\ List.length top = Nat.min 10 (List.length stats)
       /\ map (fun e => (jfield "_id" e, jfield "productCount" e)) top
          = [(Some (JStr "s1"), Some (JInt 2)); (Some (JStr "s2"), Some (JInt 1))]
       /\ map (fun e => (jfield "_id" e, jfield "productCount" e)) stats
          = [(Some (JStr "s1"), Some (JInt 2)); (Some (JStr "s2"), Some (JInt 1))].
Proof.
  assert (Hc : clockOk Sample.utc Shop.clock) by (vm_compute; split; discriminate).
  assert (H : startDate Sample.utc Shop.clock Sample.noQuery = Some 1707480000000)
    by (vm_compute; reflexivity).
  split; [exact Hc|]. split; [exact H|].
  destruct (top_suppliers_lead_the_supplier_report Sample.utc Shop.clock Shop.db
              Sample.noQuery _ Hc H) as (top & stats & H1 & H2 & H3 & _).
  exists top, stats. split; [exact H1|]. split; [exact H2|]. split; [exact H3|].
  vm_compute in H1. injection H1 as <-.
  vm_compute in H2. injection H2 as <-.
  split; vm_compute; reflexivity.
Defined.

(** X29. The location distribution of the supplier report and the
    category statistics of the quotation report count every document once,
    in the entry whose [_id] is its location or category: the entries have
    distinct [_id], the [count] of an entry is the number of its documents
    and is not 0, the entries come by descending [count], and their counts
    add up to the total of the overview. *)
Theorem distributions_add_up_to_totals (host : Host) now db query s :
  clockOk host now -> startDate host now query = Some s ->
  let suppliers := body (getSupplierReports host now db query) in
  let quotations := body (getQuotationReports host now db query) in
  (exists (groups : list (string * list Supplier.t)) entries,
     jpath ["data"; "locationDistribution"] suppliers = Some (JArr entries)
     /\ Forall2
          (fun g entry =>
             fieldsOf entry [("_id", JStr (fst g)); ("count", JInt (size (snd g)))])
          groups entries
     /\ wellGrouped Supplier.location groups
     /\ Permutation (List.concat (map snd groups)) (Suppliers db)
     /\ StronglySorted (fun a b => size (snd b) <= size (snd a)) groups
     /\ jpath ["data"; "overview"; "totalSuppliers"] suppliers
        = Some (JInt (sum (map (fun g => size (snd g)) groups))))
  /\ (exists (groups : list (string * list Quotation.t)) entries,
        jpath ["data"; "categoryStats"] quotations = Some (JArr entries)
        /\ Forall2
             (fun g entry =>
                fieldsOf entry
                  [("_id", JStr (fst g)); ("count", JInt (size (snd g)))])
             groups entries
        /\ wellGrouped Quotation.productCategory groups
        /\ Permutation (List.concat (map snd groups)) (Quotations db)
        /\ StronglySorted (fun a b => size (snd b) <= size (snd a)) groups
        /\ jpath ["data"; "overview"; "totalQuotations"] quotations
           = Some (JInt (sum (map (fun g => size (snd g)) groups)))).
Proof.
  intros Hc Hs suppliers quotations.
  unfold suppliers, quotations, getSupplierReports, getQuotationReports.
  rewrite (supplier_locals host now db query s Hc Hs).
  destruct (quotation_locals host now db query s Hc Hs) as (pts & _ & ->).
  split.
  - set (groups := group String.eqb Supplier.location (Suppliers db)).
    destruct (group_partition String.eqb Supplier.location String.eqb_eq
                (Suppliers db)) as [[Hnd Hg] Hperm].
    fold groups in Hnd, Hg, Hperm.
    set (sorted := descending (fun g => size (snd g)) groups).
    assert (Hsort : Permutation sorted groups) by apply descending_perm.
    assert (Hcat : Permutation (List.concat (map snd sorted)) (Suppliers db)).
    { rewrite <- Hperm. apply perm_concat, Permutation_map, Hsort. }
    exists sorted, (map SupplierReport.locationGroup sorted).
    split; [reflexivity|].
    split; [apply Forall2_map; intros g _; repeat constructor|].
    split; [|split; [|split]].
    + split.
      * eapply Permutation_NoDup; [|exact Hnd]. apply Permutation_map. now symmetry.
      * intros g Hin. apply Hg. now apply (Permutation_in _ Hsort).
    + exact Hcat.
    + apply descending_sorted.
    + cbn. unfold JNat. do 3 f_equal. rewrite filter_true.
      rewrite <- (Permutation_length Hcat), <- sum_sizes, map_map. reflexivity.
  - set (groups := group String.eqb Quotation.productCategory (Quotations db)).
    destruct (group_partition String.eqb Quotation.productCategory String.eqb_eq
                (Quotations db)) as [[Hnd Hg] Hperm].
    fold groups in Hnd, Hg, Hperm.
    set (sorted := descending (fun g => size (snd g)) groups).
    assert (Hsort : Permutation sorted groups) by apply descending_perm.
    assert (Hcat : Permutation (List.concat (map snd sorted)) (Quotations db)).
    { rewrite <- Hperm. apply perm_concat, Permutation_map, Hsort. }
    exists sorted, (map QuotationReport.categoryGroup sorted).
    split; [reflexivity|].
    split; [apply Forall2_map; intros g _; repeat constructor|].
    split; [|split; [|split]].
    + split.
      * eapply Permutation_NoDup; [|exact Hnd]. apply Permutation_map. now symmetry.
      * intros g Hin. apply Hg. now apply (Permutation_in _ Hsort).
    + exact Hcat.
    + apply descending_sorted.
    + cbn. unfold JNat. do 3 f_equal. rewrite filter_true.
      rewrite <- (Permutation_length Hcat), <- sum_sizes, map_map. reflexivity.
Qed.

(** X29 at the shop: two suppliers in Colombo and one in Kandy; five
    quotations of one category. *)
Lemma distributions_add_up_to_totals_witness :
  clockOk Sample.utc Shop.clock
  /\ startDate Sample.utc Shop.clock Sample.noQuery = Some 1707480000000
  /\ exists locations categories,
       jpath ["data"; "locationDistribution"]
         (body (getSupplierReports Sample.utc Shop.clock Shop.db Sample.noQuery))
       = Some (JArr locations)
       /\ jpath ["data"; "categoryStats"]
            (body (getQuotationReports Sample.utc Shop.clock Shop.db Sample.noQuery))
          = Some (JArr categories)
       /\ map (fun e => (jfield "_id" e, jfield "count" e)) locations
          = [(Some (JStr "Colombo"), Some (JInt 2));
             (Some (JStr "Kandy"), Some (JInt 1))]
       /\ map (fun e => (jfield "_id" e, jfield "count" e)) categories
          = [(Some (JStr "tools"), Some (JInt 5))].
Proof.
  assert (Hc : clockOk Sample.utc Shop.clock) by (vm_compute; split; discriminate).
  assert (H : startDate Sample.utc Shop.clock Sample.noQuery = Some 1707480000000)
    by (vm_compute; reflexivity).
  split; [exact Hc|]. split; [exact H|].
  destruct (distributions_add_up_to_totals Sample.utc Shop.clock Shop.db Sample.noQuery _
              Hc H) as [(lg & locations & H1 & _) (cg & categories & H2 & _)].
  exists locations, categories. split; [exact H1|]. split; [exact H2|].
  vm_compute in H1. injection H1 as <-.
  vm_compute in H2. injection H2 as <-.
  split; vm_compute; reflexivity.
Defined.

(** X30. In the reservation report [topCustomers] has at most ten entries
    with distinct addresses as [_id], by descending [reservationCount]; the
    [reservationCount] of an entry is the number of reservations made with
    its address, at least one; and no address left out has more
    reservations than an address of the list. *)
Theorem top_customers_are_the_most_frequent (host : Host) now db query s :
  clockOk host now -> startDate host now query = Some s ->
  let report := body (getReservationReports host now db query) in
  exists (top rest : list (string * list Reservation.t)) entries,
    jpath ["data"; "topCustomers"] report = Some (JArr entries)
    /\ Forall2
         (fun g entry =>
            fieldsOf entry
              [("_id", JStr (fst g)); ("reservationCount", JInt (size (snd g)))])
         top entries
    /\ (List.length entries <= 10)%nat
    /\ NoDup (map fst (top ++ rest))
    /\ Permutation (List.concat (map snd (top ++ rest))) (Reservations db)
    /\ (forall g, In g (top ++ rest) ->
          0 < size (snd g)
          /\ size (snd g)
             = size (filter (fun r => String.eqb (Reservation.email r) (fst g))
                       (Reservations db)))
    /\ StronglySorted (fun a b => size (snd b) <= size (snd a)) top
    /\ (forall a b, In a top -> In b rest -> size (snd b) <= size (snd a))
    /\ (rest <> [] -> List.length entries = 10%nat).
Proof.
  intros Hc Hs report. unfold report, getReservationReports.
  destruct (reservation_locals host now db query s Hc Hs) as (pts & _ & ->).
  set (groups := group String.eqb Reservation.email (Reservations db)).
  destruct (group_partition String.eqb Reservation.email String.eqb_eq
              (Reservations db)) as [[Hnd Hg] Hperm].
  fold groups in Hnd, Hg, Hperm.
  set (sorted := descending (fun g => size (snd g)) groups).
  assert (Hsort : Permutation sorted groups) by apply descending_perm.
  assert (Hcat : Permutation (List.concat (map snd sorted)) (Reservations db)).
  { rewrite <- Hperm. apply perm_concat, Permutation_map, Hsort. }
  assert (Hs' : StronglySorted (fun a b => size (snd b) <= size (snd a)) sorted)
    by apply descending_sorted.
  destruct (sorted_split _ 10 sorted Hs') as [H1 H2].
  exists (limit 10 sorted), (skipn 10 sorted),
    (map ReservationReport.customerGroup (limit 10 sorted)).
  unfold limit. rewrite firstn_skipn.
  split; [reflexivity|].
  split; [apply Forall2_map; intros g _; repeat constructor|].
  split; [rewrite length_map; apply firstn_le_length|].
  split; [eapply Permutation_NoDup; [|exact Hnd]; apply Permutation_map;
          now symmetry|].
  split; [exact Hcat|].
  split.
  { intros g Hin. apply (Permutation_in _ Hsort) in Hin.
    pose proof (wellGrouped_count String.eqb Reservation.email String.eqb_eq
                  groups (Reservations db) g (conj Hnd Hg) Hperm Hin) as Hn.
    split.
    - destruct (Hg g Hin) as [Hne _]. unfold size.
      destruct (snd g); [congruence | cbn; lia].
    - unfold size. now rewrite Hn. }
  split; [exact H1|]. split; [exact H2|].
  intros Hne. rewrite length_map, length_firstn.
  destruct (le_lt_dec (List.length sorted) 10) as [Hle | Hlt]; [|lia].
  exfalso. apply Hne. now apply skipn_all2.
Qed.

(** X30 at the shop: the address [x@shop] with three reservations and
    [y@shop] with one. *)
Lemma top_customers_are_the_most_frequent_witness :
  clockOk Sample.utc Shop.clock
  /\ startDate Sample.utc Shop.clock Sample.noQuery = Some 1707480000000
  /\ exists entries,
       jpath ["data"; "topCustomers"]
         (body (getReservationReports Sample.utc Shop.clock Shop.db Sample.noQuery))
       = Some (JArr entries)
       /\ (List.length entries <= 10)%nat
       /\ map (fun e => (jfield "_id" e, jfield "reservationCount" e)) entries
          = [(Some (JStr "x@shop"), Some (JInt 3));
             (Some (JStr "y@shop"), Some (JInt 1))].
Proof.
  assert (Hc : clockOk Sample.utc Shop.clock) by (vm_compute; split; discriminate).
  assert (H : startDate Sample.utc Shop.clock Sample.noQuery = Some 1707480000000)
    by (vm_compute; reflexivity).
  split; [exact Hc|]. split; [exact H|].
  destruct (top_customers_are_the_most_frequent Sample.utc Shop.clock Shop.db Sample.noQuery
              _ Hc H) as (top & rest & entries & H1 & _ & H3 & _).
  exists entries. split; [exact H1|]. split; [exact H3|].
  vm_compute in H1. injection H1 as <-. vm_compute. reflexivity.
Defined.
